(** * Seat inventory, booking lifecycle and refund policy of the travel
      booking application (models.py, forms.py, views.py)

    The Django models [TravelOption] and [Booking] are embedded as records,
    the database as two finite maps keyed by primary key, and every model
    method and view as a computation in a small state-and-exception monad
    over the [World] (tables, wall clock, source of uuids).

    Conventions of the embedding
    - integers ([IntegerField]) are [Z]; Python integers do not wrap;
    - [DecimalField(max_digits=10, decimal_places=2)] amounts are [Z]
      numbers of hundredths (cents); Decimal times int is exact;
    - a Python float is an IEEE 754 binary64 value: a [spec_float] of the
      Standard Library, with its operations at precision 53 and maximal
      exponent 1024; [float(d)] of a Decimal and a decimal literal are the
      floats nearest to them, the product of two floats is [SFmul];
    - datetimes are [Z] microseconds since the epoch, timedeltas are [Z]
      microseconds; [total_seconds()] and its quotient by 3600 are only
      compared with the integers 7200, 3600, 24 and 6, and these comparisons
      are taken in exact rational arithmetic ([Q]): a timedelta is a whole
      number of microseconds, which rounding to binary64 does not move
      across one of these integers;
    - an attribute that is [None] (or the empty string for the reference)
      on a freshly built instance is an [option];
    - a related object ([self.travel_option]) is resolved through the
      foreign key against the table;
    - the clock does not advance while one method or view runs;
    - the tables are those of a SQLite database.  The INSERT of a new
      booking is checked as the database checks it: the primary key and
      [booking_reference] are unique, the NOT NULL columns are filled, the
      amount has the digits and the integer the range of its column.  An
      instance read from a table carries what its row holds: its save is the
      UPDATE of that row, which is taken to meet the constraints of the
      columns; [update_availability_to sqlite] is [update_availability]
      with the limits of the columns of the stored row. *)

From Stdlib Require Import ZArith QArith Lia Ascii String.
From Stdlib Require Import DecimalString SpecFloat.
From stdpp Require Import base decidable option gmap strings.
From stdpp Require Import list sorting.

Local Open Scope Z_scope.

(** ** Data model *)

(** [models.UUIDField]: a 128-bit identifier. *)
Abbreviation UUID := N.

Module TravelOption.

(** [TRAVEL_TYPES] *)
Inductive Type_ := FLIGHT | TRAIN | BUS.

(** [STATUS_CHOICES] *)
Inductive Status := ACTIVE | CANCELLED | FULL.

Record t := Build {
    travel_id : UUID;
    travel_code : string;
    type : Type_;
    company_name : string;
    source : string;
    destination : string;
    departure_time : Z;
    arrival_time : Z;
    price : Z;
    total_seats : Z;
    available_seats : Z;
    status : Status;
    amenities : string;
    created_at : option Z;
    updated_at : option Z
}.

#[global] Instance Type_eq_dec : EqDecision Type_ :=
  ltac:(solve_decision).

#[global] Instance Status_eq_dec : EqDecision Status :=
  ltac:(solve_decision).

(** Attribute assignments [self.f = v]. *)
Definition set_available_seats (v : Z) (self : t) : t :=
    Build (travel_id self) (travel_code self) (type self) (company_name self)
          (source self) (destination self) (departure_time self)
          (arrival_time self) (price self) (total_seats self) v (status self)
          (amenities self) (created_at self) (updated_at self).

Definition set_status (v : Status) (self : t) : t :=
    Build (travel_id self) (travel_code self) (type self) (company_name self)
          (source self) (destination self) (departure_time self)
          (arrival_time self) (price self) (total_seats self)
          (available_seats self) v (amenities self) (created_at self)
          (updated_at self).

Definition set_timestamps (c u : option Z) (self : t) : t :=
    Build (travel_id self) (travel_code self) (type self) (company_name self)
          (source self) (destination self) (departure_time self)
          (arrival_time self) (price self) (total_seats self)
          (available_seats self) (status self) (amenities self) c u.

End TravelOption.

(** The booking reference [f"{prefix}{timestamp}{random_suffix}"], kept as its
    three components: the two-letter prefix, the minute of the clock that
    [strftime('%Y%m%d%H%M')] prints, and the first four hexadecimal digits of
    a uuid (its top 16 bits). *)
Record Reference := MkReference {
  ref_prefix : string;
  ref_minute : Z;
  ref_suffix : N
}.

#[global] Instance Reference_eq_dec : EqDecision Reference :=
  ltac:(solve_decision).

Module Booking.

(** [STATUS_CHOICES] *)
Inductive Status := PENDING | CONFIRMED | CANCELLED | REFUNDED.

Record t := Build {
    booking_id : option UUID;              (* primary key, [self.pk] *)
    booking_reference : option Reference;  (* [None] is the empty string *)
    user : option N;
    travel_option : option UUID;           (* foreign key *)
    number_of_seats : Z;
    total_price : option Z;
    booking_date : option Z;
    status : Status;
    passenger_details : list (string * Z);
    contact_email : string;
    contact_phone : string;
    special_requirements : string;
    payment_id : string;
    cancelled_at : option Z;
    cancellation_reason : string
}.

#[global] Instance Status_eq_dec : EqDecision Status :=
  ltac:(solve_decision).

Definition set_booking_reference (v : option Reference) (self : t) : t :=
    Build (booking_id self) v (user self) (travel_option self)
          (number_of_seats self) (total_price self) (booking_date self)
          (status self) (passenger_details self) (contact_email self)
          (contact_phone self) (special_requirements self) (payment_id self)
          (cancelled_at self) (cancellation_reason self).

Definition set_booking_id (v : option UUID) (self : t) : t :=
    Build v (booking_reference self) (user self) (travel_option self)
          (number_of_seats self) (total_price self) (booking_date self)
          (status self) (passenger_details self) (contact_email self)
          (contact_phone self) (special_requirements self) (payment_id self)
          (cancelled_at self) (cancellation_reason self).

Definition set_user (v : option N) (self : t) : t :=
    Build (booking_id self) (booking_reference self) v (travel_option self)
          (number_of_seats self) (total_price self) (booking_date self)
          (status self) (passenger_details self) (contact_email self)
          (contact_phone self) (special_requirements self) (payment_id self)
          (cancelled_at self) (cancellation_reason self).

Definition set_travel_option (v : option UUID) (self : t) : t :=
    Build (booking_id self) (booking_reference self) (user self) v
          (number_of_seats self) (total_price self) (booking_date self)
          (status self) (passenger_details self) (contact_email self)
          (contact_phone self) (special_requirements self) (payment_id self)
          (cancelled_at self) (cancellation_reason self).

Definition set_total_price (v : option Z) (self : t) : t :=
    Build (booking_id self) (booking_reference self) (user self)
          (travel_option self) (number_of_seats self) v (booking_date self)
          (status self) (passenger_details self) (contact_email self)
          (contact_phone self) (special_requirements self) (payment_id self)
          (cancelled_at self) (cancellation_reason self).

Definition set_booking_date (v : option Z) (self : t) : t :=
    Build (booking_id self) (booking_reference self) (user self)
          (travel_option self) (number_of_seats self) (total_price self) v
          (status self) (passenger_details self) (contact_email self)
          (contact_phone self) (special_requirements self) (payment_id self)
          (cancelled_at self) (cancellation_reason self).

Definition set_status (v : Status) (self : t) : t :=
    Build (booking_id self) (booking_reference self) (user self)
          (travel_option self) (number_of_seats self) (total_price self)
          (booking_date self) v (passenger_details self) (contact_email self)
          (contact_phone self) (special_requirements self) (payment_id self)
          (cancelled_at self) (cancellation_reason self).

Definition set_passenger_details (v : list (string * Z)) (self : t) : t :=
    Build (booking_id self) (booking_reference self) (user self)
          (travel_option self) (number_of_seats self) (total_price self)
          (booking_date self) (status self) v (contact_email self)
          (contact_phone self) (special_requirements self) (payment_id self)
          (cancelled_at self) (cancellation_reason self).

Definition set_cancelled_at (v : option Z) (self : t) : t :=
    Build (booking_id self) (booking_reference self) (user self)
          (travel_option self) (number_of_seats self) (total_price self)
          (booking_date self) (status self) (passenger_details self)
          (contact_email self) (contact_phone self)
          (special_requirements self) (payment_id self) v
          (cancellation_reason self).

Definition set_cancellation_reason (v : string) (self : t) : t :=
    Build (booking_id self) (booking_reference self) (user self)
          (travel_option self) (number_of_seats self) (total_price self)
          (booking_date self) (status self) (passenger_details self)
          (contact_email self) (contact_phone self)
          (special_requirements self) (payment_id self) (cancelled_at self) v.

End Booking.

(** ** The world: tables, clock, uuid source *)

Record World := MkWorld {
  travel_options : gmap N TravelOption.t;   (* table of TravelOption rows *)
  bookings : gmap N Booking.t;              (* table of Booking rows *)
  clock : Z;                                (* what [timezone.now()] reads *)
  entropy : nat -> N;                       (* the values [uuid.uuid4()] draws *)
  drawn : nat                               (* how many were drawn so far *)
}.

Definition set_travel_options (v : gmap N TravelOption.t) (w : World) : World :=
  MkWorld v (bookings w) (clock w) (entropy w) (drawn w).

Definition set_bookings (v : gmap N Booking.t) (w : World) : World :=
  MkWorld (travel_options w) v (clock w) (entropy w) (drawn w).

(** Exceptions that the modelled code can raise. *)
Inductive Exn :=
| Http404          (* get_object_or_404 *)
| DoesNotExist     (* a related object that cannot be resolved *)
| TypeError        (* arithmetic or float() on None *)
| IntegrityError   (* NOT NULL or UNIQUE constraint on save *)
| OverflowError    (* an integer outside the range of its column *)
| InvalidOperation. (* a Decimal with more digits than its column *)

(** A computation either returns a value and the world it leaves, or raises
    in the world reached so far. *)
Inductive Result (A : Type) :=
| Ok (a : A) (w : World)
| Raise (e : Exn) (w : World).
Arguments Ok {A} a w.
Arguments Raise {A} e w.

Definition M (A : Type) : Type := World -> Result A.

Definition ret {A} (a : A) : M A := fun w => Ok a w.

Definition bind {A B} (m : M A) (k : A -> M B) : M B :=
  fun w => match m w with
           | Ok a w' => k a w'
           | Raise e w' => Raise e w'
           end.

Definition raise {A} (e : Exn) : M A := fun w => Raise e w.

Notation "x <- m ;; k" := (bind m (fun x => k))
  (at level 100, m at next level, right associativity).

Definition get_world : M World := fun w => Ok w w.

(** [timezone.now()] *)
Definition timezone_now : M Z := fun w => Ok (clock w) w.

(** [uuid.uuid4()] *)
Definition uuid4 : M N :=
  fun w => Ok (entropy w (drawn w))
              (MkWorld (travel_options w) (bookings w) (clock w) (entropy w)
                       (S (drawn w))).

(** [@transaction.atomic]: an exception rolls the tables back. *)
Definition atomic {A} (m : M A) : M A :=
  fun w => match m w with
           | Ok a w' => Ok a w'
           | Raise e w' =>
               Raise e (MkWorld (travel_options w) (bookings w) (clock w')
                                (entropy w') (drawn w'))
           end.

(** ** The columns of the tables *)

(** An INTEGER column of SQLite holds a 64-bit signed integer; the database
    adapter raises [OverflowError] for a Python integer outside that range. *)
Definition fits_INTEGER (v : Z) : bool := (- 2 ^ 63 <=? v) && (v <? 2 ^ 63).

(** A [DecimalField(max_digits=10, decimal_places=2)] is written through
    [quantize] in a context of ten digits, which raises
    [decimal.InvalidOperation] for an amount of more digits. *)
Definition fits_DECIMAL_10_2 (cents : Z) : bool := Z.abs cents <? 10 ^ 10.

(** The columns a TravelOption row is written to: those of the SQLite table,
    or columns without limits, which is the method as Python alone sees
    it. *)
Inductive Columns := unbounded | sqlite.

(** ** TravelOption methods (models.py) *)

Import TravelOption(ACTIVE, FULL).

(** Another row of the table carries the [travel_code] of [self]
    ([unique=True]). *)
Definition travel_code_in_use (self : TravelOption.t)
  (rows : gmap N TravelOption.t) : bool :=
  existsb (fun t => negb (N.eqb (TravelOption.travel_id t)
                                (TravelOption.travel_id self))
                    && String.eqb (TravelOption.travel_code t)
                                  (TravelOption.travel_code self))
          (map_to_list rows).*2.

(** [Model.save()] of a TravelOption: [updated_at] is [auto_now],
    [created_at] is [auto_now_add] (set when the row is inserted); the row is
    written under its primary key.  To the columns of SQLite it is written
    when the amount and the integers fit and no other row has its
    [travel_code]. *)
Definition TravelOption_save_to (columns : Columns) (self : TravelOption.t)
  : M TravelOption.t :=
  now <- timezone_now ;;
  w <- get_world ;;
  let add := bool_decide (travel_options w !! TravelOption.travel_id self = None) in
  let self :=
    TravelOption.set_timestamps
      (if add then Some now else TravelOption.created_at self) (Some now) self in
  let write : M TravelOption.t :=
    fun w => Ok self (set_travel_options
                        (<[TravelOption.travel_id self := self]> (travel_options w)) w) in
  match columns with
  | unbounded => write
  | sqlite =>
      if negb (fits_DECIMAL_10_2 (TravelOption.price self))
      then raise InvalidOperation
      else if negb (fits_INTEGER (TravelOption.total_seats self)
                    && fits_INTEGER (TravelOption.available_seats self))
      then raise OverflowError
      else if travel_code_in_use self (travel_options w)
      then raise IntegrityError
      else write
  end.

Definition TravelOption_save : TravelOption.t -> M TravelOption.t :=
  TravelOption_save_to unbounded.

(** [TravelOption.is_available] *)
Definition is_available (self : TravelOption.t) : bool :=
  (0 <? TravelOption.available_seats self)
  && bool_decide (TravelOption.status self = ACTIVE).

(** [TravelOption.update_availability]: returns the mutated [self]. *)
Definition update_availability_to (columns : Columns) (self : TravelOption.t)
  (seats_booked : Z) : M TravelOption.t :=
  let self :=
    TravelOption.set_available_seats
      (TravelOption.available_seats self - seats_booked) self in
  let self :=
    if decide (TravelOption.available_seats self = 0)
    then TravelOption.set_status FULL self
    else self in
  TravelOption_save_to columns self.

Definition update_availability : TravelOption.t -> Z -> M TravelOption.t :=
  update_availability_to unbounded.

(** [TravelOption.cancel_seats]: returns the mutated [self]. *)
Definition cancel_seats (self : TravelOption.t) (seats_cancelled : Z)
  : M TravelOption.t :=
  let self :=
    TravelOption.set_available_seats
      (TravelOption.available_seats self + seats_cancelled) self in
  let self :=
    if bool_decide (TravelOption.status self = FULL)
       && (0 <? TravelOption.available_seats self)
    then TravelOption.set_status ACTIVE self
    else self in
  TravelOption_save self.

(** ** Booking methods (models.py) *)

Import Booking(PENDING, CONFIRMED, CANCELLED).

(** [self.travel_option]: the row the foreign key points to. *)
Definition related_travel_option (self : Booking.t) : M TravelOption.t :=
  fun w =>
    match Booking.travel_option self with
    | None => Raise DoesNotExist w
    | Some k =>
        match travel_options w !! k with
        | Some t => Ok t w
        | None => Raise DoesNotExist w
        end
    end.

(** The value stored in the [type] column. *)
Definition type_name (ty : TravelOption.Type_) : string :=
  match ty with
  | TravelOption.FLIGHT => "FLIGHT"
  | TravelOption.TRAIN => "TRAIN"
  | TravelOption.BUS => "BUS"
  end.

Definition upper_ascii (c : ascii) : ascii :=
  let n := nat_of_ascii c in
  if ((97 <=? n) && (n <=? 122))%nat then ascii_of_nat (n - 32) else c.

(** [str.upper()] on ASCII text *)
Fixpoint upper (s : string) : string :=
  match s with
  | EmptyString => EmptyString
  | String c s' => String (upper_ascii c) (upper s')
  end.

(** [Booking()]: a fresh instance with the field defaults; the primary key
    has [default=uuid.uuid4], so it is drawn when the instance is built. *)
Definition Booking_new : M Booking.t :=
  pk <- uuid4 ;;
  ret (Booking.Build (Some pk) None None None 0 None None PENDING nil
                     "" "" "" "" None "").

(** A row of the table carries the reference [r] ([unique=True]). *)
Definition reference_in_use (r : option Reference) (rows : gmap N Booking.t)
  : bool :=
  existsb (fun b => bool_decide (Booking.booking_reference b = r))
          (map_to_list rows).*2.

(** [super().save()] of a Booking.  [adding] is [self._state.adding]: true
    for an instance built by [Booking()] and not saved yet, false for an
    instance read from the table.
    - An instance being added is INSERTed ([booking_date] is
      [auto_now_add]): the amount is quantized to the digits of its column,
      the integer is bound to its column, and the database refuses a NULL in
      a NOT NULL column, a primary key and a reference that a row has.
    - An instance read from the table is written under its primary key, the
      UPDATE of its row (its INSERT when the row is gone), with the NOT NULL
      columns checked. *)
Definition Model_save_Booking (adding : bool) (self : Booking.t)
  : M Booking.t :=
  pk <- match Booking.booking_id self with
        | Some pk => ret pk
        | None => uuid4
        end ;;
  let self := Booking.set_booking_id (Some pk) self in
  now <- timezone_now ;;
  w <- get_world ;;
  if adding then
    let self := Booking.set_booking_date (Some now) self in
    if match Booking.total_price self with
       | Some c => negb (fits_DECIMAL_10_2 c)
       | None => false
       end
    then raise InvalidOperation
    else if negb (fits_INTEGER (Booking.number_of_seats self))
    then raise OverflowError
    else
      match Booking.user self, Booking.travel_option self,
            Booking.total_price self with
      | Some _, Some _, Some _ =>
          if bool_decide (bookings w !! pk <> None)
             || reference_in_use (Booking.booking_reference self) (bookings w)
          then raise IntegrityError
          else fun w => Ok self (set_bookings (<[pk := self]> (bookings w)) w)
      | _, _, _ => raise IntegrityError
      end
  else
    let add := bool_decide (bookings w !! pk = None) in
    let self :=
      if add then Booking.set_booking_date (Some now) self else self in
    match Booking.user self, Booking.travel_option self,
          Booking.total_price self with
    | Some _, Some _, Some _ =>
        fun w => Ok self (set_bookings (<[pk := self]> (bookings w)) w)
    | _, _, _ => raise IntegrityError
    end.

(** The reference of a booking on travel option [t], made at time [now] with
    the uuid [u]: [f"{prefix}{timestamp}{random_suffix}"]. *)
Definition make_reference (t : TravelOption.t) (now : Z) (u : N) : Reference :=
  let prefix := upper (substring 0 2 (type_name (TravelOption.type t))) in
  let timestamp := now / 60000000 in
  let random_suffix := N.shiftr u 112 in
  MkReference prefix timestamp random_suffix.

(** [Booking.save]; [adding] is [self._state.adding]. *)
Definition Booking_save (adding : bool) (self : Booking.t) : M Booking.t :=
  self <- match Booking.booking_reference self with
          | None =>
              (* Generate unique booking reference *)
              t <- related_travel_option self ;;
              now <- timezone_now ;;
              u <- uuid4 ;;
              ret (Booking.set_booking_reference
                     (Some (make_reference t now u)) self)
          | Some _ => ret self
          end ;;
  self <- match Booking.booking_id self with
          | None =>
              (* Calculate total price for new bookings *)
              t <- related_travel_option self ;;
              ret (Booking.set_total_price
                     (Some (TravelOption.price t * Booking.number_of_seats self))
                     self)
          | Some _ => ret self
          end ;;
  Model_save_Booking adding self.

(** [Booking.cancel]: returns the Python result and the mutated [self].
    [cancel] and [confirm] are called on instances read from the table. *)
Definition cancel (self : Booking.t) (reason : string) : M (bool * Booking.t) :=
  if decide (Booking.status self = CONFIRMED) then
    let self := Booking.set_status CANCELLED self in
    now <- timezone_now ;;
    let self := Booking.set_cancelled_at (Some now) self in
    let self := Booking.set_cancellation_reason reason self in
    t <- related_travel_option self ;;
    _ <- cancel_seats t (Booking.number_of_seats self) ;;
    self <- Booking_save false self ;;
    ret (true, self)
  else ret (false, self).

(** [Booking.confirm] *)
Definition confirm (self : Booking.t) : M (bool * Booking.t) :=
  if decide (Booking.status self = PENDING) then
    let self := Booking.set_status CONFIRMED self in
    self <- Booking_save false self ;;
    ret (true, self)
  else ret (false, self).

(** [timedelta.total_seconds()] *)
Definition total_seconds (td : Z) : Q := (inject_Z td / 1000000)%Q.

(** [x > y] on rationals *)
Definition Qgtb (x y : Q) : bool := negb (Qle_bool x y).

(** [Booking.is_cancellable] *)
Definition is_cancellable (self : Booking.t) : M bool :=
  if decide (Booking.status self <> CONFIRMED) then ret false
  else
    (* Can cancel up to 2 hours before departure *)
    t <- related_travel_option self ;;
    now <- timezone_now ;;
    let time_until_departure := TravelOption.departure_time t - now in
    ret (Qgtb (total_seconds time_until_departure) 7200).

(** *** Python floats *)

(** The float nearest to the ratio [num / den] of two integers, ties to
    even: the value of [float(d)] for a Decimal [d = num / den] and of the
    decimal literal that writes [num / den].  [SFdiv] divides the two
    integers and rounds the quotient once. *)
Definition nearest_float (num : Z) (den : positive) : spec_float :=
  match num with
  | Z0 => S754_zero false
  | Zpos n => SFdiv 53 1024 (S754_finite false n 0) (S754_finite false den 0)
  | Zneg n => SFdiv 53 1024 (S754_finite true n 0) (S754_finite false den 0)
  end.

(** [x * y] on floats *)
Definition float_mul (x y : spec_float) : spec_float := SFmul 53 1024 x y.

(** The number 0, the integer as well as the float. *)
Declare Scope number_scope.
Delimit Scope number_scope with number.
Bind Scope number_scope with spec_float.
Notation "0" := (S754_zero false) : number_scope.

(** [float(d)] for a stored amount, [TypeError] on [None]. *)
Definition float (d : option Z) : M spec_float :=
  match d with
  | Some c => ret (nearest_float c 100)
  | None => raise TypeError
  end.

(** [Booking.get_refund_amount] *)
Definition get_refund_amount (self : Booking.t) : M spec_float :=
  c <- is_cancellable self ;;
  if negb c then ret 0%number
  else
    t <- related_travel_option self ;;
    now <- timezone_now ;;
    let time_until_departure := TravelOption.departure_time t - now in
    let hours_until := (total_seconds time_until_departure / 3600)%Q in
    if Qgtb hours_until 24 then
      p <- float (Booking.total_price self) ;;
      ret (float_mul p (nearest_float 9 10))  (* 90% refund *)
    else if Qgtb hours_until 6 then
      p <- float (Booking.total_price self) ;;
      ret (float_mul p (nearest_float 1 2))   (* 50% refund *)
    else
      p <- float (Booking.total_price self) ;;
      ret (float_mul p (nearest_float 1 4)).  (* 25% refund *)

(** ** BookingForm (forms.py) *)

(** The bound data of a [BookingForm] after field parsing:
    [passenger_names] holds the stripped non-blank lines of the textarea, and
    [fields_ok] tells that the checks that do not involve the seat count pass
    (required fields present, e-mail and phone syntax, [agree_terms]). *)
Record BookingForm := MkBookingForm {
  number_of_seats : Z;
  contact_email : string;
  contact_phone : string;
  special_requirements : string;
  passenger_names : list string;
  fields_ok : bool
}.

(** [form.is_valid()]: the field checks, [clean_passenger_names], and the
    validators of [Booking.number_of_seats]
    ([MinValueValidator(1)], [MaxValueValidator(10)]).  The [max_seats]
    argument of the form only sets widget attributes and help text. *)
Definition is_valid (form : BookingForm) : bool :=
  fields_ok form
  && bool_decide (Z.of_nat (length (passenger_names form)) = number_of_seats form)
  && (1 <=? number_of_seats form) && (number_of_seats form <=? 10).

(** [BookingForm.save(commit=False)] on the form's instance. *)
Definition BookingForm_save (form : BookingForm) (instance : Booking.t)
  : Booking.t :=
  let booking :=
    Booking.Build (Booking.booking_id instance)
                  (Booking.booking_reference instance)
                  (Booking.user instance) (Booking.travel_option instance)
                  (number_of_seats form)
                  (Booking.total_price instance)
                  (Booking.booking_date instance) (Booking.status instance)
                  (Booking.passenger_details instance)
                  (contact_email form) (contact_phone form)
                  (special_requirements form)
                  (Booking.payment_id instance)
                  (Booking.cancelled_at instance)
                  (Booking.cancellation_reason instance) in
  (* Convert passenger names to JSON format *)
  Booking.set_passenger_details
    (imap (fun i name => (name, Z.of_nat i + 1)) (passenger_names form))
    booking.

(** ** Views (views.py) *)

Inductive Method := GET | POST | OTHER.

Record Request (P : Type) := MkRequest {
  req_user : option N;     (* [None]: not authenticated *)
  req_method : Method;
  req_POST : P
}.
Arguments MkRequest {P} _ _ _.
Arguments req_user {P} _.
Arguments req_method {P} _.
Arguments req_POST {P} _.

Inductive Target :=
| travel_detail (pk : N)
| booking_detail (pk : option N)
| my_bookings.

(** The flash messages of the two views. *)
Inductive Message :=
| error_no_longer_available
| error_only_seats_available (n : Z)
| success_booking_confirmed (reference : option Reference)
| error_cannot_be_cancelled
| success_booking_cancelled (refund_amount : spec_float)
| error_failed_to_cancel.

Inductive Response :=
| redirect_login                        (* [@login_required] *)
| method_not_allowed                    (* [@require_http_methods] *)
| redirect (to : Target) (message : Message)
| render_book_travel (form : option BookingForm).

(** [get_object_or_404(TravelOption, pk=pk)] *)
Definition get_TravelOption_or_404 (pk : N) : M TravelOption.t :=
  fun w => match travel_options w !! pk with
           | Some t => Ok t w
           | None => Raise Http404 w
           end.

(** [get_object_or_404(Booking, pk=pk, user=user)] *)
Definition get_Booking_or_404 (pk : N) (user : N) : M Booking.t :=
  fun w => match bookings w !! pk with
           | Some b =>
               if decide (Booking.user b = Some user) then Ok b w
               else Raise Http404 w
           | None => Raise Http404 w
           end.

(** [book_travel_view] *)
Definition book_travel_view (request : Request BookingForm) (pk : N)
  : M Response :=
  match req_user request with
  | None => ret redirect_login
  | Some user =>
    atomic (
      travel <- get_TravelOption_or_404 pk ;;
      if negb (is_available travel) then
        ret (redirect (travel_detail pk) error_no_longer_available)
      else
        match req_method request with
        | POST =>
            instance <- Booking_new ;;
            let form := req_POST request in
            if is_valid form then
              (* Check availability again (race condition prevention) *)
              if TravelOption.available_seats travel <? number_of_seats form
              then
                ret (redirect (travel_detail pk)
                       (error_only_seats_available
                          (TravelOption.available_seats travel)))
              else
                (* Create booking *)
                let booking := BookingForm_save form instance in
                let booking := Booking.set_user (Some user) booking in
                let booking :=
                  Booking.set_travel_option
                    (Some (TravelOption.travel_id travel)) booking in
                let booking :=
                  Booking.set_total_price
                    (Some (TravelOption.price travel
                           * Booking.number_of_seats booking)) booking in
                booking <- Booking_save true booking ;;
                (* Update travel availability *)
                _ <- update_availability travel
                       (Booking.number_of_seats booking) ;;
                ret (redirect (booking_detail (Booking.booking_id booking))
                       (success_booking_confirmed
                          (Booking.booking_reference booking)))
            else ret (render_book_travel (Some form))
        | _ =>
            _ <- Booking_new ;;
            ret (render_book_travel None)
        end)
  end.

(** [cancel_booking_view]; the POST payload is [cancellation_reason]
    (the empty string when absent). *)
Definition cancel_booking_view (request : Request string) (pk : N)
  : M Response :=
  match req_user request with
  | None => ret redirect_login
  | Some user =>
    match req_method request with
    | POST =>
        booking <- get_Booking_or_404 pk user ;;
        c <- is_cancellable booking ;;
        if negb c then
          ret (redirect (booking_detail (Some pk)) error_cannot_be_cancelled)
        else
          (* Process cancellation *)
          let reason := req_POST request in
          r <- cancel booking reason ;;
          if fst r then
            refund_amount <- get_refund_amount (snd r) ;;
            ret (redirect my_bookings (success_booking_cancelled refund_amount))
          else ret (redirect my_bookings error_failed_to_cancel)
    | _ => ret method_not_allowed
    end
  end.

(** ** What the INSERT of [book_travel_view] needs *)

(** The key that [Booking()] draws in world [w], and the reference that
    [Booking.save] then generates for a booking on travel option [t]. *)
Definition next_booking_id (w : World) : N := entropy w (drawn w).

Definition next_reference (t : TravelOption.t) (w : World) : Reference :=
  make_reference t (clock w) (entropy w (S (drawn w))).

(** The table accepts the booking of [n] seats on [t] that the view inserts:
    no row has the key drawn or the reference generated, and the price has
    the digits of its column. *)
Definition insert_accepted (t : TravelOption.t) (n : Z) (w : World) : Prop :=
  bookings w !! next_booking_id w = None
  /\ reference_in_use (Some (next_reference t w)) (bookings w) = false
  /\ fits_DECIMAL_10_2 (TravelOption.price t * n) = true.

(** ** The invariant of a TravelOption, in the words of the data model *)

(** [availableSeats <= totalSeats], and on the ACTIVE lineage (any status but
    CANCELLED) [status = FULL] exactly when [availableSeats = 0]. *)
Definition TravelOption_invariant (t : TravelOption.t) : Prop :=
  TravelOption.available_seats t <= TravelOption.total_seats t
  /\ (TravelOption.status t <> TravelOption.CANCELLED ->
      (TravelOption.status t = FULL <-> TravelOption.available_seats t = 0)).

(** ** Sample data *)

(** A flight with [total] seats of which [avail] are free, leaving at
    [departure]. *)
Definition sample_travel (total avail : Z) (st : TravelOption.Status)
  (departure : Z) : TravelOption.t :=
  TravelOption.Build 1%N "FL123" TravelOption.FLIGHT "Blue Air" "Pune" "Delhi"
    departure (departure + 7200000000) 250000 total avail st "wifi"
    (Some 0) (Some 0).

(** A world whose only travel option is [t], with no bookings, at time [now]. *)
Definition sample_world (t : TravelOption.t) (now : Z) : World :=
  MkWorld {[ TravelOption.travel_id t := t ]} ∅ now (fun i => N.of_nat i + 40)%N 0.

(** ** Words of the refund policy *)

(** Hours until departure, [h = (departureTime - now)] in hours, for travel
    option [t] in world [w]. *)
Definition hours_until_departure (t : TravelOption.t) (w : World) : Q :=
  (total_seconds (TravelOption.departure_time t - clock w) / 3600)%Q.

(** A confirmed booking of [n] seats at a total price of [cents], owned by
    user 9, on the travel option with key 1. *)
Definition sample_booking (st : Booking.Status) (n cents : Z) : Booking.t :=
  Booking.Build (Some 5%N) (Some (MkReference "FL" 0 44975)) (Some 9%N)
    (Some 1%N) n (Some cents) (Some 0) st nil "a@b.in" "+919876543210" "" ""
    None "".

(** [sample_world] with one booking row added. *)
Definition sample_world_with (t : TravelOption.t) (b : Booking.t) (now : Z)
  : World :=
  set_bookings {[ 5%N := b ]} (sample_world t now).

(** One hour in microseconds. *)
Definition hour : Z := 3600000000.

(** ** Sequences of operations on one booking *)

Inductive BookingOp :=
| op_save
| op_cancel (reason : string)
| op_confirm.

Definition run_op (op : BookingOp) (self : Booking.t) : M Booking.t :=
  match op with
  | op_save => Booking_save false self
  | op_cancel reason => r <- cancel self reason ;; ret (snd r)
  | op_confirm => r <- confirm self ;; ret (snd r)
  end.

Fixpoint run_ops (ops : list BookingOp) (self : Booking.t) : M Booking.t :=
  match ops with
  | nil => ret self
  | op :: ops' => self' <- run_op op self ;; run_ops ops' self'
  end.

(** An instance as it is loaded from the table: primary key, user and price
    are set and the foreign key resolves to a stored travel option. *)
Definition loaded_booking (self : Booking.t) (w : World) : Prop :=
  exists pk u k t p,
    Booking.booking_id self = Some pk
    /\ Booking.user self = Some u
    /\ Booking.travel_option self = Some k
    /\ travel_options w !! k = Some t
    /\ TravelOption.travel_id t = k
    /\ Booking.total_price self = Some p.

(** What a successful cancellation leaves, in the words of the lifecycle:
    status CANCELLED, [cancelledAt] and [cancellationReason] recorded, the row
    stored, and [numberOfSeats] released to the travel option by
    [cancel_seats]. *)
Definition cancellation_recorded
  (self self' : Booking.t) (t t' : TravelOption.t) (w w' : World)
  (pk k : N) (reason : string) : Prop :=
  Booking.status self' = CANCELLED
  /\ Booking.cancelled_at self' = Some (clock w)
  /\ Booking.cancellation_reason self' = reason
  /\ bookings w' !! pk = Some self'
  /\ travel_options w' !! k = Some t'
  /\ TravelOption.available_seats t'
     = TravelOption.available_seats t + Booking.number_of_seats self
  /\ TravelOption.status t'
     = if bool_decide (TravelOption.status t = FULL)
          && (0 <? TravelOption.available_seats t
                   + Booking.number_of_seats self)
       then ACTIVE else TravelOption.status t.

(** A valid form for [names], one seat each. *)
Definition sample_form (names : list string) : BookingForm :=
  MkBookingForm (Z.of_nat (length names)) "a@b.in" "+919876543210" "" names true.

(** A confirmed booking of two seats for 1000.00 on a sold-out flight that
    leaves [h] hours after the epoch, in a world whose clock reads 0. *)
Definition confirmed_booking : Booking.t := sample_booking CONFIRMED 2 100000.

(** A confirmed booking of one seat for 0.10. *)
Definition ten_cent_booking : Booking.t := sample_booking CONFIRMED 1 10.

Definition sold_out_flight (h : Z) : TravelOption.t :=
  sample_travel 2 0 FULL (h * hour).

Definition world_before_departure (h : Z) : World :=
  sample_world_with (sold_out_flight h) confirmed_booking 0.

(** A flight with both seats free, and a request of user 9 for two seats. *)
Definition free_flight : TravelOption.t := sample_travel 2 2 ACTIVE (30 * hour).

Definition request_two_seats : Request BookingForm :=
  MkRequest (Some 9%N) POST (sample_form ["Asha"; "Ravi"]).

(** ** Words for the lifecycle and the seat accounts *)

(** The world a computation leaves, whether it returns or raises. *)
Definition world_of {A} (r : Result A) : World :=
  match r with
  | Ok _ w => w
  | Raise _ w => w
  end.

(** The moves of a booking's status that the methods can make: stay, be
    confirmed from PENDING, be cancelled from CONFIRMED, or both in turn. *)
Definition lifecycle_reaches (s s' : Booking.Status) : Prop :=
  s' = s
  \/ (s = PENDING /\ (s' = CONFIRMED \/ s' = CANCELLED))
  \/ (s = CONFIRMED /\ s' = CANCELLED).

(** The seats a booking row holds on travel option [k]: its
    [number_of_seats] unless it is for another option or CANCELLED. *)
Definition seats_held_by (k : N) (b : Booking.t) : Z :=
  if decide (Booking.travel_option b = Some k)
  then if decide (Booking.status b = CANCELLED) then 0
       else Booking.number_of_seats b
  else 0.

(** The seats held on travel option [k] by all the rows of a table. *)
Definition held_seats (k : N) (rows : gmap N Booking.t) : Z :=
  map_fold (fun _ b acc => acc + seats_held_by k b) 0 rows.

(** The same world at a later (or any other) time. *)
Definition set_clock (now : Z) (w : World) : World :=
  MkWorld (travel_options w) (bookings w) now (entropy w) (drawn w).

(** The seat account of travel option [k]: the seats still available plus
    the seats held by the bookings that are not cancelled. *)
Definition seat_account (k : N) (w : World) : option Z :=
  match travel_options w !! k with
  | Some t => Some (TravelOption.available_seats t + held_seats k (bookings w))
  | None => None
  end.

(** ** The read-only booking views (views.py) *)

Inductive BookingDetailResponse :=
| detail_redirect_login
| detail_render (booking : Booking.t) (can_cancel : bool)
    (refund_amount : spec_float).

(** [booking_detail_view] *)
Definition booking_detail_view (request : Request unit) (pk : N)
  : M BookingDetailResponse :=
  match req_user request with
  | None => ret detail_redirect_login
  | Some user =>
      booking <- get_Booking_or_404 pk user ;;
      can_cancel <- is_cancellable booking ;;
      c <- is_cancellable booking ;;
      refund_amount <- (if c then get_refund_amount booking else ret 0%number) ;;
      ret (detail_render booking can_cancel refund_amount)
  end.

Inductive BookingConfirmationResponse :=
| confirmation_redirect_login
| confirmation_redirect_detail (pk : N)
| confirmation_render (booking : Booking.t).

(** [booking_confirmation_view] *)
Definition booking_confirmation_view (request : Request unit) (pk : N)
  : M BookingConfirmationResponse :=
  match req_user request with
  | None => ret confirmation_redirect_login
  | Some user =>
      booking <- get_Booking_or_404 pk user ;;
      (* Only show confirmation for recently confirmed bookings *)
      now <- timezone_now ;;
      match Booking.booking_date booking with
      | None => raise TypeError
      | Some booking_date =>
          let time_since_booking := now - booking_date in
          if Qgtb (total_seconds time_since_booking) 3600 (* 1 hour *)
          then ret (confirmation_redirect_detail pk)
          else ret (confirmation_render booking)
      end
  end.

(** [download_ticket_view]: the refusal is the error message "Only confirmed
    bookings can be downloaded." with a redirect to the booking; the PDF is
    rendered from the booking by the template and the PDF library. *)
Inductive DownloadTicketResponse :=
| download_redirect_login
| download_refused (pk : N)
| download_pdf (booking : Booking.t).

Definition download_ticket_view (request : Request unit) (pk : N)
  : M DownloadTicketResponse :=
  match req_user request with
  | None => ret download_redirect_login
  | Some user =>
      booking <- get_Booking_or_404 pk user ;;
      if decide (Booking.status booking <> CONFIRMED)
      then ret (download_refused pk)
      else ret (download_pdf booking)
  end.

(** [str(n)], as an f-string prints an integer. *)
Definition str_of_int (n : Z) : string := NilZero.string_of_int (Z.to_int n).

(** ** Field cleaning (forms.py) *)

(** A Python string is embedded as a [string] of characters with code below
    256; the classes [[0-9]], [[A-Z]] and [[a-z]] of [re] are ASCII ranges. *)

(** The outcome of a [clean_<field>] method: the cleaned value, or the
    message of the [ValidationError] it raises. *)
Inductive Cleaned (A : Type) :=
| Valid (value : A)
| Invalid (message : string).
Arguments Valid {A} value.
Arguments Invalid {A} message.

(** The newline character. *)
Definition newline : ascii := ascii_of_nat 10.

(** [s.replace(c, '')] for a one-character [c]. *)
Fixpoint remove_char (c : ascii) (s : string) : string :=
  match s with
  | EmptyString => EmptyString
  | String a s' =>
      if Ascii.eqb a c then remove_char c s' else String a (remove_char c s')
  end.

(** The class [[0-9]]. *)
Definition is_digit (a : ascii) : bool :=
  ((48 <=? nat_of_ascii a) && (nat_of_ascii a <=? 57))%nat.

(** The longest run of digits at the head of a string, and what follows. *)
Fixpoint span_digits (s : string) : string * string :=
  match s with
  | EmptyString => (EmptyString, EmptyString)
  | String a s' =>
      if is_digit a
      then let '(digits, rest) := span_digits s' in (String a digits, rest)
      else (EmptyString, s)
  end.

(** [$] without [re.MULTILINE]: the end of the string, or just before a
    newline that ends it. *)
Definition at_end (rest : string) : bool :=
  match rest with
  | EmptyString => true
  | String a EmptyString => Ascii.eqb a newline
  | _ => false
  end.

(** [re.match(r'^[+]?[0-9]{10,15}$', s)]: the quantifier is greedy and what
    follows a run of digits must be the end, so the whole run counts. *)
Definition match_phone (s : string) : bool :=
  let s := match s with
           | String "+" r => r
           | _ => s
           end in
  let '(digits, rest) := span_digits s in
  (10 <=? String.length digits)%nat && (String.length digits <=? 15)%nat
  && at_end rest.

(** [BookingForm.clean_contact_phone]; [None] and the empty string are falsy
    and returned as they are. *)
Definition clean_contact_phone (phone : option string)
  : Cleaned (option string) :=
  match phone with
  | None => Valid None
  | Some EmptyString => Valid (Some EmptyString)
  | Some phone =>
      let phone := remove_char "-" (remove_char " " phone) in
      if negb (match_phone phone) then Invalid "Enter a valid phone number"
      else Valid (Some phone)
  end.

(** [UserProfileForm.clean_phone_number] *)
Definition clean_phone_number (phone_number : option string)
  : Cleaned (option string) :=
  match phone_number with
  | None => Valid None
  | Some EmptyString => Valid (Some EmptyString)
  | Some phone_number =>
      (* Remove spaces and hyphens *)
      let phone_number := remove_char "-" (remove_char " " phone_number) in
      (* Validate phone number format *)
      if negb (match_phone phone_number)
      then Invalid "Enter a valid phone number"
      else Valid (Some phone_number)
  end.

(** Every character of a string is a digit. *)
Fixpoint all_digits (s : string) : bool :=
  match s with
  | EmptyString => true
  | String a s' => is_digit a && all_digits s'
  end.

(** [str.isspace()] for a character below 256: tab to carriage return, the
    four separators 28 to 31, the space, NEL and the no-break space. *)
Definition is_space (a : ascii) : bool :=
  let n := nat_of_ascii a in
  (((9 <=? n) && (n <=? 13)) || ((28 <=? n) && (n <=? 32))
   || (n =? 133) || (n =? 160))%nat.

(** [s.lstrip()], [s.rstrip()] and [s.strip()] *)
Fixpoint lstrip (s : string) : string :=
  match s with
  | EmptyString => EmptyString
  | String a s' => if is_space a then lstrip s' else s
  end.

Fixpoint rstrip (s : string) : string :=
  match s with
  | EmptyString => EmptyString
  | String a s' =>
      match rstrip s' with
      | EmptyString => if is_space a then EmptyString else String a EmptyString
      | r => String a r
      end
  end.

Definition strip (s : string) : string := lstrip (rstrip s).

(** [s.split(c)] for a one-character separator: always at least one piece. *)
Fixpoint split_on (c : ascii) (s : string) : list string :=
  match s with
  | EmptyString => [EmptyString]
  | String a s' =>
      if Ascii.eqb a c then EmptyString :: split_on c s'
      else match split_on c s' with
           | piece :: pieces => String a piece :: pieces
           | [] => [String a EmptyString]
           end
  end.

(** [bool(s)] of a string *)
Definition nonempty (s : string) : bool :=
  match s with
  | EmptyString => false
  | String _ _ => true
  end.

(** [BookingForm.clean_passenger_names] on the submitted text;
    [number_of_seats] is [None] when that field did not validate, and the
    lookup then defaults to 0. *)
Definition clean_passenger_names (passenger_names : string)
  (number_of_seats : option Z) : Cleaned (list string) :=
  let names :=
    List.map strip
      (List.filter (fun name => nonempty (strip name))
                   (split_on newline passenger_names)) in
  let number_of_seats := default 0 number_of_seats in
  if negb (Z.of_nat (length names) =? number_of_seats)
  then Invalid ("Please enter exactly " ++ str_of_int number_of_seats
                ++ " passenger name(s)")%string
  else Valid names.

(** A name as the form keeps it: not empty, no white space at either end, no
    newline inside. *)
Fixpoint last_char (s : string) : option ascii :=
  match s with
  | EmptyString => None
  | String a EmptyString => Some a
  | String _ s' => last_char s'
  end.

Fixpoint has_char (c : ascii) (s : string) : bool :=
  match s with
  | EmptyString => false
  | String a s' => Ascii.eqb a c || has_char c s'
  end.

Definition trimmed_name (s : string) : Prop :=
  (exists a s', s = String a s' /\ is_space a = false)
  /\ (exists z, last_char s = Some z /\ is_space z = false)
  /\ has_char newline s = false.

(** [c.join(pieces)] for a one-character [c] *)
Fixpoint join_with (c : ascii) (pieces : list string) : string :=
  match pieces with
  | [] => EmptyString
  | [piece] => piece
  | piece :: rest => (piece ++ String c (join_with c rest))%string
  end.

(** ** Search form and listings (forms.py, views.py) *)

(** The cleaned fields of a [TravelSearchForm]: [travel_type] is [None] for
    the choice "All Types", dates are day numbers, prices are cents;
    [search_fields_ok] tells that every field parsed. *)
Record TravelSearchForm := MkTravelSearchForm {
  travel_type : option TravelOption.Type_;
  source : string;
  destination : string;
  date_from : option Z;
  date_to : option Z;
  min_price : option Z;
  max_price : option Z;
  search_fields_ok : bool
}.

(** [bool(d)] of an optional Decimal: [None] and zero are falsy. *)
Definition decimal_truthy (d : option Z) : bool :=
  match d with
  | Some c => negb (c =? 0)
  | None => false
  end.

(** [TravelSearchForm.clean] *)
Definition TravelSearchForm_clean (form : TravelSearchForm)
  : Cleaned TravelSearchForm :=
  (* Validate date range *)
  if match date_from form, date_to form with
     | Some f, Some t => t <? f
     | _, _ => false
     end
  then Invalid "From date cannot be after To date"
  (* Validate price range *)
  else if decimal_truthy (min_price form) && decimal_truthy (max_price form)
          && match min_price form, max_price form with
             | Some lo, Some hi => hi <? lo
             | _, _ => false
             end
  then Invalid "Minimum price cannot be greater than maximum price"
  else Valid form.

(** [search_form.is_valid()] *)
Definition TravelSearchForm_is_valid (form : TravelSearchForm) : bool :=
  search_fields_ok form
  && match TravelSearchForm_clean form with
     | Valid _ => true
     | Invalid _ => false
     end.

(** [order_by('departure_time')] *)
Definition by_departure (a b : TravelOption.t) : Prop :=
  TravelOption.departure_time a <= TravelOption.departure_time b.

#[global] Instance by_departure_dec (a b : TravelOption.t)
  : Decision (by_departure a b) :=
  Z_le_dec (TravelOption.departure_time a) (TravelOption.departure_time b).

(** [TravelOption.objects.filter(...).order_by('departure_time')]: the rows
    that pass the filters, by departure time.  The database leaves the order
    of rows with equal departure times open; here it is the one of the sort. *)
Definition query_by_departure (rows : gmap N TravelOption.t)
  (keep : TravelOption.t -> bool) : list TravelOption.t :=
  merge_sort by_departure (List.filter keep (map_to_list rows).*2).

(** [Paginator(object_list, per_page).get_page(number)] of Django: [number]
    is [None] when the parameter is absent or not an integer (page 1); a
    number below 1 or beyond the last page gives the last page. *)
Definition num_pages (count per_page : nat) : nat :=
  (Nat.max 1 count + per_page - 1) / per_page.

Definition get_page {A} (object_list : list A) (per_page : nat)
  (number : option Z) : list A :=
  let last := Z.of_nat (num_pages (length object_list) per_page) in
  let number :=
    match number with
    | None => 1
    | Some k => if (k <? 1) || (last <? k) then last else k
    end in
  take per_page (drop (Z.to_nat (number - 1) * per_page) object_list).

Section Listings.

(** [column__icontains=needle], as the database evaluates it. *)
Variable icontains : string -> string -> bool.

(** [__date]: the day number of a datetime in the current time zone. *)
Variable date_of : Z -> Z.

(** The filters of [travel_list_view] on one row. *)
Definition travel_list_keep (form : TravelSearchForm) (now : Z)
  (t : TravelOption.t) : bool :=
  (now <=? TravelOption.departure_time t)
  && (if TravelSearchForm_is_valid form then
        match travel_type form with
        | Some ty => bool_decide (TravelOption.type t = ty)
        | None => true
        end
        && (if nonempty (source form)
            then icontains (TravelOption.source t) (source form) else true)
        && (if nonempty (destination form)
            then icontains (TravelOption.destination t) (destination form)
            else true)
        && match date_from form with
           | Some d => d <=? date_of (TravelOption.departure_time t)
           | None => true
           end
        && match date_to form with
           | Some d => date_of (TravelOption.departure_time t) <=? d
           | None => true
           end
        && (if decimal_truthy (min_price form)
            then default 0 (min_price form) <=? TravelOption.price t
            else true)
        && (if decimal_truthy (max_price form)
            then TravelOption.price t <=? default 0 (max_price form)
            else true)
      else true)
  (* Only show active travels *)
  && bool_decide (TravelOption.status t = ACTIVE).

Record TravelListContext := MkTravelListContext {
  page_obj : list TravelOption.t;
  search_form : TravelSearchForm;
  total_results : nat
}.

(** The queryset [travels] of [travel_list_view]. *)
Definition travel_list_travels (form : TravelSearchForm) (w : World)
  : list TravelOption.t :=
  query_by_departure (travel_options w) (travel_list_keep form (clock w)).

(** [travel_list_view]: the search form is bound to the GET parameters,
    [page] is the [page] parameter. *)
Definition travel_list_view (form : TravelSearchForm) (page : option Z)
  : M TravelListContext :=
  w <- get_world ;;
  let travels := travel_list_travels form w in
  (* Pagination: show 9 travels per page *)
  ret (MkTravelListContext (get_page travels 9 page) form (length travels)).

End Listings.

(** The search form with nothing filled in. *)
Definition blank_search : TravelSearchForm :=
  MkTravelSearchForm None "" "" None None None None true.

(** [featured_travels] of [home_view]: the first six ACTIVE options that have
    not left yet, by departure time. *)
Definition home_view_featured_travels (w : World) : list TravelOption.t :=
  take 6
    (query_by_departure (travel_options w)
       (fun t => bool_decide (TravelOption.status t = ACTIVE)
                 && (clock w <=? TravelOption.departure_time t))).

(** A search form with another upper price bound. *)
Definition with_max_price (d : option Z) (form : TravelSearchForm)
  : TravelSearchForm :=
  MkTravelSearchForm (travel_type form) (source form) (destination form)
    (date_from form) (date_to form) (min_price form) d (search_fields_ok form).

(** Sample search data: containment is taken to hold always, and the day of
    a datetime is its day since the epoch. *)
Definition sample_icontains (column needle : string) : bool := true.

Definition sample_date_of (datetime : Z) : Z := datetime / (24 * hour).

Definition inverted_dates_search : TravelSearchForm :=
  MkTravelSearchForm None "" "" (Some 5) (Some 3) None None true.

(** ** The travel detail page (views.py) *)

(** [Booking.objects.filter(user=user, travel_option=travel,
    status='CONFIRMED').exists()] *)
Definition has_confirmed_booking (user travel : N) (rows : gmap N Booking.t)
  : bool :=
  existsb (fun b => bool_decide (Booking.user b = Some user)
                    && bool_decide (Booking.travel_option b = Some travel)
                    && bool_decide (Booking.status b = CONFIRMED))
          (map_to_list rows).*2.

Record TravelDetailContext := MkTravelDetailContext {
  travel : TravelOption.t;
  user_has_booking : bool;
  similar_travels : list TravelOption.t;
  can_book : bool
}.

(** [travel_detail_view]; the view is open to anonymous requests. *)
Definition travel_detail_view (request : Request unit) (pk : N)
  : M TravelDetailContext :=
  travel <- get_TravelOption_or_404 pk ;;
  w <- get_world ;;
  (* Check if user has already booked this travel *)
  let user_has_booking :=
    match req_user request with
    | Some user =>
        has_confirmed_booking user (TravelOption.travel_id travel) (bookings w)
    | None => false
    end in
  (* Get similar travel options *)
  now <- timezone_now ;;
  let similar_travels :=
    take 4
      (query_by_departure (travel_options w)
         (fun t =>
            (bool_decide (TravelOption.source t = TravelOption.source travel)
             || bool_decide (TravelOption.destination t
                             = TravelOption.destination travel))
            && bool_decide (TravelOption.status t = ACTIVE)
            && (now <=? TravelOption.departure_time t)
            && negb (bool_decide (TravelOption.travel_id t = pk)))) in
  ret (MkTravelDetailContext travel user_has_booking similar_travels
         (is_available travel && negb user_has_booking)).

(** A world in which user 9 already holds the confirmed booking 5 on the
    free flight 1. *)
Definition world_with_confirmed_booking : World :=
  sample_world_with free_flight confirmed_booking 0.

(** ** Password rules (forms.py) *)

Definition is_upper (a : ascii) : bool :=
  ((65 <=? nat_of_ascii a) && (nat_of_ascii a <=? 90))%nat.

Definition is_lower (a : ascii) : bool :=
  ((97 <=? nat_of_ascii a) && (nat_of_ascii a <=? 122))%nat.

(** [re.search(r'[...]', s)] for a character class: some character of [s] is
    in the class. *)
Fixpoint re_search (class : ascii -> bool) (s : string) : bool :=
  match s with
  | EmptyString => false
  | String a s' => class a || re_search class s'
  end.

(** [UserRegistrationForm.clean_password] *)
Definition clean_password (password : string) : Cleaned string :=
  (* Password strength validation *)
  if negb (re_search is_upper password)
  then Invalid "Password must contain at least one uppercase letter"
  else if negb (re_search is_lower password)
  then Invalid "Password must contain at least one lowercase letter"
  else if negb (re_search is_digit password)
  then Invalid "Password must contain at least one digit"
  else Valid password.

(** [PasswordChangeForm.clean], on the two new-password fields. *)
Definition PasswordChangeForm_clean (new_password confirm_password : option string)
  : Cleaned (option string * option string) :=
  match new_password, confirm_password with
  | Some n, Some c =>
      if nonempty n && nonempty c then
        if negb (String.eqb n c) then Invalid "New passwords do not match"
        (* Password strength validation *)
        else if negb (re_search is_upper n)
        then Invalid "Password must contain at least one uppercase letter"
        else if negb (re_search is_lower n)
        then Invalid "Password must contain at least one lowercase letter"
        else if negb (re_search is_digit n)
        then Invalid "Password must contain at least one digit"
        else Valid (new_password, confirm_password)
      else Valid (new_password, confirm_password)
  | _, _ => Valid (new_password, confirm_password)
  end.

(** ** The list of a user's bookings (views.py) *)

(** The value stored in the [status] column of a booking. *)
Definition status_code (s : Booking.Status) : string :=
  match s with
  | PENDING => "PENDING"
  | CONFIRMED => "CONFIRMED"
  | CANCELLED => "CANCELLED"
  | Booking.REFUNDED => "REFUNDED"
  end.

(** [order_by('-booking_date')]; the column is NOT NULL, an instance without
    date is placed as if dated 0. *)
Definition by_booking_date_desc (a b : Booking.t) : Prop :=
  default 0 (Booking.booking_date b) <= default 0 (Booking.booking_date a).

#[global] Instance by_booking_date_desc_dec (a b : Booking.t)
  : Decision (by_booking_date_desc a b) :=
  Z_le_dec (default 0 (Booking.booking_date b))
           (default 0 (Booking.booking_date a)).

(** The loop of [my_bookings_view] that separates upcoming and past
    bookings; each step reads the booking's travel option. *)
Fixpoint separate_upcoming_and_past (current_time : Z)
  (bookings : list Booking.t) : M (list Booking.t * list Booking.t) :=
  match bookings with
  | [] => ret ([], [])
  | booking :: rest =>
      t <- related_travel_option booking ;;
      r <- separate_upcoming_and_past current_time rest ;;
      ret (if current_time <=? TravelOption.departure_time t
           then (booking :: fst r, snd r)
           else (fst r, booking :: snd r))
  end.

Record MyBookingsContext := MkMyBookingsContext {
  bookings_page_obj : list Booking.t;
  upcoming_bookings : list Booking.t;
  past_bookings : list Booking.t;
  status_filter : option string
}.

Inductive MyBookingsResponse :=
| my_bookings_redirect_login
| my_bookings_render (context : MyBookingsContext).

(** The queryset [bookings] of [my_bookings_view]. *)
Definition my_bookings_queryset (user : N) (status_filter : option string)
  (w : World) : list Booking.t :=
  merge_sort by_booking_date_desc
    (List.filter
       (fun b =>
          bool_decide (Booking.user b = Some user)
          && match status_filter with
             | Some code =>
                 if nonempty code
                 then String.eqb (status_code (Booking.status b)) code
                 else true
             | None => true
             end)
       (map_to_list (bookings w)).*2).

(** [my_bookings_view]; [status] and [page] are the GET parameters of these
    names. *)
Definition my_bookings_view (request : Request unit)
  (status : option string) (page : option Z) : M MyBookingsResponse :=
  match req_user request with
  | None => ret my_bookings_redirect_login
  | Some user =>
      w <- get_world ;;
      (* Filter by status if provided *)
      let status_filter := status in
      let bookings := my_bookings_queryset user status_filter w in
      (* Separate upcoming and past bookings *)
      current_time <- timezone_now ;;
      r <- separate_upcoming_and_past current_time bookings ;;
      (* Pagination *)
      ret (my_bookings_render
             (MkMyBookingsContext
                (get_page bookings 10 page)
                (take 5 (fst r)) (take 5 (snd r)) status_filter))
  end.

(** * Verification *)

(** ** Running the monad *)

Lemma bind_Ok {A B} (m : M A) (k : A -> M B) w a w1 :
  m w = Ok a w1 -> bind m k w = k a w1.
Proof. unfold bind. intros ->. reflexivity. Qed.

Lemma bind_Raise {A B} (m : M A) (k : A -> M B) w e w1 :
  m w = Raise e w1 -> bind m k w = Raise e w1.
Proof. unfold bind. intros ->. reflexivity. Qed.

(** What [TravelOption.save] leaves: the instance with its timestamps, stored
    under its primary key; nothing else in the world moves. *)
Lemma TravelOption_save_run (self : TravelOption.t) (w : World) :
  exists self',
    TravelOption_save self w
    = Ok self' (set_travel_options
                  (<[TravelOption.travel_id self := self']> (travel_options w)) w)
    /\ TravelOption.travel_id self' = TravelOption.travel_id self
    /\ TravelOption.available_seats self' = TravelOption.available_seats self
    /\ TravelOption.total_seats self' = TravelOption.total_seats self
    /\ TravelOption.status self' = TravelOption.status self
    /\ TravelOption.price self' = TravelOption.price self
    /\ TravelOption.departure_time self' = TravelOption.departure_time self.
Proof.
  unfold TravelOption_save, TravelOption_save_to, bind, timezone_now, get_world.
  eexists. split; [reflexivity|]. simpl. tauto.
Qed.

(** ** Seat inventory: [update_availability] and [cancel_seats] *)

Section Inventory.

Variables (self : TravelOption.t) (n : Z) (w : World).

(** [update_availability] always returns: the seats go down by the argument,
    whatever it is, and the status becomes FULL when they land on 0. *)
Lemma update_availability_run :
  exists self',
    update_availability self n w
    = Ok self' (set_travel_options
                  (<[TravelOption.travel_id self := self']> (travel_options w)) w)
    /\ TravelOption.travel_id self' = TravelOption.travel_id self
    /\ TravelOption.total_seats self' = TravelOption.total_seats self
    /\ TravelOption.available_seats self' = TravelOption.available_seats self - n
    /\ TravelOption.status self'
       = if decide (TravelOption.available_seats self - n = 0)
         then FULL else TravelOption.status self.
Proof.
  unfold update_availability, update_availability_to. cbv zeta.
  change (TravelOption_save_to unbounded) with TravelOption_save.
  match goal with
  | |- context [TravelOption_save ?x w] =>
      destruct (TravelOption_save_run x w) as (s & Hs & Hid & Hav & Htot & Hst & _)
  end.
  exists s. rewrite Hs, Hid, Hav, Htot, Hst. simpl.
  destruct (decide (TravelOption.available_seats self - n = 0)); simpl; auto.
Qed.

(** [cancel_seats] always returns: the seats go up by the argument, with no
    cap, and a FULL option with a positive count becomes ACTIVE again. *)
Lemma cancel_seats_run :
  exists self',
    cancel_seats self n w
    = Ok self' (set_travel_options
                  (<[TravelOption.travel_id self := self']> (travel_options w)) w)
    /\ TravelOption.travel_id self' = TravelOption.travel_id self
    /\ TravelOption.total_seats self' = TravelOption.total_seats self
    /\ TravelOption.available_seats self' = TravelOption.available_seats self + n
    /\ TravelOption.status self'
       = if bool_decide (TravelOption.status self = FULL)
            && (0 <? TravelOption.available_seats self + n)
         then ACTIVE else TravelOption.status self.
Proof.
  unfold cancel_seats. cbv zeta.
  match goal with
  | |- context [TravelOption_save ?x w] =>
      destruct (TravelOption_save_run x w) as (s & Hs & Hid & Hav & Htot & Hst & _)
  end.
  exists s. rewrite Hs, Hid, Hav, Htot, Hst. simpl.
  destruct (bool_decide (TravelOption.status self = FULL)
            && (0 <? TravelOption.available_seats self + n)); simpl; auto.
Qed.

End Inventory.

(** C10, as stated, fails for the row that [save] writes: the INTEGER column
    of [available_seats] holds 64 bits.  Asked for [2^63 + 3] seats of an option
    with two left, [update_availability] raises [OverflowError]; the stored
    row still has its two seats and its status. *)
Lemma update_availability_raises_OverflowError :
  update_availability_to sqlite free_flight (2 ^ 63 + 3)
    (sample_world free_flight 0)
  = Raise OverflowError (sample_world free_flight 0)
  /\ travel_options (sample_world free_flight 0) !! 1%N = Some free_flight
  /\ TravelOption.available_seats free_flight = 2
  /\ TravelOption.status free_flight = ACTIVE.
Proof.
  split; [vm_compute; reflexivity|].
  split; [vm_compute; reflexivity|].
  split; reflexivity.
Qed.

(** C10, amended. [update_availability] is unguarded: it looks neither at the
    status nor at the seats left.  For an option whose price, [total_seats]
    and [travel_code] the table accepts, and every integer [n]:
    - when [available_seats - n] is a 64-bit signed integer, it returns
      normally, having decremented [available_seats] by [n]; the stored row
      is the returned instance; the status is FULL when the result is 0 and
      is left as it was otherwise, so with [n] above [available_seats] the
      field goes negative and the status stays as it was;
    - otherwise it raises [OverflowError] and no table is changed. *)
Theorem update_availability_unguarded_within_INTEGER
  (self : TravelOption.t) (n : Z) (w : World)
  (Hprice : fits_DECIMAL_10_2 (TravelOption.price self) = true)
  (Htotal : fits_INTEGER (TravelOption.total_seats self) = true)
  (Hcode : travel_code_in_use self (travel_options w) = false) :
  (fits_INTEGER (TravelOption.available_seats self - n) = true ->
   exists self' w',
     update_availability_to sqlite self n w = Ok self' w'
     /\ travel_options w' !! TravelOption.travel_id self = Some self'
     /\ bookings w' = bookings w
     /\ TravelOption.available_seats self'
        = TravelOption.available_seats self - n
     /\ (TravelOption.available_seats self - n = 0 ->
         TravelOption.status self' = FULL)
     /\ (TravelOption.available_seats self - n <> 0 ->
         TravelOption.status self' = TravelOption.status self)
     /\ (TravelOption.available_seats self < n ->
         TravelOption.available_seats self' < 0
         /\ TravelOption.status self' = TravelOption.status self))
  /\ (fits_INTEGER (TravelOption.available_seats self - n) = false ->
      update_availability_to sqlite self n w = Raise OverflowError w).
Proof.
  unfold update_availability_to, TravelOption_save_to. cbv zeta.
  unfold bind, timezone_now, get_world, raise.
  destruct self as [id code ty co so de dt at_ pr tot av st am cr up].
  simpl in *.
  destruct (decide (av - n = 0)) as [E|E]; simpl;
    rewrite Hprice, Htotal; simpl;
    (split; intros Hav; rewrite Hav; simpl; [|reflexivity]);
    unfold travel_code_in_use in *; simpl in *; rewrite Hcode;
    do 2 eexists; (split; [reflexivity|]); simpl;
    (split; [apply lookup_insert_eq|]);
    repeat split; intros; try reflexivity; try lia.
Qed.

Lemma update_availability_unguarded_within_INTEGER_witness :
  (exists self' w',
     update_availability_to sqlite free_flight 5 (sample_world free_flight 0)
     = Ok self' w'
     /\ TravelOption.available_seats self' = -3
     /\ TravelOption.status self' = ACTIVE)
  /\ update_availability_to sqlite free_flight (2 ^ 63 + 3)
       (sample_world free_flight 0)
     = Raise OverflowError (sample_world free_flight 0).
Proof.
  destruct (update_availability_unguarded_within_INTEGER free_flight 5
              (sample_world free_flight 0) eq_refl eq_refl eq_refl)
    as (Hin & _).
  destruct (update_availability_unguarded_within_INTEGER free_flight
              (2 ^ 63 + 3) (sample_world free_flight 0)
              eq_refl eq_refl eq_refl)
    as (_ & Hout).
  split.
  - destruct (Hin eq_refl) as (s & w' & Hrun & _ & _ & Hav & _ & _ & Hover).
    exists s, w'. split; [exact Hrun|]. split; [exact Hav|].
    apply Hover. simpl. lia.
  - apply Hout. reflexivity.
Defined.

(** C4. Round trip: on an ACTIVE option with [1 <= n <= available_seats],
    [update_availability n] followed by [cancel_seats n] on the resulting
    instance gives back the [available_seats] and the [status] it started
    from, in the instance and in the stored row. *)
Theorem reserve_then_release_roundtrip
  (self : TravelOption.t) (n : Z) (w : World)
  (Hactive : TravelOption.status self = ACTIVE)
  (Hpos : 1 <= n)
  (Hfits : n <= TravelOption.available_seats self) :
  exists self1 w1 self2 w2,
    update_availability self n w = Ok self1 w1
    /\ cancel_seats self1 n w1 = Ok self2 w2
    /\ TravelOption.available_seats self2 = TravelOption.available_seats self
    /\ TravelOption.status self2 = TravelOption.status self
    /\ travel_options w2 !! TravelOption.travel_id self = Some self2.
Proof.
  destruct (update_availability_run self n w)
    as (s1 & Hrun1 & Hid1 & _ & Hav1 & Hst1).
  destruct (cancel_seats_run s1 n
              (set_travel_options
                 (<[TravelOption.travel_id self := s1]> (travel_options w)) w))
    as (s2 & Hrun2 & Hid2 & _ & Hav2 & Hst2).
  exists s1. eexists. exists s2. eexists.
  split; [exact Hrun1|]. split; [exact Hrun2|].
  split; [lia|]. split.
  - rewrite Hst2, Hst1, Hav1, Hactive.
    destruct (decide (TravelOption.available_seats self - n = 0)) as [E|E].
    + rewrite bool_decide_eq_true_2 by reflexivity.
      replace (0 <? TravelOption.available_seats self - n + n) with true
        by (symmetry; apply Z.ltb_lt; lia).
      reflexivity.
    + rewrite bool_decide_eq_false_2 by discriminate. reflexivity.
  - simpl. rewrite Hid1. apply lookup_insert_eq.
Qed.

Lemma reserve_then_release_roundtrip_witness :
  exists self1 w1 self2 w2,
    update_availability (sample_travel 2 2 ACTIVE 0) 2
      (sample_world (sample_travel 2 2 ACTIVE 0) 0) = Ok self1 w1
    /\ cancel_seats self1 2 w1 = Ok self2 w2
    /\ TravelOption.available_seats self2 = 2
    /\ TravelOption.status self2 = ACTIVE
    /\ travel_options w2 !! 1%N = Some self2.
Proof.
  apply (reserve_then_release_roundtrip (sample_travel 2 2 ACTIVE 0) 2
           (sample_world (sample_travel 2 2 ACTIVE 0) 0));
    [reflexivity | lia | simpl; lia].
Defined.

(** C5, as stated, fails: releasing one seat of an option whose two seats are
    all free leaves three available seats out of two. *)
Lemma cancel_seats_exceeds_total_seats :
  exists self' w',
    cancel_seats (sample_travel 2 2 ACTIVE 0) 1
      (sample_world (sample_travel 2 2 ACTIVE 0) 0) = Ok self' w'
    /\ TravelOption.available_seats self' = 3
    /\ TravelOption.total_seats self' = 2
    /\ ~ TravelOption.available_seats self' <= TravelOption.total_seats self'.
Proof.
  do 2 eexists. split; [vm_compute; reflexivity|]. simpl. repeat split. lia.
Qed.

(** C5, amended. For [n >= 1], [cancel_seats n] returns normally with
    [available_seats] incremented by exactly [n]; there is no cap, so the
    result is within [total_seats] exactly when [available_seats + n] was;
    a FULL option whose resulting count is positive becomes ACTIVE, and in
    every other case the status is kept. *)
Theorem cancel_seats_increments_uncapped
  (self : TravelOption.t) (n : Z) (w : World) (Hpos : 1 <= n) :
  exists self' w',
    cancel_seats self n w = Ok self' w'
    /\ travel_options w' !! TravelOption.travel_id self = Some self'
    /\ TravelOption.available_seats self' = TravelOption.available_seats self + n
    /\ (TravelOption.available_seats self' <= TravelOption.total_seats self'
        <-> TravelOption.available_seats self + n <= TravelOption.total_seats self)
    /\ (TravelOption.status self = FULL ->
        0 < TravelOption.available_seats self' ->
        TravelOption.status self' = ACTIVE)
    /\ (~ (TravelOption.status self = FULL
           /\ 0 < TravelOption.available_seats self') ->
        TravelOption.status self' = TravelOption.status self).
Proof.
  destruct (cancel_seats_run self n w) as (s & Hrun & _ & Htot & Hav & Hst).
  exists s. eexists. split; [exact Hrun|].
  split; [simpl; apply lookup_insert_eq|].
  split; [exact Hav|].
  rewrite Hst, Hav, Htot. split; [tauto|].
  destruct (decide (TravelOption.status self = FULL)) as [E|E].
  - rewrite (bool_decide_eq_true_2 _ E). simpl.
    destruct (Z.ltb_spec 0 (TravelOption.available_seats self + n));
      split; intros; try reflexivity; try congruence; try lia.
    exfalso; tauto.
  - rewrite (bool_decide_eq_false_2 _ E). simpl. split; intros; tauto.
Qed.

Lemma cancel_seats_increments_uncapped_witness :
  exists self' w',
    cancel_seats (sample_travel 2 0 FULL 0) 1
      (sample_world (sample_travel 2 0 FULL 0) 0) = Ok self' w'
    /\ TravelOption.available_seats self' = 1
    /\ TravelOption.status self' = ACTIVE.
Proof.
  destruct (cancel_seats_increments_uncapped (sample_travel 2 0 FULL 0) 1
              (sample_world (sample_travel 2 0 FULL 0) 0))
    as (s & w' & Hrun & _ & Hav & _ & Hfull & _); [lia|].
  exists s, w'. split; [exact Hrun|]. split; [exact Hav|].
  apply Hfull; [reflexivity | rewrite Hav; simpl; lia].
Defined.

(** C3, as stated, fails. (1) [cancel_seats] does not cap: from an option that
    satisfies the invariant it reaches three free seats out of two.
    (2) [update_availability] on a FULL option leaves it FULL with a non-zero
    count. (3) [update_availability] turns a CANCELLED option whose seats land
    on 0 into a FULL one. *)
Lemma seat_operations_break_invariant :
  (TravelOption_invariant (sample_travel 2 2 ACTIVE 0)
   /\ exists self' w',
        cancel_seats (sample_travel 2 2 ACTIVE 0) 1
          (sample_world (sample_travel 2 2 ACTIVE 0) 0) = Ok self' w'
        /\ ~ TravelOption_invariant self')
  /\ (TravelOption_invariant (sample_travel 2 0 FULL 0)
      /\ exists self' w',
           update_availability (sample_travel 2 0 FULL 0) 1
             (sample_world (sample_travel 2 0 FULL 0) 0) = Ok self' w'
           /\ ~ TravelOption_invariant self')
  /\ (exists self' w',
        update_availability (sample_travel 2 1 TravelOption.CANCELLED 0) 1
          (sample_world (sample_travel 2 1 TravelOption.CANCELLED 0) 0)
        = Ok self' w'
        /\ TravelOption.status self' = FULL).
Proof.
  split; [|split].
  - split.
    + unfold TravelOption_invariant; simpl. split; [lia|].
      intros _. split; [discriminate | lia].
    + do 2 eexists. split; [vm_compute; reflexivity|].
      unfold TravelOption_invariant; simpl. intros [H _]. lia.
  - split.
    + unfold TravelOption_invariant; simpl. split; [lia|].
      intros _. split; reflexivity.
    + do 2 eexists. split; [vm_compute; reflexivity|].
      unfold TravelOption_invariant; simpl. intros [_ H].
      assert (E : (-1 = 0)%Z) by (apply H; [discriminate | reflexivity]).
      discriminate E.
  - do 2 eexists. split; [vm_compute; reflexivity|]. reflexivity.
Qed.

(** C3, amended. For [n >= 1] and an option that satisfies the invariant,
    both operations return normally and
    - [update_availability n] preserves the invariant whenever the status is
      not FULL;
    - [cancel_seats n] preserves the invariant whenever
      [0 <= available_seats] and [available_seats + n <= total_seats];
    - [cancel_seats] leaves a CANCELLED status as it is;
    - [update_availability] leaves a CANCELLED status as it is whenever the
      resulting [available_seats] is not 0. *)
Theorem seat_operations_preserve_invariant
  (self : TravelOption.t) (n : Z) (w : World)
  (Hinv : TravelOption_invariant self) (Hpos : 1 <= n) :
  exists r w1 c w2,
    update_availability self n w = Ok r w1
    /\ cancel_seats self n w = Ok c w2
    /\ (TravelOption.status self <> FULL -> TravelOption_invariant r)
    /\ (0 <= TravelOption.available_seats self ->
        TravelOption.available_seats self + n <= TravelOption.total_seats self ->
        TravelOption_invariant c)
    /\ (TravelOption.status self = TravelOption.CANCELLED ->
        TravelOption.status c = TravelOption.CANCELLED)
    /\ (TravelOption.status self = TravelOption.CANCELLED ->
        TravelOption.available_seats self - n <> 0 ->
        TravelOption.status r = TravelOption.CANCELLED).
Proof.
  destruct (update_availability_run self n w)
    as (r & Hr & _ & Htr & Har & Hsr).
  destruct (cancel_seats_run self n w) as (c & Hc & _ & Htc & Hac & Hsc).
  destruct Hinv as [Hle Hiff].
  exists r. eexists. exists c. eexists.
  split; [exact Hr|]. split; [exact Hc|].
  unfold TravelOption_invariant. rewrite Hsr, Har, Htr, Hsc, Hac, Htc.
  repeat split.
  - lia.
  - destruct (decide (TravelOption.available_seats self - n = 0)); congruence.
  - destruct (decide (TravelOption.available_seats self - n = 0)); congruence.
  - assumption.
  - intros HF.
    destruct (decide (TravelOption.status self = FULL)) as [E|E].
    + rewrite (bool_decide_eq_true_2 _ E) in *. simpl in *.
      destruct (Z.ltb_spec 0 (TravelOption.available_seats self + n));
        [discriminate|].
      assert (TravelOption.available_seats self = 0)
        by (apply Hiff; congruence).
      lia.
    + rewrite (bool_decide_eq_false_2 _ E) in *. simpl in *. contradiction.
  - intros Hz.
    destruct (decide (TravelOption.status self = FULL)) as [E|E].
    + assert (TravelOption.available_seats self = 0)
        by (apply Hiff; congruence).
      lia.
    + rewrite (bool_decide_eq_false_2 _ E) in *. simpl in *.
      assert (TravelOption.available_seats self <> 0)
        by (intros Z0; apply E, Hiff; [assumption | exact Z0]).
      lia.
  - intros HC. rewrite HC. reflexivity.
  - intros HC Hnz. rewrite HC.
    destruct (decide (TravelOption.available_seats self - n = 0));
      [contradiction | reflexivity].
Qed.

Lemma seat_operations_preserve_invariant_witness :
  exists r w1 c w2,
    update_availability (sample_travel 2 1 ACTIVE 0) 1
      (sample_world (sample_travel 2 1 ACTIVE 0) 0) = Ok r w1
    /\ cancel_seats (sample_travel 2 1 ACTIVE 0) 1
         (sample_world (sample_travel 2 1 ACTIVE 0) 0) = Ok c w2
    /\ TravelOption_invariant r /\ TravelOption_invariant c.
Proof.
  destruct (seat_operations_preserve_invariant (sample_travel 2 1 ACTIVE 0) 1
              (sample_world (sample_travel 2 1 ACTIVE 0) 0))
    as (r & w1 & c & w2 & Hr & Hc & Hir & Hic & _).
  - unfold TravelOption_invariant; simpl. split; [lia|].
    intros _. split; [discriminate | lia].
  - lia.
  - exists r, w1, c, w2. split; [exact Hr|]. split; [exact Hc|]. split.
    + apply Hir. discriminate.
    + apply Hic; simpl; lia.
Defined.

(** ** Cancellation window and refund tiers *)

Lemma Qgtb_total_seconds (td k : Z) :
  Qgtb (total_seconds td) (inject_Z k) = (k * 1000000 <? td).
Proof.
  unfold Qgtb, total_seconds, Qle_bool, Qdiv, Qmult, Qinv. simpl.
  apply eq_iff_eq_true. rewrite negb_true_iff, Z.ltb_lt, Z.leb_gt. lia.
Qed.

Lemma Qgtb_hours (td k : Z) :
  Qgtb (total_seconds td / 3600) (inject_Z k) = (k * 3600000000 <? td).
Proof.
  unfold Qgtb, total_seconds, Qle_bool, Qdiv, Qmult, Qinv. simpl.
  apply eq_iff_eq_true. rewrite negb_true_iff, Z.ltb_lt, Z.leb_gt. lia.
Qed.

Lemma hours_lt (t : TravelOption.t) (w : World) (k : Z) :
  (inject_Z k < hours_until_departure t w)%Q
  <-> k * hour < TravelOption.departure_time t - clock w.
Proof.
  unfold hours_until_departure, total_seconds, hour, Qlt, Qdiv, Qmult, Qinv.
  simpl. lia.
Qed.

Lemma hours_le (t : TravelOption.t) (w : World) (k : Z) :
  (hours_until_departure t w <= inject_Z k)%Q
  <-> TravelOption.departure_time t - clock w <= k * hour.
Proof.
  unfold hours_until_departure, total_seconds, hour, Qle, Qdiv, Qmult, Qinv.
  simpl. lia.
Qed.

Lemma hours_mono (t : TravelOption.t) (w1 w2 : World) :
  (hours_until_departure t w1 <= hours_until_departure t w2)%Q
  <-> clock w2 <= clock w1.
Proof.
  unfold hours_until_departure, total_seconds, Qle, Qdiv, Qmult, Qinv.
  simpl. lia.
Qed.

Section Refund.

Variables (self : Booking.t) (t : TravelOption.t) (w : World) (k : N).
Hypothesis Hfk : Booking.travel_option self = Some k.
Hypothesis Hrow : travel_options w !! k = Some t.

Lemma related_travel_option_run : related_travel_option self w = Ok t w.
Proof. unfold related_travel_option. rewrite Hfk, Hrow. reflexivity. Qed.

(** [is_cancellable] on a booking whose travel option is stored. *)
Lemma is_cancellable_run :
  is_cancellable self w
  = Ok (bool_decide (Booking.status self = CONFIRMED)
        && (2 * hour <? TravelOption.departure_time t - clock w)) w.
Proof.
  unfold is_cancellable.
  destruct (decide (Booking.status self <> CONFIRMED)) as [E|E].
  - rewrite (bool_decide_eq_false_2 _ E). reflexivity.
  - rewrite bool_decide_eq_true_2 by (destruct (decide (Booking.status self = CONFIRMED)); tauto).
    unfold bind. rewrite related_travel_option_run. simpl.
    unfold ret. f_equal. apply (Qgtb_total_seconds _ 7200).
Qed.

(** [get_refund_amount] on such a booking with a stored price. *)
Lemma get_refund_amount_run (p : Z) :
  Booking.total_price self = Some p ->
  get_refund_amount self w
  = Ok (if bool_decide (Booking.status self = CONFIRMED)
           && (2 * hour <? TravelOption.departure_time t - clock w)
        then if 24 * hour <? TravelOption.departure_time t - clock w
             then float_mul (nearest_float p 100) (nearest_float 9 10)
             else if 6 * hour <? TravelOption.departure_time t - clock w
                  then float_mul (nearest_float p 100) (nearest_float 1 2)
                  else float_mul (nearest_float p 100) (nearest_float 1 4)
        else 0%number) w.
Proof.
  intros Hp. unfold get_refund_amount.
  rewrite (bind_Ok _ _ _ _ _ is_cancellable_run).
  destruct (bool_decide (Booking.status self = CONFIRMED)
            && (2 * hour <? TravelOption.departure_time t - clock w));
    simpl; [|reflexivity].
  rewrite (bind_Ok _ _ _ _ _ related_travel_option_run).
  unfold bind at 1, timezone_now at 1.
  rewrite (Qgtb_hours _ 24), (Qgtb_hours _ 6), Hp.
  change (24 * 3600000000) with (24 * hour).
  change (6 * 3600000000) with (6 * hour).
  destruct (24 * hour <? TravelOption.departure_time t - clock w);
    [reflexivity|].
  destruct (6 * hour <? TravelOption.departure_time t - clock w); reflexivity.
Qed.

End Refund.

(** ** The binary64 arithmetic of the refund *)

(** The number of binary digits of a mantissa. *)
Lemma digits2_pos_size (p : positive) : digits2_pos p = Pos.size p.
Proof. induction p; simpl; congruence. Qed.

Lemma digits2_pos_bounds (p : positive) :
  2 ^ (Zpos (digits2_pos p) - 1) <= Zpos p < 2 ^ Zpos (digits2_pos p).
Proof.
  rewrite digits2_pos_size.
  pose proof (Pos.size_gt p) as Hgt. pose proof (Pos.size_le p) as Hle.
  apply Pos2Z.pos_lt_pos in Hgt. apply Pos2Z.pos_le_pos in Hle.
  rewrite Pos2Z.inj_pow in Hgt, Hle.
  replace (Zpos (Pos.size p)) with (Zpos (Pos.size p) - 1 + 1) in Hle at 1 by lia.
  rewrite Z.pow_add_r in Hle by lia.
  change (Zpos p~0) with (2 * Zpos p) in Hle.
  split; [|exact Hgt]. change (2 ^ 1) with 2 in Hle. lia.
Qed.

Lemma digits2_pos_unique (p : positive) (k : Z) :
  2 ^ (k - 1) <= Zpos p < 2 ^ k -> Zpos (digits2_pos p) = k.
Proof.
  intros [Hlo Hhi]. pose proof (digits2_pos_bounds p) as [Blo Bhi].
  destruct (Z.lt_trichotomy (Zpos (digits2_pos p)) k) as [H|[H|H]]; [|exact H|].
  - assert (2 ^ Zpos (digits2_pos p) <= 2 ^ (k - 1))
      by (apply Z.pow_le_mono_r; lia). lia.
  - assert (0 < k).
    { destruct (Z.le_gt_cases k 0) as [Hk|Hk]; [|exact Hk].
      assert (2 ^ k <= 2 ^ 0) by (apply Z.pow_le_mono_r; lia).
      change (2 ^ 0) with 1 in *. lia. }
    assert (2 ^ k <= 2 ^ (Zpos (digits2_pos p) - 1))
      by (apply Z.pow_le_mono_r; lia). lia.
Qed.

Lemma digits2_pos_iter_xO (p M : positive) :
  Zpos (digits2_pos (Pos.iter xO M p)) = Zpos (digits2_pos M) + Zpos p.
Proof.
  induction p as [|p IH] using Pos.peano_ind.
  - simpl. lia.
  - rewrite Pos.iter_succ. simpl. lia.
Qed.

(** The right shift of the rounding: [n] single shifts divide the mantissa
    by [2 ^ n]. *)
Lemma iter_pos_iter {A} (f : A -> A) (p : positive) :
  forall x, SpecFloat.iter_pos f p x = Pos.iter f x p.
Proof.
  induction p as [p IH|p IH|]; intros x; simpl.
  - rewrite !IH, !Pos.iter_swap. reflexivity.
  - rewrite !IH. reflexivity.
  - reflexivity.
Qed.

Lemma shr_1_spec (m : Z) (r s : bool) :
  0 <= m ->
  shr_1 (Build_shr_record m r s)
  = Build_shr_record (Z.div2 m) (Z.odd m) (r || s).
Proof.
  intros Hm. destruct m as [|[p|p|]|p]; try reflexivity; lia.
Qed.

Lemma shr_iter_m (p : positive) (m : Z) (r s : bool) :
  0 <= m ->
  exists r' s',
    SpecFloat.iter_pos shr_1 p (Build_shr_record m r s)
    = Build_shr_record (m / 2 ^ Zpos p) r' s'.
Proof.
  intros Hm. rewrite iter_pos_iter.
  induction p as [|p IH] using Pos.peano_ind.
  - cbv [Pos.iter]. rewrite shr_1_spec by exact Hm. rewrite Z.div2_div.
    do 2 eexists. reflexivity.
  - destruct IH as (r' & s' & IH).
    rewrite Pos.iter_succ, IH, shr_1_spec by (apply Z.div_pos; lia).
    rewrite Z.div2_div, Z.div_div by lia.
    rewrite Pos2Z.inj_succ, Z.pow_succ_r by lia.
    rewrite (Z.mul_comm 2). do 2 eexists. reflexivity.
Qed.

(** Shifting out [p] zero bits is exact. *)
Lemma shr_iter_exact (p : positive) :
  forall M : positive,
    SpecFloat.iter_pos shr_1 p (Build_shr_record (Zpos (Pos.iter xO M p)) false false)
    = Build_shr_record (Zpos M) false false.
Proof.
  intros M. rewrite iter_pos_iter. revert M.
  induction p as [|p IH] using Pos.peano_ind; intros M.
  - reflexivity.
  - rewrite (Pos.iter_succ p _ xO), (Pos.iter_succ p _ shr_1), <- Pos.iter_swap.
    simpl. apply IH.
Qed.

Lemma round_nearest_even_cases (m : Z) (l : location) :
  round_nearest_even m l = m \/ round_nearest_even m l = m + 1.
Proof.
  destruct l as [|[]]; simpl; auto. destruct (Z.even m); auto.
Qed.

Lemma shr_m_record_of_loc (m : Z) (l : location) :
  exists r s, shr_record_of_loc m l = Build_shr_record m r s.
Proof. destruct l as [|[]]; simpl; eauto. Qed.

Lemma fexp_normal (z : Z) : -1074 <= z - 53 -> fexp 53 1024 z = z - 53.
Proof.
  intros H. unfold fexp, emin. change (3 - 1024 - 53) with (-1074). lia.
Qed.

Lemma shr_normal (mx : positive) (ex : Z) (lx : location) (n : Z) :
  0 <= n ->
  exists r s,
    shr (shr_record_of_loc (Zpos mx) lx) ex n
    = (Build_shr_record (Zpos mx / 2 ^ n) r s, ex + n).
Proof.
  intros Hn. destruct (shr_m_record_of_loc (Zpos mx) lx) as (r & s & ->).
  destruct n as [|p|p]; [| |lia].
  - simpl. rewrite Z.div_1_r, Z.add_0_r. eauto.
  - simpl. destruct (shr_iter_m p (Zpos mx) r s) as (r' & s' & ->); [lia|].
    eauto.
Qed.

(** Rounding a mantissa of at least 53 digits above the subnormal range: the
    result is the infinity, or a float of 53 digits whose mantissa is the
    shifted one or its successor, or the power of two the successor
    carries into. *)
Lemma binary_round_aux_normal (s : bool) (mx : positive) (ex : Z) (lx : location) :
  53 <= Zpos (digits2_pos mx) ->
  -1074 <= Zpos (digits2_pos mx) + ex - 53 ->
  let n := Zpos (digits2_pos mx) - 53 in
  binary_round_aux 53 1024 s (Zpos mx) ex lx = S754_infinity s
  \/ exists m : positive,
       Zpos (digits2_pos m) = 53
       /\ ((binary_round_aux 53 1024 s (Zpos mx) ex lx = S754_finite s m (ex + n)
            /\ ex + n <= 971
            /\ Zpos mx / 2 ^ n <= Zpos m)
           \/ (binary_round_aux 53 1024 s (Zpos mx) ex lx
               = S754_finite s m (ex + n + 1)
               /\ ex + n + 1 <= 971)).
Proof.
  intros Hd Hnormal n.
  pose proof (digits2_pos_bounds mx) as [Blo Bhi].
  assert (Hn : 0 <= n) by (subst n; lia).
  unfold binary_round_aux, shr_fexp. cbn [Zdigits2].
  rewrite fexp_normal by lia.
  replace (Zpos (digits2_pos mx) + ex - 53 - ex) with n by (subst n; lia).
  destruct (shr_normal mx ex lx n Hn) as (r & s0 & ->).
  cbn [shr_m].
  set (m0 := Zpos mx / 2 ^ n).
  assert (Hm0 : 2 ^ 52 <= m0 < 2 ^ 53).
  { subst m0.
    assert (Hp : 0 < 2 ^ n) by (apply Z.pow_pos_nonneg; lia).
    assert (E1 : 2 ^ (Zpos (digits2_pos mx) - 1) = 2 ^ 52 * 2 ^ n).
    { rewrite <- Z.pow_add_r by lia. f_equal. subst n. lia. }
    assert (E2 : 2 ^ Zpos (digits2_pos mx) = 2 ^ 53 * 2 ^ n).
    { rewrite <- Z.pow_add_r by lia. f_equal. subst n. lia. }
    split.
    - apply Z.div_le_lower_bound; lia.
    - apply Z.div_lt_upper_bound; lia. }
  set (l := loc_of_shr_record {| shr_m := m0; shr_r := r; shr_s := s0 |}).
  destruct (round_nearest_even_cases m0 l) as [E|E]; rewrite E; clear E.
  - (* the shifted mantissa *)
    destruct m0 as [|pm|pm] eqn:Em0;
      [change (2 ^ 52) with 4503599627370496 in Hm0; lia| |lia].
    assert (Hdm : Zpos (digits2_pos pm) = 53)
      by (apply digits2_pos_unique; exact Hm0).
    cbn [Zdigits2]. rewrite Hdm, fexp_normal by lia.
    replace (53 + (ex + n) - 53 - (ex + n)) with 0 by lia.
    cbn [shr shr_record_of_loc shr_m].
    destruct (Z.leb_spec (ex + n) (1024 - 53)) as [Hle|Hgt].
    + right. exists pm. split; [exact Hdm|]. left.
      split; [reflexivity|]. split; [lia|]. lia.
    + left. reflexivity.
  - (* its successor *)
    destruct (Z.eq_dec (m0 + 1) (2 ^ 53)) as [Hc|Hc].
    + rewrite Hc. change (2 ^ 53) with 9007199254740992.
      change (Zdigits2 9007199254740992) with 54.
      rewrite fexp_normal by lia.
      replace (54 + (ex + n) - 53 - (ex + n)) with 1 by lia.
      cbn [shr shr_record_of_loc SpecFloat.iter_pos shr_1 shr_m].
      destruct (Z.leb_spec (ex + n + 1) (1024 - 53)) as [Hle|Hgt].
      * right. exists 4503599627370496%positive. split; [reflexivity|]. right.
        split; [reflexivity|]. lia.
      * left. reflexivity.
    + destruct (m0 + 1) as [|pm|pm] eqn:Em1; [lia| |lia].
      assert (Hdm : Zpos (digits2_pos pm) = 53)
        by (apply digits2_pos_unique; lia).
      cbn [Zdigits2]. rewrite Hdm, fexp_normal by lia.
      replace (53 + (ex + n) - 53 - (ex + n)) with 0 by lia.
      cbn [shr shr_record_of_loc shr_m].
      destruct (Z.leb_spec (ex + n) (1024 - 53)) as [Hle|Hgt].
      * right. exists pm. split; [exact Hdm|]. left.
        split; [reflexivity|]. split; [lia|]. lia.
      * left. reflexivity.
Qed.

(** The product with a power of two is exact: the exponent moves, the
    mantissa stays. *)
Lemma float_mul_pow2 (s : bool) (m : positive) (e ec : Z) :
  Zpos (digits2_pos m) = 53 ->
  -1074 <= e + ec + 52 <= 971 ->
  float_mul (S754_finite s m e) (S754_finite false 4503599627370496 ec)
  = S754_finite s m (e + ec + 52).
Proof.
  intros Hd He. unfold float_mul, SFmul.
  rewrite xorb_false_r, Pos.mul_comm.
  change (4503599627370496 * m)%positive with (Pos.iter xO m 52).
  unfold binary_round_aux, shr_fexp. cbn [Zdigits2].
  rewrite digits2_pos_iter_xO, Hd, fexp_normal by lia.
  replace (53 + 52 + (e + ec) - 53 - (e + ec)) with 52 by lia.
  cbn [shr shr_record_of_loc]. rewrite shr_iter_exact.
  cbn [shr_m loc_of_shr_record round_nearest_even Zdigits2].
  rewrite Hd, fexp_normal by lia.
  replace (53 + (e + ec + 52) - 53 - (e + ec + 52)) with 0 by lia.
  cbn [shr shr_record_of_loc shr_m].
  destruct (Z.leb_spec (e + ec + 52) (1024 - 53)); [reflexivity|lia].
Qed.

(** The product with a float of [[0.5, 1)]: the infinity, or a float that is
    not below the half. *)
Lemma float_mul_above_half (m c : positive) (e : Z) :
  Zpos (digits2_pos m) = 53 ->
  Zpos (digits2_pos c) = 53 ->
  -1073 <= e ->
  float_mul (S754_finite false m e) (S754_finite false c (-53))
  = S754_infinity false
  \/ exists m' e',
       float_mul (S754_finite false m e) (S754_finite false c (-53))
       = S754_finite false m' e'
       /\ (e - 1 < e' \/ (e' = e - 1 /\ Zpos m <= Zpos m')).
Proof.
  intros Hm Hc He. unfold float_mul, SFmul. cbn [xorb].
  pose proof (digits2_pos_bounds m) as Bm. rewrite Hm in Bm.
  pose proof (digits2_pos_bounds c) as Bc. rewrite Hc in Bc.
  change (2 ^ (53 - 1)) with (2 ^ 52) in Bm, Bc.
  assert (Hprod : 2 ^ 104 <= Zpos (m * c) < 2 ^ 106).
  { rewrite Pos2Z.inj_mul.
    change (2 ^ 104) with (2 ^ 52 * 2 ^ 52).
    change (2 ^ 106) with (2 ^ 53 * 2 ^ 53).
    split; [apply Z.mul_le_mono_nonneg; lia|].
    apply Z.mul_lt_mono_nonneg; lia. }
  assert (Hd : Zpos (digits2_pos (m * c)) = 105
               \/ Zpos (digits2_pos (m * c)) = 106).
  { destruct (Z.lt_ge_cases (Zpos (m * c)) (2 ^ 105)).
    - left. apply digits2_pos_unique. change (105 - 1) with 104. lia.
    - right. apply digits2_pos_unique. change (106 - 1) with 105. lia. }
  destruct (binary_round_aux_normal false (m * c) (e + -53) loc_Exact)
    as [Hinf|(m' & _ & [(Hr & _ & Hlow)|(Hr & _)])]; [lia|lia| | |].
  - left. exact Hinf.
  - right. do 2 eexists. split; [exact Hr|].
    destruct Hd as [Hd|Hd]; rewrite Hd in *.
    + right. split; [lia|].
      change (105 - 53) with 52 in Hlow.
      assert (Zpos m <= Zpos (m * c) / 2 ^ 52); [|lia].
      apply Z.div_le_lower_bound; [lia|]. rewrite Pos2Z.inj_mul. nia.
    + left. lia.
  - right. do 2 eexists. split; [exact Hr|]. left. lia.
Qed.

(** [float(d)] of an amount of [n] cents, of either sign: the infinity, or a
    float of 53 digits well inside the exponent range. *)
Lemma float_of_cents (s : bool) (n : positive) :
  SFdiv 53 1024 (S754_finite s n 0) (S754_finite false 100 0)
  = S754_infinity s
  \/ exists m e,
       SFdiv 53 1024 (S754_finite s n 0) (S754_finite false 100 0)
       = S754_finite s m e
       /\ Zpos (digits2_pos m) = 53 /\ -59 <= e <= 971.
Proof.
  unfold SFdiv, SFdiv_core_binary. rewrite xorb_false_r. cbn [Zdigits2].
  change (Zpos (digits2_pos 100)) with 7.
  pose proof (digits2_pos_bounds n) as Bn.
  set (d := Zpos (digits2_pos n)) in *.
  assert (Hd : 1 <= d) by (subst d; lia).
  replace (d + 0 - (7 + 0)) with (d - 7) by lia.
  rewrite fexp_normal by lia. change (0 - 0) with 0.
  set (e' := Z.min (d - 7 - 53) 0).
  set (m' := match 0 - e' with
             | 0 => Zpos n
             | Zpos _ => Z.shiftl (Zpos n) (0 - e')
             | Zneg _ => 0
             end).
  assert (Hm' : m' = Zpos n * 2 ^ (0 - e')).
  { subst m'. assert (0 <= 0 - e') by (subst e'; lia).
    destruct (0 - e') as [|q|q] eqn:E.
    - simpl. lia.
    - apply Z.shiftl_mul_pow2. lia.
    - lia. }
  assert (Hbig : 2 ^ 59 <= m').
  { rewrite Hm'. destruct (Z.le_gt_cases d 60) as [Hle|Hgt].
    - replace (0 - e') with (60 - d) by (subst e'; lia).
      replace 59 with ((d - 1) + (60 - d)) by lia.
      rewrite Z.pow_add_r by lia.
      apply Z.mul_le_mono_nonneg_r; [apply Z.pow_nonneg; lia|lia].
    - replace (0 - e') with 0 by (subst e'; lia).
      rewrite Z.mul_1_r.
      assert (2 ^ 59 <= 2 ^ (d - 1)) by (apply Z.pow_le_mono_r; lia). lia. }
  destruct (Z.div_eucl m' 100) as [q r] eqn:Eq.
  assert (Hq : q = m' / 100) by (unfold Z.div; rewrite Eq; reflexivity).
  assert (Hq52 : 2 ^ 52 <= q).
  { rewrite Hq. apply Z.div_le_lower_bound; [lia|].
    change (2 ^ 59) with (128 * 2 ^ 52) in Hbig. lia. }
  destruct q as [|pq|pq];
    [change (2 ^ 52) with 4503599627370496 in Hq52; lia| |lia].
  pose proof (digits2_pos_bounds pq) as Bq.
  assert (Hdq : 53 <= Zpos (digits2_pos pq)).
  { destruct (Z.lt_ge_cases (Zpos (digits2_pos pq)) 53) as [Hlt|]; [|lia].
    assert (2 ^ Zpos (digits2_pos pq) <= 2 ^ 52)
      by (apply Z.pow_le_mono_r; lia). lia. }
  assert (He' : -59 <= e') by (subst e'; lia).
  destruct (binary_round_aux_normal s pq e' (new_location 100 r))
    as [Hinf|(m & Hdm & [(Hr & Hle & _)|(Hr & Hle)])]; [lia|lia| | |].
  - left. exact Hinf.
  - right. do 2 eexists. split; [exact Hr|]. split; [exact Hdm|]. lia.
  - right. do 2 eexists. split; [exact Hr|]. split; [exact Hdm|]. lia.
Qed.

Lemma SFleb_finite (m1 m2 : positive) (e1 e2 : Z) :
  e1 < e2 \/ (e1 = e2 /\ Zpos m1 <= Zpos m2) ->
  SFleb (S754_finite false m1 e1) (S754_finite false m2 e2) = true.
Proof.
  intros H. unfold SFleb, SFcompare.
  destruct (Z.compare_spec e1 e2) as [E|E|E]; [|reflexivity|lia].
  destruct H as [H|[_ H]]; [lia|].
  change (Pos.compare_cont Eq m1 m2) with (Pos.compare m1 m2).
  destruct (Pos.compare_spec m1 m2) as [C|C|C]; try reflexivity.
  apply Pos2Z.pos_lt_pos in C. lia.
Qed.

(** The four amounts of the policy on a price of [p >= 0] cents are in
    order: nothing, the quarter, the half, the nine tenths. *)
Lemma refund_amounts_ordered (p : Z) :
  0 <= p ->
  let v0 := 0%number in
  let v1 := float_mul (nearest_float p 100) (nearest_float 1 4) in
  let v2 := float_mul (nearest_float p 100) (nearest_float 1 2) in
  let v3 := float_mul (nearest_float p 100) (nearest_float 9 10) in
  (SFleb v0 v0 = true /\ SFleb v0 v1 = true /\ SFleb v0 v2 = true
   /\ SFleb v0 v3 = true)
  /\ (SFleb v1 v1 = true /\ SFleb v1 v2 = true /\ SFleb v1 v3 = true)
  /\ (SFleb v2 v2 = true /\ SFleb v2 v3 = true)
  /\ SFleb v3 v3 = true.
Proof.
  intros Hp. cbv zeta.
  change (nearest_float 1 4) with (S754_finite false 4503599627370496 (-54)).
  change (nearest_float 1 2) with (S754_finite false 4503599627370496 (-53)).
  change (nearest_float 9 10) with (S754_finite false 8106479329266893 (-53)).
  destruct p as [|n|n]; [repeat split; reflexivity| |lia].
  unfold nearest_float.
  destruct (float_of_cents false n) as [->|(m & e & -> & Hd & He)];
    [repeat split; reflexivity|].
  rewrite !float_mul_pow2 by (try exact Hd; lia).
  destruct (float_mul_above_half m 8106479329266893 e Hd eq_refl)
    as [->|(m' & e' & -> & H)]; [lia| |].
  - repeat split; try reflexivity; apply SFleb_finite; lia.
  - repeat split; try reflexivity; apply SFleb_finite; lia.
Qed.

(** On a positive price each of the three products is positive. *)
Lemma refund_amounts_positive (p : Z) :
  0 < p ->
  SFltb 0%number (float_mul (nearest_float p 100) (nearest_float 1 4)) = true
  /\ SFltb 0%number (float_mul (nearest_float p 100) (nearest_float 1 2)) = true
  /\ SFltb 0%number (float_mul (nearest_float p 100) (nearest_float 9 10)) = true.
Proof.
  intros Hp.
  change (nearest_float 1 4) with (S754_finite false 4503599627370496 (-54)).
  change (nearest_float 1 2) with (S754_finite false 4503599627370496 (-53)).
  change (nearest_float 9 10) with (S754_finite false 8106479329266893 (-53)).
  destruct p as [|n|n]; [lia| |lia].
  unfold nearest_float.
  destruct (float_of_cents false n) as [->|(m & e & -> & Hd & He)];
    [repeat split; reflexivity|].
  rewrite !float_mul_pow2 by (try exact Hd; lia).
  split; [reflexivity|]. split; [reflexivity|].
  destruct (float_mul_above_half m 8106479329266893 e Hd eq_refl)
    as [->|(m' & e' & -> & H)]; [lia|reflexivity|reflexivity].
Qed.

(** The half and the quarter are exact: doubled, or taken four times, they
    give back [float(total_price)]. *)
Lemma refund_half_and_quarter_exact (p : Z) :
  float_mul (float_mul (nearest_float p 100) (nearest_float 1 2))
            (nearest_float 2 1)
  = nearest_float p 100
  /\ float_mul (float_mul (nearest_float p 100) (nearest_float 1 4))
               (nearest_float 4 1)
     = nearest_float p 100.
Proof.
  change (nearest_float 1 4) with (S754_finite false 4503599627370496 (-54)).
  change (nearest_float 1 2) with (S754_finite false 4503599627370496 (-53)).
  change (nearest_float 2 1) with (S754_finite false 4503599627370496 (-51)).
  change (nearest_float 4 1) with (S754_finite false 4503599627370496 (-50)).
  assert (H : forall s n,
             let x := SFdiv 53 1024 (S754_finite s n 0) (S754_finite false 100 0) in
             float_mul (float_mul x (S754_finite false 4503599627370496 (-53)))
                       (S754_finite false 4503599627370496 (-51)) = x
             /\ float_mul (float_mul x (S754_finite false 4503599627370496 (-54)))
                          (S754_finite false 4503599627370496 (-50)) = x).
  { intros s n x. subst x.
    destruct (float_of_cents s n) as [->|(m & e & -> & Hd & He)].
    - destruct s; split; reflexivity.
    - rewrite !float_mul_pow2 by (try exact Hd; lia).
      split; f_equal; lia. }
  destruct p as [|n|n]; [split; reflexivity| |]; apply H.
Qed.

(** C2, as stated, fails on the amount: thirty hours before departure a
    booking of 0.10 is refunded the float 0.09000000000000001, the product
    of the floats 0.1 and 0.9, which is not the float 0.09 that 90% of 0.10
    is nearest to. *)
Lemma refund_of_ten_cents_is_not_ninety_percent :
  exists r,
    get_refund_amount ten_cent_booking
      (sample_world_with (sold_out_flight 30) ten_cent_booking 0)
    = Ok r (sample_world_with (sold_out_flight 30) ten_cent_booking 0)
    /\ r = S754_finite false 6485183463413515 (-56)
    /\ nearest_float 9 100 = S754_finite false 6485183463413514 (-56)
    /\ r <> nearest_float 9 100.
Proof.
  eexists. split; [vm_compute; reflexivity|].
  split; [reflexivity|]. split; [vm_compute; reflexivity|].
  vm_compute. discriminate.
Qed.

(** C2, amended. With [h] the hours until departure at the time of the call,
    [get_refund_amount] returns 0 when the booking is not cancellable, that
    is when its status is not CONFIRMED or [h <= 2]; for a CONFIRMED booking
    it returns the product of the float [float(total_price)] with the float
    0.9 when [h > 24], with 0.5 when [6 < h <= 24] and with 0.25 when
    [2 < h <= 6].  The products with 0.5 and 0.25 are exact, the half and the
    quarter of [float(total_price)]; the product with 0.9 is rounded.  The
    method reads the world and leaves it as it is. *)
Theorem get_refund_amount_tiers
  (self : Booking.t) (t : TravelOption.t) (w : World) (k : N) (p : Z)
  (Hfk : Booking.travel_option self = Some k)
  (Hrow : travel_options w !! k = Some t)
  (Hprice : Booking.total_price self = Some p) :
  let h := hours_until_departure t w in
  let price := nearest_float p 100 in
  exists c r,
    is_cancellable self w = Ok c w
    /\ get_refund_amount self w = Ok r w
    /\ (c = false <-> Booking.status self <> CONFIRMED \/ (h <= 2)%Q)
    /\ (c = false -> r = 0%number)
    /\ (Booking.status self = CONFIRMED -> (24 < h)%Q ->
        r = float_mul price (nearest_float 9 10))
    /\ (Booking.status self = CONFIRMED -> (6 < h)%Q /\ (h <= 24)%Q ->
        r = float_mul price (nearest_float 1 2)
        /\ float_mul r (nearest_float 2 1) = price)
    /\ (Booking.status self = CONFIRMED -> (2 < h)%Q /\ (h <= 6)%Q ->
        r = float_mul price (nearest_float 1 4)
        /\ float_mul r (nearest_float 4 1) = price).
Proof.
  intros h price. subst h price.
  destruct (refund_half_and_quarter_exact p) as [Hhalf Hquarter].
  do 2 eexists.
  split; [apply (is_cancellable_run self t w k Hfk Hrow)|].
  split; [apply (get_refund_amount_run self t w k Hfk Hrow p Hprice)|].
  split.
  { rewrite andb_false_iff, bool_decide_eq_false, Z.ltb_ge.
    rewrite (hours_le t w 2). reflexivity. }
  split.
  { intros ->. reflexivity. }
  split; [|split].
  - intros Hc Hh. apply (hours_lt t w 24) in Hh.
    rewrite (bool_decide_eq_true_2 _ Hc). simpl.
    destruct (Z.ltb_spec (2 * hour) (TravelOption.departure_time t - clock w));
      [|unfold hour in *; lia].
    destruct (Z.ltb_spec (24 * hour) (TravelOption.departure_time t - clock w));
      [reflexivity|lia].
  - intros Hc [Hlo Hhi]. apply (hours_lt t w 6) in Hlo.
    apply (hours_le t w 24) in Hhi.
    rewrite (bool_decide_eq_true_2 _ Hc). simpl.
    destruct (Z.ltb_spec (2 * hour) (TravelOption.departure_time t - clock w));
      [|unfold hour in *; lia].
    destruct (Z.ltb_spec (24 * hour) (TravelOption.departure_time t - clock w));
      [lia|].
    destruct (Z.ltb_spec (6 * hour) (TravelOption.departure_time t - clock w));
      [|lia].
    split; [reflexivity|exact Hhalf].
  - intros Hc [Hlo Hhi]. apply (hours_lt t w 2) in Hlo.
    apply (hours_le t w 6) in Hhi.
    rewrite (bool_decide_eq_true_2 _ Hc). simpl.
    destruct (Z.ltb_spec (2 * hour) (TravelOption.departure_time t - clock w));
      [|lia].
    destruct (Z.ltb_spec (24 * hour) (TravelOption.departure_time t - clock w));
      [unfold hour in *; lia|].
    destruct (Z.ltb_spec (6 * hour) (TravelOption.departure_time t - clock w));
      [lia|].
    split; [reflexivity|exact Hquarter].
Qed.

Lemma get_refund_amount_tiers_witness :
  exists r,
    get_refund_amount (sample_booking CONFIRMED 2 100000)
      (sample_world_with (sample_travel 2 0 FULL (30 * hour))
         (sample_booking CONFIRMED 2 100000) 0)
    = Ok r (sample_world_with (sample_travel 2 0 FULL (30 * hour))
              (sample_booking CONFIRMED 2 100000) 0)
    /\ r = nearest_float 900 1.
Proof.
  destruct (get_refund_amount_tiers (sample_booking CONFIRMED 2 100000)
              (sample_travel 2 0 FULL (30 * hour))
              (sample_world_with (sample_travel 2 0 FULL (30 * hour))
                 (sample_booking CONFIRMED 2 100000) 0)
              1%N 100000 eq_refl eq_refl eq_refl)
    as (c & r & _ & Hr & _ & _ & H90 & _).
  exists r. split; [exact Hr|].
  rewrite H90; [vm_compute; reflexivity | reflexivity | reflexivity].
Defined.

(** The worked example of the policy: a booking of 1000.00 is refunded
    900.0 thirty hours before departure, 500.0 ten hours before, 250.0
    three hours before and nothing one hour before. *)
Example refund_of_1000_at_30_10_3_1_hours :
  get_refund_amount confirmed_booking (world_before_departure 30)
  = Ok (nearest_float 900 1) (world_before_departure 30)
  /\ get_refund_amount confirmed_booking (world_before_departure 10)
     = Ok (nearest_float 500 1) (world_before_departure 10)
  /\ get_refund_amount confirmed_booking (world_before_departure 3)
     = Ok (nearest_float 250 1) (world_before_departure 3)
  /\ get_refund_amount confirmed_booking (world_before_departure 1)
     = Ok 0%number (world_before_departure 1).
Proof. repeat split; vm_compute; reflexivity. Qed.

(** C8. For a fixed CONFIRMED booking with a non-negative [total_price],
    evaluated in two worlds that differ in their clock, [get_refund_amount]
    is non-decreasing in the hours until departure [h]; it is constant on
    each of [h <= 2] (value 0), [2 < h <= 6] (the product with 0.25),
    [6 < h <= 24] (the product with 0.5) and [24 < h] (the product with
    0.9), so its only breakpoints are at 2, 6 and 24 hours. *)
Theorem get_refund_amount_monotone
  (self : Booking.t) (t : TravelOption.t) (w1 w2 : World) (k : N) (p : Z)
  (Hconfirmed : Booking.status self = CONFIRMED)
  (Hprice : Booking.total_price self = Some p)
  (Hnonneg : 0 <= p)
  (Hfk : Booking.travel_option self = Some k)
  (Hrow1 : travel_options w1 !! k = Some t)
  (Hrow2 : travel_options w2 !! k = Some t) :
  let h1 := hours_until_departure t w1 in
  let h2 := hours_until_departure t w2 in
  let price := nearest_float p 100 in
  exists r1 r2,
    get_refund_amount self w1 = Ok r1 w1
    /\ get_refund_amount self w2 = Ok r2 w2
    /\ ((h1 <= h2)%Q -> SFleb r1 r2 = true)
    /\ ((h1 <= 2)%Q -> r1 = 0%number)
    /\ ((2 < h1)%Q /\ (h1 <= 6)%Q -> r1 = float_mul price (nearest_float 1 4))
    /\ ((6 < h1)%Q /\ (h1 <= 24)%Q -> r1 = float_mul price (nearest_float 1 2))
    /\ ((24 < h1)%Q -> r1 = float_mul price (nearest_float 9 10)).
Proof.
  intros h1 h2 price. subst h1 h2 price.
  do 2 eexists.
  split; [apply (get_refund_amount_run self t w1 k Hfk Hrow1 p Hprice)|].
  split; [apply (get_refund_amount_run self t w2 k Hfk Hrow2 p Hprice)|].
  rewrite (bool_decide_eq_true_2 _ Hconfirmed). simpl.
  destruct (refund_amounts_ordered p Hnonneg)
    as ((O00 & O01 & O02 & O03) & (O11 & O12 & O13) & (O22 & O23) & O33).
  split.
  - intros Hh. apply hours_mono in Hh.
    destruct (Z.ltb_spec (2 * hour) (TravelOption.departure_time t - clock w1));
      destruct (Z.ltb_spec (24 * hour) (TravelOption.departure_time t - clock w1));
      destruct (Z.ltb_spec (6 * hour) (TravelOption.departure_time t - clock w1));
      destruct (Z.ltb_spec (2 * hour) (TravelOption.departure_time t - clock w2));
      destruct (Z.ltb_spec (24 * hour) (TravelOption.departure_time t - clock w2));
      destruct (Z.ltb_spec (6 * hour) (TravelOption.departure_time t - clock w2));
      try (unfold hour in *; lia); assumption.
  - destruct (Z.ltb_spec (2 * hour) (TravelOption.departure_time t - clock w1));
      destruct (Z.ltb_spec (24 * hour) (TravelOption.departure_time t - clock w1));
      destruct (Z.ltb_spec (6 * hour) (TravelOption.departure_time t - clock w1));
      try (unfold hour in *; lia);
      (split; [intros Hh; apply (hours_le t w1 2) in Hh;
               try reflexivity; lia |]);
      (split; [intros [Hlo Hhi]; apply (hours_lt t w1 2) in Hlo;
               apply (hours_le t w1 6) in Hhi; try reflexivity; lia |]);
      (split; [intros [Hlo Hhi]; apply (hours_lt t w1 6) in Hlo;
               apply (hours_le t w1 24) in Hhi; try reflexivity; lia |]);
      intros Hlo; apply (hours_lt t w1 24) in Hlo; try reflexivity; lia.
Qed.

Lemma get_refund_amount_monotone_witness :
  exists r1 r2,
    get_refund_amount (sample_booking CONFIRMED 2 100000)
      (sample_world_with (sample_travel 2 0 FULL (30 * hour))
         (sample_booking CONFIRMED 2 100000) (27 * hour))
    = Ok r1 (sample_world_with (sample_travel 2 0 FULL (30 * hour))
               (sample_booking CONFIRMED 2 100000) (27 * hour))
    /\ get_refund_amount (sample_booking CONFIRMED 2 100000)
         (sample_world_with (sample_travel 2 0 FULL (30 * hour))
            (sample_booking CONFIRMED 2 100000) (20 * hour))
       = Ok r2 (sample_world_with (sample_travel 2 0 FULL (30 * hour))
                  (sample_booking CONFIRMED 2 100000) (20 * hour))
    /\ SFleb r1 r2 = true /\ r1 = nearest_float 250 1.
Proof.
  destruct (get_refund_amount_monotone (sample_booking CONFIRMED 2 100000)
              (sample_travel 2 0 FULL (30 * hour))
              (sample_world_with (sample_travel 2 0 FULL (30 * hour))
                 (sample_booking CONFIRMED 2 100000) (27 * hour))
              (sample_world_with (sample_travel 2 0 FULL (30 * hour))
                 (sample_booking CONFIRMED 2 100000) (20 * hour))
              1%N 100000 eq_refl eq_refl ltac:(lia) eq_refl eq_refl eq_refl)
    as (r1 & r2 & H1 & H2 & Hmono & _ & H25 & _).
  exists r1, r2. split; [exact H1|]. split; [exact H2|]. split.
  - apply Hmono. vm_compute. discriminate.
  - rewrite H25; [vm_compute; reflexivity|].
    split; [reflexivity | vm_compute; discriminate].
Defined.

(** ** Booking lifecycle: [save], [cancel], [confirm] *)

(** What [Booking.save] leaves, for a booking read from the table whose
    travel option is stored, whose user is set and whose price is set unless
    the primary key is missing: it returns, the row is written under the primary key, the travel
    table and the clock are untouched, and only the reference, the primary
    key, the booking date and (when the key was missing) the price can differ
    from the instance it was called on. *)
Lemma Booking_save_run
  (self : Booking.t) (t : TravelOption.t) (w : World) (k u : N)
  (Hfk : Booking.travel_option self = Some k)
  (Hrow : travel_options w !! k = Some t)
  (Huser : Booking.user self = Some u)
  (Hprice : Booking.booking_id self = None
            \/ exists p, Booking.total_price self = Some p) :
  exists self' w' pk,
    Booking_save false self w = Ok self' w'
    /\ Booking.booking_id self' = Some pk
    /\ (forall pk0, Booking.booking_id self = Some pk0 -> pk = pk0)
    /\ bookings w' = <[pk := self']> (bookings w)
    /\ travel_options w' = travel_options w
    /\ clock w' = clock w
    /\ Booking.total_price self'
       = match Booking.booking_id self with
         | None => Some (TravelOption.price t * Booking.number_of_seats self)
         | Some _ => Booking.total_price self
         end
    /\ Booking.status self' = Booking.status self
    /\ Booking.number_of_seats self' = Booking.number_of_seats self
    /\ Booking.user self' = Booking.user self
    /\ Booking.travel_option self' = Booking.travel_option self
    /\ Booking.cancelled_at self' = Booking.cancelled_at self
    /\ Booking.cancellation_reason self' = Booking.cancellation_reason self
    /\ (forall r, Booking.booking_reference self = Some r ->
                  Booking.booking_reference self' = Some r).
Proof.
  destruct self as [bid bref usr fk nseats tp bdate st pd ce cp sr pay cat cr].
  simpl in *. subst fk usr.
  unfold Booking_save, Model_save_Booking, related_travel_option, bind, ret,
    uuid4, timezone_now, get_world, raise.
  destruct bref as [r|]; destruct bid as [pk0|]; simpl;
    repeat (rewrite Hrow; simpl).
  - destruct Hprice as [Hn | [p Hp]]; [discriminate|]. subst tp.
    destruct (bool_decide (bookings w !! pk0 = None));
      (do 2 eexists; exists pk0; split; [reflexivity|]; simpl;
       repeat split; auto; congruence).
  - destruct (bool_decide (bookings w !! entropy w (drawn w) = None));
      (do 2 eexists; exists (entropy w (drawn w)); split; [reflexivity|];
       simpl; repeat split; auto; congruence).
  - destruct Hprice as [Hn | [p Hp]]; [discriminate|]. subst tp.
    destruct (bool_decide (bookings w !! pk0 = None));
      (do 2 eexists; exists pk0; split; [reflexivity|]; simpl;
       repeat split; auto; congruence).
  - destruct (bool_decide (bookings w !! entropy w (S (drawn w)) = None));
      (do 2 eexists; exists (entropy w (S (drawn w))); split; [reflexivity|];
       simpl; repeat split; auto; congruence).
Qed.

(** [cancel] takes its [else] branch on any status but CONFIRMED. *)
Lemma cancel_not_confirmed_unchanged
  (self : Booking.t) (reason : string) (w : World) :
  Booking.status self <> CONFIRMED ->
  cancel self reason w = Ok (false, self) w.
Proof.
  intros Hstatus. unfold cancel.
  destruct (decide (Booking.status self = CONFIRMED)); [contradiction|].
  reflexivity.
Qed.

(** C7. [cancel] on a booking whose status is not CONFIRMED (an already
    CANCELLED one in particular) returns [False] and changes nothing: the
    instance is the one it was called on and the world, hence the travel
    option's [available_seats] and [status], is the same. *)
Theorem cancel_not_confirmed_is_noop
  (self : Booking.t) (reason : string) (w : World)
  (Hstatus : Booking.status self <> CONFIRMED) :
  cancel self reason w = Ok (false, self) w.
Proof.
  unfold cancel.
  destruct (decide (Booking.status self = CONFIRMED)) as [E|_].
  - exfalso. exact (Hstatus E).
  - reflexivity.
Qed.

Lemma cancel_not_confirmed_is_noop_witness :
  cancel (sample_booking CANCELLED 2 100000) "again"
    (sample_world_with (sample_travel 2 2 ACTIVE (30 * hour))
       (sample_booking CANCELLED 2 100000) 0)
  = Ok (false, sample_booking CANCELLED 2 100000)
       (sample_world_with (sample_travel 2 2 ACTIVE (30 * hour))
          (sample_booking CANCELLED 2 100000) 0).
Proof.
  apply (cancel_not_confirmed_is_noop (sample_booking CANCELLED 2 100000)).
  simpl. discriminate.
Defined.

Lemma get_refund_amount_not_confirmed (self : Booking.t) (w : World) :
  Booking.status self <> CONFIRMED -> get_refund_amount self w = Ok 0%number w.
Proof.
  intros E. unfold get_refund_amount, is_cancellable, bind.
  destruct (decide (Booking.status self <> CONFIRMED)); [|contradiction].
  reflexivity.
Qed.

(** What [Booking.cancel] does to a CONFIRMED booking loaded from the table,
    whatever the time left before departure. *)
Lemma cancel_confirmed_run
  (self : Booking.t) (t : TravelOption.t) (w : World) (pk k u : N) (p : Z)
  (reason : string)
  (Hpk : Booking.booking_id self = Some pk)
  (Huser : Booking.user self = Some u)
  (Hfk : Booking.travel_option self = Some k)
  (Hrow : travel_options w !! k = Some t)
  (Hid : TravelOption.travel_id t = k)
  (Hprice : Booking.total_price self = Some p)
  (Hconfirmed : Booking.status self = CONFIRMED) :
  exists self' t' w',
    cancel self reason w = Ok (true, self') w'
    /\ Booking.status self' = CANCELLED
    /\ Booking.cancelled_at self' = Some (clock w)
    /\ Booking.cancellation_reason self' = reason
    /\ Booking.booking_id self' = Some pk
    /\ Booking.user self' = Some u
    /\ Booking.travel_option self' = Some k
    /\ Booking.number_of_seats self' = Booking.number_of_seats self
    /\ Booking.total_price self' = Some p
    /\ bookings w' !! pk = Some self'
    /\ travel_options w' !! k = Some t'
    /\ TravelOption.travel_id t' = k
    /\ TravelOption.available_seats t'
       = TravelOption.available_seats t + Booking.number_of_seats self
    /\ TravelOption.status t'
       = if bool_decide (TravelOption.status t = FULL)
            && (0 <? TravelOption.available_seats t
                     + Booking.number_of_seats self)
         then ACTIVE else TravelOption.status t.
Proof.
  unfold cancel.
  destruct (decide (Booking.status self = CONFIRMED)); [|contradiction].
  cbv zeta. unfold bind at 1, timezone_now at 1.
  set (self1 := Booking.set_cancellation_reason reason
                  (Booking.set_cancelled_at (Some (clock w))
                     (Booking.set_status CANCELLED self))).
  assert (Hfk1 : Booking.travel_option self1 = Some k) by exact Hfk.
  rewrite (bind_Ok _ _ _ _ _ (related_travel_option_run self1 t w k Hfk1 Hrow)).
  destruct (cancel_seats_run t (Booking.number_of_seats self1) w)
    as (t' & Hcs & Hid' & _ & Hav' & Hst').
  rewrite (bind_Ok _ _ _ _ _ Hcs).
  set (w1 := set_travel_options _ w) in *.
  assert (Hrow1 : travel_options w1 !! k = Some t').
  { subst w1. simpl. rewrite Hid. apply lookup_insert_eq. }
  destruct (Booking_save_run self1 t' w1 k u Hfk1 Hrow1 Huser
              (or_intror (ex_intro _ p Hprice)))
    as (self' & w' & pk' & Hsave & Hpk' & Hsame & Hbk & Hto & _ & Htp & Hst
        & Hn & Hu & Hf & Hca & Hcr & _).
  rewrite (bind_Ok _ _ _ _ _ Hsave).
  assert (pk' = pk) by (apply Hsame; exact Hpk). subst pk'.
  exists self', t', w'. split; [reflexivity|].
  rewrite Hst, Hca, Hcr, Hpk', Hu, Hf, Hn, Htp, Hbk, Hto.
  replace (Booking.booking_id self1) with (Some pk) by (symmetry; exact Hpk).
  repeat split; try assumption.
  - apply lookup_insert_eq.
  - congruence.
Qed.

(** What [Booking.confirm] does to a PENDING booking loaded from the table. *)
Lemma confirm_pending_run
  (self : Booking.t) (t : TravelOption.t) (w : World) (pk k u : N) (p : Z)
  (Hpk : Booking.booking_id self = Some pk)
  (Huser : Booking.user self = Some u)
  (Hfk : Booking.travel_option self = Some k)
  (Hrow : travel_options w !! k = Some t)
  (Hprice : Booking.total_price self = Some p)
  (Hpending : Booking.status self = PENDING) :
  exists self' w',
    confirm self w = Ok (true, self') w'
    /\ Booking.status self' = CONFIRMED
    /\ Booking.booking_id self' = Some pk
    /\ Booking.user self' = Some u
    /\ Booking.travel_option self' = Some k
    /\ Booking.total_price self' = Some p
    /\ bookings w' !! pk = Some self'
    /\ travel_options w' = travel_options w.
Proof.
  unfold confirm.
  destruct (decide (Booking.status self = PENDING)); [|contradiction].
  cbv zeta.
  set (self1 := Booking.set_status CONFIRMED self).
  assert (Hfk1 : Booking.travel_option self1 = Some k) by exact Hfk.
  destruct (Booking_save_run self1 t w k u Hfk1 Hrow Huser
              (or_intror (ex_intro _ p Hprice)))
    as (self' & w' & pk' & Hsave & Hpk' & Hsame & Hbk & Hto & _ & Htp & Hst
        & _ & Hu & Hf & _).
  rewrite (bind_Ok _ _ _ _ _ Hsave).
  assert (pk' = pk) by (apply Hsame; exact Hpk). subst pk'.
  exists self', w'. split; [reflexivity|].
  rewrite Hst, Hpk', Hu, Hf, Htp, Hbk, Hto.
  replace (Booking.booking_id self1) with (Some pk) by (symmetry; exact Hpk).
  repeat split; try assumption. apply lookup_insert_eq.
Qed.

(** C6, as stated, fails for [Booking.cancel]: a CONFIRMED booking one hour
    before departure is not cancellable, yet [cancel] returns [True], marks
    it CANCELLED and releases its seats. *)
Lemma cancel_ignores_cancellation_window :
  is_cancellable confirmed_booking (world_before_departure 1)
  = Ok false (world_before_departure 1)
  /\ exists b' t' w',
       cancel confirmed_booking "late" (world_before_departure 1)
       = Ok (true, b') w'
       /\ Booking.status b' = CANCELLED
       /\ travel_options w' !! 1%N = Some t'
       /\ TravelOption.available_seats t' = 2.
Proof.
  split; [vm_compute; reflexivity|].
  do 3 eexists. split; [vm_compute; reflexivity|].
  split; [reflexivity|]. split; [vm_compute; reflexivity | reflexivity].
Qed.

Lemma get_Booking_or_404_run (self : Booking.t) (w : World) (pk u : N) :
  bookings w !! pk = Some self -> Booking.user self = Some u ->
  get_Booking_or_404 pk u w = Ok self w.
Proof.
  intros Hrow Hu. unfold get_Booking_or_404. rewrite Hrow.
  destruct (decide (Booking.user self = Some u)); [reflexivity | contradiction].
Qed.

(** C6, amended. For a booking row of the requesting user:
    - [is_cancellable] holds exactly when the status is CONFIRMED and the
      departure time minus the current time exceeds 7200 seconds;
    - [Booking.cancel] itself checks the status only: on a CONFIRMED booking
      it returns [True] and records the cancellation whatever the time left;
    - the 2-hour window is enforced by [cancel_booking_view]: when
      [is_cancellable] is false (a CONFIRMED booking within 2 hours of
      departure in particular) the view answers with an error message and
      changes nothing; when it is true the cancellation succeeds, sets the
      status to CANCELLED, records [cancelled_at] and [cancellation_reason]
      and releases [number_of_seats] to the travel option. *)
Theorem cancellation_window_and_effects
  (self : Booking.t) (t : TravelOption.t) (w : World) (pk k u : N) (p : Z)
  (reason : string)
  (Hstored : bookings w !! pk = Some self)
  (Hpk : Booking.booking_id self = Some pk)
  (Huser : Booking.user self = Some u)
  (Hfk : Booking.travel_option self = Some k)
  (Hrow : travel_options w !! k = Some t)
  (Hid : TravelOption.travel_id t = k)
  (Hprice : Booking.total_price self = Some p) :
  let request := MkRequest (Some u) POST reason in
  exists c,
    is_cancellable self w = Ok c w
    /\ (c = true <->
        Booking.status self = CONFIRMED
        /\ 7200 * 1000000 < TravelOption.departure_time t - clock w)
    /\ (Booking.status self = CONFIRMED ->
        exists self' t' w',
          cancel self reason w = Ok (true, self') w'
          /\ cancellation_recorded self self' t t' w w' pk k reason)
    /\ (c = false ->
        cancel_booking_view request pk w
        = Ok (redirect (booking_detail (Some pk)) error_cannot_be_cancelled) w)
    /\ (c = true ->
        exists self' t' w',
          cancel_booking_view request pk w
          = Ok (redirect my_bookings (success_booking_cancelled 0)) w'
          /\ cancellation_recorded self self' t t' w w' pk k reason).
Proof.
  intros request.
  pose proof (is_cancellable_run self t w k Hfk Hrow) as Hc.
  eexists. split; [exact Hc|].
  assert (Hcancel : Booking.status self = CONFIRMED ->
            exists self' t' w',
              cancel self reason w = Ok (true, self') w'
              /\ Booking.status self' <> CONFIRMED
              /\ cancellation_recorded self self' t t' w w' pk k reason).
  { intros E.
    destruct (cancel_confirmed_run self t w pk k u p reason
                Hpk Huser Hfk Hrow Hid Hprice E)
      as (self' & t' & w' & Hrun & Hst & Hca & Hcr & _ & _ & _ & _ & _ & Hbk
          & Hto & _ & Hav & Hts).
    exists self', t', w'. split; [exact Hrun|].
    split; [rewrite Hst; discriminate|].
    unfold cancellation_recorded. tauto. }
  split; [|split; [|split]].
  - rewrite andb_true_iff, bool_decide_eq_true, Z.ltb_lt. unfold hour.
    split; intros [? ?]; split; try assumption; lia.
  - intros E. destruct (Hcancel E) as (self' & t' & w' & Hrun & _ & Hrec).
    exists self', t', w'. split; assumption.
  - intros Hfalse. unfold cancel_booking_view, request. simpl.
    rewrite (bind_Ok _ _ _ _ _ (get_Booking_or_404_run self w pk u Hstored Huser)).
    rewrite (bind_Ok _ _ _ _ _ Hc). rewrite Hfalse. reflexivity.
  - intros Htrue.
    assert (E : Booking.status self = CONFIRMED).
    { apply andb_true_iff in Htrue. destruct Htrue as [Hs _].
      apply bool_decide_eq_true in Hs. exact Hs. }
    destruct (Hcancel E) as (self' & t' & w' & Hrun & Hnc & Hrec).
    exists self', t', w'. split; [|exact Hrec].
    unfold cancel_booking_view, request. simpl.
    rewrite (bind_Ok _ _ _ _ _ (get_Booking_or_404_run self w pk u Hstored Huser)).
    rewrite (bind_Ok _ _ _ _ _ Hc). rewrite Htrue. simpl.
    rewrite (bind_Ok _ _ _ _ _ Hrun). simpl.
    rewrite (bind_Ok _ _ _ _ _ (get_refund_amount_not_confirmed self' w' Hnc)).
    reflexivity.
Qed.

Lemma cancellation_window_and_effects_witness :
  exists self' t' w',
    cancel_booking_view (MkRequest (Some 9%N) POST "plans changed") 5%N
      (world_before_departure 30)
    = Ok (redirect my_bookings (success_booking_cancelled 0)) w'
    /\ cancellation_recorded confirmed_booking self' (sold_out_flight 30) t'
         (world_before_departure 30) w' 5%N 1%N "plans changed".
Proof.
  destruct (cancellation_window_and_effects confirmed_booking
              (sold_out_flight 30) (world_before_departure 30)
              5%N 1%N 9%N 100000
              "plans changed" eq_refl eq_refl eq_refl eq_refl eq_refl eq_refl
              eq_refl)
    as (c & Hc & _ & _ & _ & Hview).
  apply Hview.
  assert (E : Ok c (world_before_departure 30)
              = Ok true (world_before_departure 30))
    by (rewrite <- Hc; vm_compute; reflexivity).
  congruence.
Defined.

(** ** The first save of a new booking *)

(** What [Booking.save] leaves for an instance built by [Booking()], with its
    key and no reference yet, that the table accepts: the row is inserted
    under its key with the reference generated and the date of the clock;
    the price is the one the instance came with. *)
Lemma Booking_save_adding_run
  (self : Booking.t) (t : TravelOption.t) (w : World) (k u pk : N) (c : Z)
  (Hfk : Booking.travel_option self = Some k)
  (Hrow : travel_options w !! k = Some t)
  (Huser : Booking.user self = Some u)
  (Hpk : Booking.booking_id self = Some pk)
  (Hnoref : Booking.booking_reference self = None)
  (Hprice : Booking.total_price self = Some c)
  (Hdigits : fits_DECIMAL_10_2 c = true)
  (Hseats : fits_INTEGER (Booking.number_of_seats self) = true)
  (Hkey : bookings w !! pk = None)
  (Hfresh : reference_in_use
              (Some (make_reference t (clock w) (entropy w (drawn w))))
              (bookings w) = false) :
  exists self' w',
    Booking_save true self w = Ok self' w'
    /\ Booking.booking_id self' = Some pk
    /\ bookings w' = <[pk := self']> (bookings w)
    /\ travel_options w' = travel_options w
    /\ clock w' = clock w
    /\ Booking.total_price self' = Some c
    /\ Booking.status self' = Booking.status self
    /\ Booking.number_of_seats self' = Booking.number_of_seats self
    /\ Booking.user self' = Booking.user self
    /\ Booking.travel_option self' = Booking.travel_option self
    /\ Booking.booking_reference self'
       = Some (make_reference t (clock w) (entropy w (drawn w)))
    /\ Booking.booking_date self' = Some (clock w).
Proof.
  destruct self as [bid bref usr fk nseats tp bdate st pd ce cp sr pay cat cr].
  simpl in *. subst fk usr bid bref tp.
  unfold Booking_save, Model_save_Booking, related_travel_option, bind, ret,
    uuid4, timezone_now, get_world, raise.
  simpl. rewrite Hrow. simpl. rewrite Hdigits, Hseats. simpl.
  rewrite Hfresh, orb_false_r.
  rewrite bool_decide_eq_false_2 by (rewrite Hkey; intros H; apply H; reflexivity).
  do 2 eexists. split; [reflexivity|]. simpl. repeat split; reflexivity.
Qed.

(** The same save when a row already has the key or the reference: the
    INSERT is refused and nothing is written. *)
Lemma Booking_save_adding_collision
  (self : Booking.t) (t : TravelOption.t) (w : World) (k u pk : N) (c : Z)
  (Hfk : Booking.travel_option self = Some k)
  (Hrow : travel_options w !! k = Some t)
  (Huser : Booking.user self = Some u)
  (Hpk : Booking.booking_id self = Some pk)
  (Hnoref : Booking.booking_reference self = None)
  (Hprice : Booking.total_price self = Some c)
  (Hdigits : fits_DECIMAL_10_2 c = true)
  (Hseats : fits_INTEGER (Booking.number_of_seats self) = true)
  (Hused : bookings w !! pk <> None
           \/ reference_in_use
                (Some (make_reference t (clock w) (entropy w (drawn w))))
                (bookings w) = true) :
  exists w',
    Booking_save true self w = Raise IntegrityError w'
    /\ bookings w' = bookings w
    /\ travel_options w' = travel_options w.
Proof.
  destruct self as [bid bref usr fk nseats tp bdate st pd ce cp sr pay cat cr].
  simpl in *. subst fk usr bid bref tp.
  unfold Booking_save, Model_save_Booking, related_travel_option, bind, ret,
    uuid4, timezone_now, get_world, raise.
  simpl. rewrite Hrow. simpl. rewrite Hdigits, Hseats. simpl.
  replace (bool_decide (bookings w !! pk <> None)
           || reference_in_use
                (Some (make_reference t (clock w) (entropy w (drawn w))))
                (bookings w)) with true.
  - eexists. split; [reflexivity|]. split; reflexivity.
  - symmetry. apply orb_true_iff. destruct Hused as [H|H].
    + left. apply bool_decide_eq_true_2. exact H.
    + right. exact H.
Qed.

(** ** The booking view *)

Lemma atomic_Ok {A} (m : M A) (w w' : World) (a : A) :
  m w = Ok a w' -> atomic m w = Ok a w'.
Proof. unfold atomic. intros ->. reflexivity. Qed.

Lemma get_TravelOption_or_404_run (t : TravelOption.t) (w : World) (pk : N) :
  travel_options w !! pk = Some t -> get_TravelOption_or_404 pk w = Ok t w.
Proof. intros H. unfold get_TravelOption_or_404. rewrite H. reflexivity. Qed.

Lemma is_valid_seats (form : BookingForm) :
  is_valid form = true -> 1 <= number_of_seats form <= 10.
Proof.
  unfold is_valid. rewrite !andb_true_iff, Z.leb_le, Z.leb_le. tauto.
Qed.

(** An unknown key is a 404, raised before anything is written; an
    anonymous request is sent to the login page. *)
Lemma book_travel_view_missing_option
  (request : Request BookingForm) (pk user : N) (w : World) :
  req_user request = Some user ->
  travel_options w !! pk = None ->
  book_travel_view request pk w = Raise Http404 w.
Proof.
  intros Hu Hnone. unfold book_travel_view, atomic. rewrite Hu.
  rewrite (bind_Raise _ _ w Http404 w);
    [destruct w; reflexivity|].
  unfold get_TravelOption_or_404. rewrite Hnone. reflexivity.
Qed.

Lemma book_travel_view_anonymous
  (request : Request BookingForm) (pk : N) (w : World) :
  req_user request = None ->
  book_travel_view request pk w = Ok redirect_login w.
Proof. intros Hu. unfold book_travel_view. rewrite Hu. reflexivity. Qed.

Section BookTravel.

Variables (request : Request BookingForm) (pk user : N)
          (t : TravelOption.t) (w : World).
Hypothesis Huser : req_user request = Some user.
Hypothesis Hrow : travel_options w !! pk = Some t.

(** The view turns the request down when the option is not available. *)
Lemma book_travel_view_not_available :
  TravelOption.status t <> ACTIVE \/ TravelOption.available_seats t <= 0 ->
  book_travel_view request pk w
  = Ok (redirect (travel_detail pk) error_no_longer_available) w.
Proof.
  intros H. unfold book_travel_view. rewrite Huser. apply atomic_Ok.
  rewrite (bind_Ok _ _ _ _ _ (get_TravelOption_or_404_run t w pk Hrow)).
  replace (is_available t) with false; [reflexivity|].
  symmetry. unfold is_available. apply andb_false_iff.
  destruct H as [H|H].
  - right. apply bool_decide_eq_false_2. exact H.
  - left. apply Z.ltb_ge. exact H.
Qed.

Hypothesis Hpost : req_method request = POST.
Hypothesis Hvalid : is_valid (req_POST request) = true.
Hypothesis Hactive : TravelOption.status t = ACTIVE.
Hypothesis Hsome : 0 < TravelOption.available_seats t.

Lemma is_available_true : is_available t = true.
Proof.
  unfold is_available. apply andb_true_iff. split.
  - apply Z.ltb_lt. exact Hsome.
  - apply bool_decide_eq_true_2. exact Hactive.
Qed.

(** The view turns the request down when it asks for more seats than are
    left; only the uuid source has moved. *)
Lemma book_travel_view_too_many :
  TravelOption.available_seats t < number_of_seats (req_POST request) ->
  exists w',
    book_travel_view request pk w
    = Ok (redirect (travel_detail pk)
            (error_only_seats_available (TravelOption.available_seats t))) w'
    /\ travel_options w' = travel_options w
    /\ bookings w' = bookings w.
Proof.
  intros H. unfold book_travel_view. rewrite Huser.
  eexists. split.
  - apply atomic_Ok.
    rewrite (bind_Ok _ _ _ _ _ (get_TravelOption_or_404_run t w pk Hrow)).
    rewrite is_available_true, Hpost. simpl.
    unfold Booking_new. unfold bind at 1. unfold bind at 1. unfold uuid4 at 1.
    unfold ret at 1. rewrite Hvalid.
    replace (TravelOption.available_seats t <? number_of_seats (req_POST request))
      with true by (symmetry; apply Z.ltb_lt; exact H).
    reflexivity.
  - split; reflexivity.
Qed.

Hypothesis Hid : TravelOption.travel_id t = pk.
Hypothesis Hfits : number_of_seats (req_POST request)
                   <= TravelOption.available_seats t.

(** When a row already has the key drawn or the reference generated, the
    INSERT is refused: the view raises and the transaction leaves both
    tables as they were. *)
Lemma book_travel_view_collision :
  fits_DECIMAL_10_2 (TravelOption.price t * number_of_seats (req_POST request))
  = true ->
  bookings w !! next_booking_id w <> None
  \/ reference_in_use (Some (next_reference t w)) (bookings w) = true ->
  exists w',
    book_travel_view request pk w = Raise IntegrityError w'
    /\ travel_options w' = travel_options w
    /\ bookings w' = bookings w.
Proof.
  intros Hdigits Hused.
  unfold book_travel_view. rewrite Huser.
  set (form := req_POST request) in *.
  set (w1 := MkWorld (travel_options w) (bookings w) (clock w) (entropy w)
                     (S (drawn w))).
  set (instance := Booking.Build (Some (entropy w (drawn w))) None None None 0
                     None None PENDING nil "" "" "" "" None "").
  set (booking :=
         Booking.set_total_price
           (Some (TravelOption.price t
                  * Booking.number_of_seats
                      (Booking.set_travel_option (Some (TravelOption.travel_id t))
                         (Booking.set_user (Some user)
                            (BookingForm_save form instance)))))
           (Booking.set_travel_option (Some (TravelOption.travel_id t))
              (Booking.set_user (Some user) (BookingForm_save form instance)))).
  assert (Hrow1 : travel_options w1 !! pk = Some t) by exact Hrow.
  assert (Hfk : Booking.travel_option booking = Some pk)
    by (simpl; rewrite Hid; reflexivity).
  assert (Hseats : fits_INTEGER (Booking.number_of_seats booking) = true).
  { pose proof (is_valid_seats _ Hvalid) as Hn. simpl. fold form.
    unfold fits_INTEGER. apply andb_true_iff.
    rewrite Z.leb_le, Z.ltb_lt. fold form in Hn. lia. }
  destruct (Booking_save_adding_collision booking t w1 pk user
              (entropy w (drawn w)) _ Hfk Hrow1 eq_refl eq_refl eq_refl
              eq_refl Hdigits Hseats Hused)
    as (w2 & Hsave & Hbk & Hto).
  eexists. split.
  - unfold atomic.
    rewrite (bind_Ok _ _ _ _ _ (get_TravelOption_or_404_run t w pk Hrow)).
    rewrite is_available_true, Hpost. simpl.
    unfold Booking_new. unfold bind at 1. unfold bind at 1. unfold uuid4 at 1.
    unfold ret at 1. fold form. rewrite Hvalid.
    replace (TravelOption.available_seats t <? number_of_seats form)
      with false by (symmetry; apply Z.ltb_ge; exact Hfits).
    fold w1. fold instance. fold booking.
    rewrite (bind_Raise _ _ _ _ _ Hsave).
    reflexivity.
  - split; reflexivity.
Qed.

Hypothesis Hinsert :
  insert_accepted t (number_of_seats (req_POST request)) w.

(** The view accepts the request: a PENDING booking priced at
    [price * number_of_seats] is inserted under the key drawn, with the
    reference generated and the date of the clock, and the seats go down by
    the number booked. *)
Lemma book_travel_view_accepts :
  exists b t' w',
    book_travel_view request pk w
    = Ok (redirect (booking_detail (Booking.booking_id b))
            (success_booking_confirmed (Booking.booking_reference b))) w'
    /\ Booking.booking_id b = Some (entropy w (drawn w))
    /\ bookings w' !! entropy w (drawn w) = Some b
    /\ Booking.user b = Some user
    /\ Booking.travel_option b = Some pk
    /\ Booking.status b = PENDING
    /\ Booking.number_of_seats b = number_of_seats (req_POST request)
    /\ Booking.total_price b
       = Some (TravelOption.price t * number_of_seats (req_POST request))
    /\ travel_options w' !! pk = Some t'
    /\ TravelOption.travel_id t' = pk
    /\ TravelOption.available_seats t'
       = TravelOption.available_seats t - number_of_seats (req_POST request)
    /\ TravelOption.status t'
       = if decide (TravelOption.available_seats t
                    - number_of_seats (req_POST request) = 0)
         then FULL else ACTIVE.
Proof.
  unfold book_travel_view. rewrite Huser.
  set (form := req_POST request) in *.
  set (w1 := MkWorld (travel_options w) (bookings w) (clock w) (entropy w)
                     (S (drawn w))).
  set (instance := Booking.Build (Some (entropy w (drawn w))) None None None 0
                     None None PENDING nil "" "" "" "" None "").
  set (booking :=
         Booking.set_total_price
           (Some (TravelOption.price t
                  * Booking.number_of_seats
                      (Booking.set_travel_option (Some (TravelOption.travel_id t))
                         (Booking.set_user (Some user)
                            (BookingForm_save form instance)))))
           (Booking.set_travel_option (Some (TravelOption.travel_id t))
              (Booking.set_user (Some user) (BookingForm_save form instance)))).
  assert (Hrow1 : travel_options w1 !! pk = Some t) by exact Hrow.
  assert (Hfk : Booking.travel_option booking = Some pk)
    by (simpl; rewrite Hid; reflexivity).
  destruct Hinsert as (Hkey & Hfresh & Hdigits).
  assert (Hseats : fits_INTEGER (Booking.number_of_seats booking) = true).
  { pose proof (is_valid_seats _ Hvalid) as Hn. simpl. fold form.
    unfold fits_INTEGER. apply andb_true_iff.
    rewrite Z.leb_le, Z.ltb_lt. fold form in Hn. lia. }
  destruct (Booking_save_adding_run booking t w1 pk user
              (entropy w (drawn w)) _ Hfk Hrow1 eq_refl eq_refl eq_refl
              eq_refl Hdigits Hseats Hkey Hfresh)
    as (b & w2 & Hsave & Hpk' & Hbk & Hto & _ & Htp & Hst
        & Hn & Hu & Hf & _).
  destruct (update_availability_run t (Booking.number_of_seats b) w2)
    as (t' & Hupd & Hid' & _ & Hav' & Hst').
  exists b, t'. eexists. split.
  - apply atomic_Ok.
    rewrite (bind_Ok _ _ _ _ _ (get_TravelOption_or_404_run t w pk Hrow)).
    rewrite is_available_true, Hpost. simpl.
    unfold Booking_new. unfold bind at 1. unfold bind at 1. unfold uuid4 at 1.
    unfold ret at 1. fold form. rewrite Hvalid.
    replace (TravelOption.available_seats t <? number_of_seats form)
      with false by (symmetry; apply Z.ltb_ge; exact Hfits).
    fold w1. fold instance. fold booking.
    rewrite (bind_Ok _ _ _ _ _ Hsave).
    rewrite (bind_Ok _ _ _ _ _ Hupd).
    reflexivity.
  - rewrite Hn in *. simpl in Htp, Hav', Hst'. simpl.
    rewrite Hbk, Hu, Hf, Hst, Htp, Hid, Hid', Hav', Hst', Hactive.
    repeat split; try assumption; try reflexivity.
    + apply lookup_insert_eq.
    + apply lookup_insert_eq.
Qed.

End BookTravel.

(** C1, as stated, fails for [update_availability]: asked for three seats of
    an ACTIVE option with two left, or for one seat of a CANCELLED option, it
    does not fail; it returns normally and, in the first case, leaves
    [available_seats] at -1. *)
Lemma update_availability_overbooks :
  (exists self' w',
     update_availability (sample_travel 2 2 ACTIVE 0) 3
       (sample_world (sample_travel 2 2 ACTIVE 0) 0) = Ok self' w'
     /\ TravelOption.available_seats self' = -1
     /\ TravelOption.status self' = ACTIVE)
  /\ (exists self' w',
        update_availability (sample_travel 2 2 TravelOption.CANCELLED 0) 1
          (sample_world (sample_travel 2 2 TravelOption.CANCELLED 0) 0)
        = Ok self' w'
        /\ TravelOption.available_seats self' = 1).
Proof.
  split; do 2 eexists; (split; [vm_compute; reflexivity|]);
    repeat split; reflexivity.
Qed.

(** C1, amended. [update_availability n] performs no check and returns
    normally with [available_seats] decremented by [n].  The checks are made
    by its caller [book_travel_view]: for an authenticated POST with a valid
    form (so [1 <= n <= 10]) on a stored option,
    - when the status is not ACTIVE or [n > available_seats], the view answers
      with an error message, raises nothing and leaves both tables as they
      were;
    - otherwise, when the table accepts the new booking (no row has the key
      drawn or the reference generated, and the price has the digits of its
      column), it decrements [available_seats] by exactly [n], the result is
      not negative, and the status is FULL exactly when the result is 0;
    - otherwise still, when a row has the key or the reference, the INSERT
      is refused with an [IntegrityError] and the transaction leaves both
      tables as they were. *)
Theorem reservation_checked_by_book_travel_view
  (request : Request BookingForm) (pk user : N) (t : TravelOption.t) (w : World)
  (Huser : req_user request = Some user)
  (Hpost : req_method request = POST)
  (Hvalid : is_valid (req_POST request) = true)
  (Hrow : travel_options w !! pk = Some t)
  (Hid : TravelOption.travel_id t = pk) :
  let n := number_of_seats (req_POST request) in
  1 <= n <= 10
  /\ (exists t' w',
        update_availability t n w = Ok t' w'
        /\ TravelOption.available_seats t' = TravelOption.available_seats t - n)
  /\ (TravelOption.status t <> ACTIVE \/ TravelOption.available_seats t < n ->
      exists message w',
        book_travel_view request pk w
        = Ok (redirect (travel_detail pk) message) w'
        /\ (message = error_no_longer_available
            \/ message
               = error_only_seats_available (TravelOption.available_seats t))
        /\ travel_options w' = travel_options w
        /\ bookings w' = bookings w)
  /\ (TravelOption.status t = ACTIVE /\ n <= TravelOption.available_seats t ->
      insert_accepted t n w ->
      exists response t' w',
        book_travel_view request pk w = Ok response w'
        /\ travel_options w' !! pk = Some t'
        /\ TravelOption.available_seats t' = TravelOption.available_seats t - n
        /\ 0 <= TravelOption.available_seats t'
        /\ (TravelOption.status t' = FULL
            <-> TravelOption.available_seats t' = 0))
  /\ (TravelOption.status t = ACTIVE /\ n <= TravelOption.available_seats t ->
      fits_DECIMAL_10_2 (TravelOption.price t * n) = true ->
      bookings w !! next_booking_id w <> None
      \/ reference_in_use (Some (next_reference t w)) (bookings w) = true ->
      exists w',
        book_travel_view request pk w = Raise IntegrityError w'
        /\ travel_options w' = travel_options w
        /\ bookings w' = bookings w).
Proof.
  intros n. pose proof (is_valid_seats _ Hvalid) as Hn. fold n in Hn.
  split; [exact Hn|]. split; [|split; [|split]].
  - destruct (update_availability_run t n w) as (t' & Hrun & _ & _ & Hav & _).
    exists t'. eexists. split; [exact Hrun | exact Hav].
  - intros Hbad.
    destruct (decide (TravelOption.status t = ACTIVE)) as [Ea|Ea];
      [destruct (Z.lt_ge_cases 0 (TravelOption.available_seats t)) as [Hs|Hs]|].
    + destruct Hbad as [Hbad|Hbad]; [contradiction|].
      destruct (book_travel_view_too_many request pk user t w Huser Hrow
                  Hpost Hvalid Ea Hs Hbad) as (w' & Hrun & Hto & Hbk).
      eexists. exists w'. split; [exact Hrun|]. tauto.
    + eexists. exists w. split;
        [apply (book_travel_view_not_available request pk user t w Huser Hrow);
         right; lia|].
      tauto.
    + eexists. exists w. split;
        [apply (book_travel_view_not_available request pk user t w Huser Hrow);
         left; exact Ea|].
      tauto.
  - intros [Ea Hfits] Hinsert.
    assert (Hs : 0 < TravelOption.available_seats t) by (fold n in Hfits; lia).
    destruct (book_travel_view_accepts request pk user t w Huser Hrow Hpost
                Hvalid Ea Hs Hid Hfits Hinsert)
      as (b & t' & w' & Hrun & _ & _ & _ & _ & _ & _ & _ & Hto & _ & Hav & Hst).
    fold n in Hav, Hst.
    eexists. exists t', w'. split; [exact Hrun|]. split; [exact Hto|].
    split; [exact Hav|]. split; [lia|].
    rewrite Hst, Hav.
    destruct (decide (TravelOption.available_seats t - n = 0));
      split; intros; try reflexivity; try assumption; try discriminate;
      contradiction.
  - intros [Ea Hfits] Hdigits Hused.
    assert (Hs : 0 < TravelOption.available_seats t) by (fold n in Hfits; lia).
    exact (book_travel_view_collision request pk user t w Huser Hrow Hpost
             Hvalid Ea Hs Hid Hfits Hdigits Hused).
Qed.

Lemma reservation_checked_by_book_travel_view_witness :
  exists response t' w',
    book_travel_view request_two_seats 1%N (sample_world free_flight 0)
    = Ok response w'
    /\ travel_options w' !! 1%N = Some t'
    /\ TravelOption.available_seats t' = 0
    /\ TravelOption.status t' = FULL.
Proof.
  destruct (reservation_checked_by_book_travel_view request_two_seats 1%N 9%N
              free_flight (sample_world free_flight 0)
              eq_refl eq_refl eq_refl eq_refl eq_refl)
    as (_ & _ & _ & Hacc & _).
  destruct Hacc as (response & t' & w' & Hrun & Hto & Hav & _ & Hfull).
  - split; [reflexivity | simpl; lia].
  - split; [reflexivity|]. split; vm_compute; reflexivity.
  - exists response, t', w'. split; [exact Hrun|]. split; [exact Hto|].
    split; [exact Hav|]. apply Hfull. exact Hav.
Defined.

(** The refused INSERT on sample data: a stored booking already carries the
    reference that the new booking gets (same prefix, same minute, same four
    digits); [book_travel_view] raises [IntegrityError], and the seats that
    [update_availability] had taken are back. *)
Example book_travel_view_reference_in_use :
  let w := sample_world_with free_flight
             (Booking.set_booking_reference (Some (MkReference "FL" 0 0))
                (sample_booking CONFIRMED 1 250000)) 0 in
  exists w',
    book_travel_view request_two_seats 1%N w = Raise IntegrityError w'
    /\ travel_options w' = travel_options w
    /\ bookings w' = bookings w.
Proof.
  eexists. split; [vm_compute; reflexivity|]. split; reflexivity.
Qed.

(** ** The price of a booking *)

(** One operation on a loaded booking returns, keeps the booking loaded and
    does not touch its price. *)
Lemma run_op_keeps_total_price
  (op : BookingOp) (self : Booking.t) (w : World) :
  loaded_booking self w ->
  exists self' w',
    run_op op self w = Ok self' w'
    /\ loaded_booking self' w'
    /\ Booking.total_price self' = Booking.total_price self.
Proof.
  intros (pk & u & k & t & p & Hpk & Hu & Hfk & Hrow & Hid & Hp).
  destruct op as [|reason|]; simpl.
  - destruct (Booking_save_run self t w k u Hfk Hrow Hu
                (or_intror (ex_intro _ p Hp)))
      as (self' & w' & pk' & Hsave & Hpk' & _ & _ & Hto & _ & Htp & _ & _
          & Hu' & Hf' & _).
    rewrite Hpk in Htp.
    exists self', w'. split; [exact Hsave|]. split; [|exact Htp].
    exists pk', u, k, t, p. rewrite Hto. repeat split; congruence.
  - destruct (decide (Booking.status self = CONFIRMED)) as [E|E].
    + destruct (cancel_confirmed_run self t w pk k u p reason
                  Hpk Hu Hfk Hrow Hid Hp E)
        as (self' & t' & w' & Hrun & _ & _ & _ & Hpk' & Hu' & Hf' & _ & Htp
            & _ & Hto & Hid' & _).
      exists self', w'. rewrite (bind_Ok _ _ _ _ _ Hrun). simpl.
      split; [reflexivity|]. split; [|congruence].
      exists pk, u, k, t', p. repeat split; assumption.
    + rewrite (bind_Ok _ _ _ _ _ (cancel_not_confirmed_unchanged self reason w E)).
      simpl. exists self, w. split; [reflexivity|]. split; [|reflexivity].
      exists pk, u, k, t, p. repeat split; assumption.
  - destruct (decide (Booking.status self = PENDING)) as [E|E].
    + destruct (confirm_pending_run self t w pk k u p Hpk Hu Hfk Hrow Hp E)
        as (self' & w' & Hrun & _ & Hpk' & Hu' & Hf' & Htp & _ & Hto).
      exists self', w'. rewrite (bind_Ok _ _ _ _ _ Hrun). simpl.
      split; [reflexivity|]. split; [|congruence].
      exists pk, u, k, t, p. rewrite Hto. repeat split; assumption.
    + unfold confirm.
      destruct (decide (Booking.status self = PENDING)); [contradiction|].
      exists self, w. split; [reflexivity|]. split; [|reflexivity].
      exists pk, u, k, t, p. repeat split; assumption.
Qed.

(** Any sequence of operations, by induction on the sequence. *)
Lemma run_ops_keeps_total_price (ops : list BookingOp) :
  forall (self : Booking.t) (w : World),
    loaded_booking self w ->
    exists self' w',
      run_ops ops self w = Ok self' w'
      /\ loaded_booking self' w'
      /\ Booking.total_price self' = Booking.total_price self.
Proof.
  induction ops as [|op ops IH]; intros self w Hl; simpl.
  - exists self, w. split; [reflexivity|]. split; [exact Hl | reflexivity].
  - destruct (run_op_keeps_total_price op self w Hl)
      as (self1 & w1 & Hrun & Hl1 & Hp1).
    destruct (IH self1 w1 Hl1) as (self2 & w2 & Hrun2 & Hl2 & Hp2).
    exists self2, w2. rewrite (bind_Ok _ _ _ _ _ Hrun).
    split; [exact Hrun2|]. split; [exact Hl2 | congruence].
Qed.

(** C9. The first save does not price a booking.  [Booking.save] computes
    the price under [if not self.pk], commented as the calculation of the
    total price for new bookings, and an instance built by [Booking()]
    already carries its primary key (the field default), so the branch is
    not taken.  Saved for the first time, for two seats on an option priced
    2500.00,
    - an instance with no price set is refused by the NOT NULL column of the
      price: [IntegrityError], and no row is stored;
    - an instance with 0.01 preset as its price is stored with the price
      0.01, not 5000.00. *)
Lemma first_save_does_not_price :
  (exists w',
     (b <- Booking_new ;;
      Booking_save true
        (Booking.set_travel_option (Some 1%N)
           (Booking.set_user (Some 9%N)
              (BookingForm_save (sample_form ["Asha"; "Ravi"]) b))))
       (sample_world free_flight 0)
     = Raise IntegrityError w'
     /\ bookings w' = bookings (sample_world free_flight 0))
  /\ (exists b w',
        (b <- Booking_new ;;
         Booking_save true
           (Booking.set_total_price (Some 1)
              (Booking.set_travel_option (Some 1%N)
                 (Booking.set_user (Some 9%N)
                    (BookingForm_save (sample_form ["Asha"; "Ravi"]) b)))))
          (sample_world free_flight 0)
        = Ok b w'
        /\ bookings w' !! 40%N = Some b
        /\ Booking.number_of_seats b = 2
        /\ TravelOption.price free_flight = 250000
        /\ Booking.total_price b = Some 1
        /\ Booking.total_price b
           <> Some (TravelOption.price free_flight * Booking.number_of_seats b)).
Proof.
  split.
  - eexists. split; vm_compute; reflexivity.
  - do 2 eexists. split; [vm_compute; reflexivity|].
    split; [vm_compute; reflexivity|].
    repeat split; try reflexivity. discriminate.
Qed.

(** [Booking.save] never prices an instance that has its primary key,
    whether it is being added or was read from the table. *)
Lemma Booking_save_keeps_total_price
  (adding : bool) (self : Booking.t) (pk : N) (w : World) :
  Booking.booking_id self = Some pk ->
  match Booking_save adding self w with
  | Ok self' _ => Booking.total_price self' = Booking.total_price self
  | Raise _ _ => True
  end.
Proof.
  destruct self as [bid bref usr fk nseats tp bdate st pd ce cp sr pay cat cr].
  simpl. intros ->.
  unfold Booking_save, Model_save_Booking, related_travel_option, bind, ret,
    uuid4, timezone_now, get_world, raise.
  simpl.
  repeat match goal with
         | |- context [match ?x with _ => _ end] =>
             lazymatch x with
             | context [match _ with _ => _ end] => fail
             | _ => destruct x; simpl; try exact I; try reflexivity
             end
         end.
Qed.

(** Where the price of a booking comes from, and that it stays.  The price
    is [price * number_of_seats] of the travel option because
    [book_travel_view] assigns it before the first save: the view stores the
    new booking with that price (when the table accepts the new row).
    [Booking.save] itself never prices an instance that has its primary key,
    and every instance has one from [Booking()] on.  Once the booking is
    stored, no sequence of [save], [cancel] and [confirm], in whatever world
    (whatever the option's price has become), changes its price. *)
Theorem total_price_computed_once_then_kept :
  (forall (request : Request BookingForm) (pk user : N) (t : TravelOption.t)
          (w : World),
      req_user request = Some user ->
      req_method request = POST ->
      is_valid (req_POST request) = true ->
      travel_options w !! pk = Some t ->
      TravelOption.travel_id t = pk ->
      TravelOption.status t = ACTIVE ->
      number_of_seats (req_POST request) <= TravelOption.available_seats t ->
      insert_accepted t (number_of_seats (req_POST request)) w ->
      exists response b key w',
        book_travel_view request pk w = Ok response w'
        /\ bookings w' !! key = Some b
        /\ Booking.number_of_seats b = number_of_seats (req_POST request)
        /\ Booking.total_price b
           = Some (TravelOption.price t * Booking.number_of_seats b)
        /\ loaded_booking b w')
  /\ (forall (adding : bool) (self : Booking.t) (pk : N) (w : World),
        Booking.booking_id self = Some pk ->
        match Booking_save adding self w with
        | Ok self' _ => Booking.total_price self' = Booking.total_price self
        | Raise _ _ => True
        end)
  /\ (forall (ops : list BookingOp) (self : Booking.t) (w : World),
        loaded_booking self w ->
        exists self' w',
          run_ops ops self w = Ok self' w'
          /\ Booking.total_price self' = Booking.total_price self
          /\ loaded_booking self' w').
Proof.
  split; [|split].
  - intros request pk user t w Huser Hpost Hvalid Hrow Hid Hactive Hfits
      Hinsert.
    assert (Hs : 0 < TravelOption.available_seats t)
      by (pose proof (is_valid_seats _ Hvalid); lia).
    destruct (book_travel_view_accepts request pk user t w Huser Hrow Hpost
                Hvalid Hactive Hs Hid Hfits Hinsert)
      as (b & t' & w' & Hrun & Hpk & Hbk & Hu & Hf & _ & Hn & Htp & Hto
          & Hid' & _).
    eexists. exists b, (entropy w (drawn w)), w'.
    split; [exact Hrun|]. split; [exact Hbk|]. split; [exact Hn|].
    split; [rewrite Hn; exact Htp|].
    exists (entropy w (drawn w)), user, pk, t'. eexists.
    repeat split; try eassumption.
  - exact Booking_save_keeps_total_price.
  - intros ops self w Hl.
    destruct (run_ops_keeps_total_price ops self w Hl)
      as (self' & w' & Hrun & Hl' & Hp).
    exists self', w'. tauto.
Qed.

Lemma total_price_computed_once_then_kept_witness :
  exists response b key w' b' w'',
    book_travel_view request_two_seats 1%N (sample_world free_flight 0)
    = Ok response w'
    /\ bookings w' !! key = Some b
    /\ Booking.total_price b = Some 500000
    /\ run_ops [op_confirm; op_save; op_cancel "plans changed"; op_save] b w'
       = Ok b' w''
    /\ Booking.total_price b' = Some 500000.
Proof.
  destruct total_price_computed_once_then_kept as (Hcreate & _ & Hkeep).
  destruct (Hcreate request_two_seats 1%N 9%N free_flight
              (sample_world free_flight 0) eq_refl eq_refl eq_refl eq_refl
              eq_refl eq_refl ltac:(simpl; lia)
              ltac:(split; [reflexivity|split; vm_compute; reflexivity]))
    as (response & b & key & w' & Hrun & Hbk & Hn & Htp & Hl).
  destruct (Hkeep [op_confirm; op_save; op_cancel "plans changed"; op_save]
              b w' Hl) as (b' & w'' & Hops & Hp & _).
  rewrite Hn in Htp.
  exists response, b, key, w', b', w''.
  split; [exact Hrun|]. split; [exact Hbk|]. split; [exact Htp|].
  split; [exact Hops|]. rewrite Hp. exact Htp.
Defined.

(** * Further properties of the modelled code *)

(** ** The lifecycle of a booking *)

(** [cancel] on a loaded CONFIRMED booking, with everything it keeps. *)
Lemma cancel_confirmed_frame
  (self : Booking.t) (t : TravelOption.t) (w : World) (pk k u : N) (p : Z)
  (reason : string)
  (Hpk : Booking.booking_id self = Some pk)
  (Huser : Booking.user self = Some u)
  (Hfk : Booking.travel_option self = Some k)
  (Hrow : travel_options w !! k = Some t)
  (Hid : TravelOption.travel_id t = k)
  (Hprice : Booking.total_price self = Some p)
  (Hconfirmed : Booking.status self = CONFIRMED) :
  exists self' t' w',
    cancel self reason w = Ok (true, self') w'
    /\ Booking.status self' = CANCELLED
    /\ Booking.booking_id self' = Some pk
    /\ Booking.user self' = Some u
    /\ Booking.travel_option self' = Some k
    /\ Booking.number_of_seats self' = Booking.number_of_seats self
    /\ Booking.total_price self' = Some p
    /\ (forall r, Booking.booking_reference self = Some r ->
                  Booking.booking_reference self' = Some r)
    /\ bookings w' = <[pk := self']> (bookings w)
    /\ travel_options w' = <[k := t']> (travel_options w)
    /\ clock w' = clock w
    /\ TravelOption.travel_id t' = k
    /\ TravelOption.total_seats t' = TravelOption.total_seats t
    /\ TravelOption.available_seats t'
       = TravelOption.available_seats t + Booking.number_of_seats self
    /\ TravelOption.status t'
       = if bool_decide (TravelOption.status t = FULL)
            && (0 <? TravelOption.available_seats t
                     + Booking.number_of_seats self)
         then ACTIVE else TravelOption.status t.
Proof.
  unfold cancel.
  destruct (decide (Booking.status self = CONFIRMED)); [|contradiction].
  cbv zeta. unfold bind at 1, timezone_now at 1.
  set (self1 := Booking.set_cancellation_reason reason
                  (Booking.set_cancelled_at (Some (clock w))
                     (Booking.set_status CANCELLED self))).
  assert (Hfk1 : Booking.travel_option self1 = Some k) by exact Hfk.
  rewrite (bind_Ok _ _ _ _ _ (related_travel_option_run self1 t w k Hfk1 Hrow)).
  destruct (cancel_seats_run t (Booking.number_of_seats self1) w)
    as (t' & Hcs & Hid' & Htot' & Hav' & Hst').
  rewrite (bind_Ok _ _ _ _ _ Hcs).
  set (w1 := set_travel_options _ w) in *.
  assert (Hrow1 : travel_options w1 !! k = Some t')
    by (subst w1; simpl; rewrite Hid; apply lookup_insert_eq).
  destruct (Booking_save_run self1 t' w1 k u Hfk1 Hrow1 Huser
              (or_intror (ex_intro _ p Hprice)))
    as (self' & w' & pk' & Hsave & Hpk' & Hsame & Hbk & Hto & Hck & Htp & Hst
        & Hn & Hu & Hf & _ & _ & Href).
  rewrite (bind_Ok _ _ _ _ _ Hsave).
  assert (pk' = pk) by (apply Hsame; exact Hpk). subst pk'.
  replace (Booking.booking_id self1) with (Some pk) in Htp
    by (symmetry; exact Hpk).
  exists self', t', w'. split; [reflexivity|].
  split; [rewrite Hst; reflexivity|]. split; [exact Hpk'|].
  split; [rewrite Hu; exact Huser|]. split; [rewrite Hf; exact Hfk|].
  split; [exact Hn|]. split; [rewrite Htp; exact Hprice|].
  split; [exact Href|]. split; [exact Hbk|].
  split; [rewrite Hto; subst w1; simpl; rewrite Hid; reflexivity|].
  split; [exact Hck|]. split; [rewrite Hid'; exact Hid|].
  split; [exact Htot'|]. split; [exact Hav' | exact Hst'].
Qed.

(** [confirm] on a loaded PENDING booking, with everything it keeps. *)
Lemma confirm_pending_frame
  (self : Booking.t) (t : TravelOption.t) (w : World) (pk k u : N) (p : Z)
  (Hpk : Booking.booking_id self = Some pk)
  (Huser : Booking.user self = Some u)
  (Hfk : Booking.travel_option self = Some k)
  (Hrow : travel_options w !! k = Some t)
  (Hprice : Booking.total_price self = Some p)
  (Hpending : Booking.status self = PENDING) :
  exists self' w',
    confirm self w = Ok (true, self') w'
    /\ Booking.status self' = CONFIRMED
    /\ Booking.booking_id self' = Some pk
    /\ Booking.user self' = Some u
    /\ Booking.travel_option self' = Some k
    /\ Booking.number_of_seats self' = Booking.number_of_seats self
    /\ Booking.total_price self' = Some p
    /\ Booking.cancelled_at self' = Booking.cancelled_at self
    /\ Booking.cancellation_reason self' = Booking.cancellation_reason self
    /\ (forall r, Booking.booking_reference self = Some r ->
                  Booking.booking_reference self' = Some r)
    /\ bookings w' = <[pk := self']> (bookings w)
    /\ travel_options w' = travel_options w
    /\ clock w' = clock w.
Proof.
  unfold confirm.
  destruct (decide (Booking.status self = PENDING)); [|contradiction].
  cbv zeta.
  set (self1 := Booking.set_status CONFIRMED self).
  assert (Hfk1 : Booking.travel_option self1 = Some k) by exact Hfk.
  destruct (Booking_save_run self1 t w k u Hfk1 Hrow Huser
              (or_intror (ex_intro _ p Hprice)))
    as (self' & w' & pk' & Hsave & Hpk' & Hsame & Hbk & Hto & Hck & Htp & Hst
        & Hn & Hu & Hf & Hca & Hcr & Href).
  rewrite (bind_Ok _ _ _ _ _ Hsave).
  assert (pk' = pk) by (apply Hsame; exact Hpk). subst pk'.
  replace (Booking.booking_id self1) with (Some pk) in Htp
    by (symmetry; exact Hpk).
  exists self', w'. split; [reflexivity|].
  split; [rewrite Hst; reflexivity|]. split; [exact Hpk'|].
  split; [rewrite Hu; exact Huser|]. split; [rewrite Hf; exact Hfk|].
  split; [exact Hn|]. split; [rewrite Htp; exact Hprice|].
  split; [exact Hca|]. split; [exact Hcr|]. split; [exact Href|].
  split; [exact Hbk|]. split; [exact Hto | exact Hck].
Qed.

(** One operation on a loaded booking: it returns, the booking stays loaded
    under the same key, for the same user and travel option, with the same
    seats; a reference once set is kept; the status moves along the
    lifecycle. *)
Lemma run_op_frame (op : BookingOp) (self : Booking.t) (w : World) :
  loaded_booking self w ->
  exists self' w',
    run_op op self w = Ok self' w'
    /\ loaded_booking self' w'
    /\ Booking.booking_id self' = Booking.booking_id self
    /\ Booking.user self' = Booking.user self
    /\ Booking.travel_option self' = Booking.travel_option self
    /\ Booking.number_of_seats self' = Booking.number_of_seats self
    /\ (forall r, Booking.booking_reference self = Some r ->
                  Booking.booking_reference self' = Some r)
    /\ lifecycle_reaches (Booking.status self) (Booking.status self').
Proof.
  intros (pk & u & k & t & p & Hpk & Hu & Hfk & Hrow & Hid & Hp).
  assert (Hl : loaded_booking self w) by (exists pk, u, k, t, p; tauto).
  destruct op as [|reason|]; simpl.
  - destruct (Booking_save_run self t w k u Hfk Hrow Hu
                (or_intror (ex_intro _ p Hp)))
      as (self' & w' & pk' & Hsave & Hpk' & Hsame & _ & Hto & Hck & Htp & Hst
          & Hn & Hu' & Hf' & _ & _ & Href).
    assert (pk' = pk) by (apply Hsame; exact Hpk). subst pk'.
    rewrite Hpk in Htp.
    exists self', w'. split; [exact Hsave|].
    split; [exists pk, u, k, t, p; rewrite Hto; repeat split; congruence|].
    split; [congruence|]. split; [exact Hu'|]. split; [exact Hf'|].
    split; [exact Hn|]. split; [exact Href|]. left. exact Hst.
  - destruct (decide (Booking.status self = CONFIRMED)) as [E|E].
    + destruct (cancel_confirmed_frame self t w pk k u p reason
                  Hpk Hu Hfk Hrow Hid Hp E)
        as (self' & t' & w' & Hrun & Hst & Hpk' & Hu' & Hf' & Hn & Htp & Href
            & _ & Hto & _ & Hid' & _).
      rewrite (bind_Ok _ _ _ _ _ Hrun). simpl.
      exists self', w'. split; [reflexivity|].
      split; [exists pk, u, k, t', p; rewrite Hto, lookup_insert_eq; tauto|].
      split; [congruence|]. split; [congruence|]. split; [congruence|].
      split; [exact Hn|]. split; [exact Href|].
      right. right. split; [exact E | exact Hst].
    + rewrite (bind_Ok _ _ _ _ _ (cancel_not_confirmed_unchanged self reason w E)).
      simpl. exists self, w. split; [reflexivity|]. split; [exact Hl|].
      repeat split; auto. left. reflexivity.
  - destruct (decide (Booking.status self = PENDING)) as [E|E].
    + destruct (confirm_pending_frame self t w pk k u p Hpk Hu Hfk Hrow Hp E)
        as (self' & w' & Hrun & Hst & Hpk' & Hu' & Hf' & Hn & Htp & _ & _
            & Href & _ & Hto & _).
      rewrite (bind_Ok _ _ _ _ _ Hrun). simpl.
      exists self', w'. split; [reflexivity|].
      split; [exists pk, u, k, t, p; rewrite Hto; tauto|].
      split; [congruence|]. split; [congruence|]. split; [congruence|].
      split; [exact Hn|]. split; [exact Href|].
      right. left. split; [exact E | left; exact Hst].
    + unfold confirm.
      destruct (decide (Booking.status self = PENDING)); [contradiction|].
      simpl. exists self, w. split; [reflexivity|]. split; [exact Hl|].
      repeat split; auto. left. reflexivity.
Qed.

Lemma lifecycle_reaches_trans (a b c : Booking.Status) :
  lifecycle_reaches a b -> lifecycle_reaches b c -> lifecycle_reaches a c.
Proof.
  unfold lifecycle_reaches.
  destruct a, b, c; intros H1 H2;
    repeat match goal with
           | H : _ \/ _ |- _ => destruct H
           | H : _ /\ _ |- _ => destruct H
           end;
    try discriminate; tauto.
Qed.

(** X1. Over any sequence of [save], [cancel] and [confirm] on a loaded
    booking the status only moves forward along PENDING, CONFIRMED,
    CANCELLED: a CANCELLED or REFUNDED booking stays as it is, a CONFIRMED
    one never becomes PENDING again, and REFUNDED is never produced.  The
    primary key, the user, the travel option, the number of seats and a
    reference once set are the same at the end. *)
Theorem booking_lifecycle_only_moves_forward (ops : list BookingOp) :
  forall (self : Booking.t) (w : World),
    loaded_booking self w ->
    exists self' w',
      run_ops ops self w = Ok self' w'
      /\ loaded_booking self' w'
      /\ lifecycle_reaches (Booking.status self) (Booking.status self')
      /\ Booking.booking_id self' = Booking.booking_id self
      /\ Booking.user self' = Booking.user self
      /\ Booking.travel_option self' = Booking.travel_option self
      /\ Booking.number_of_seats self' = Booking.number_of_seats self
      /\ (forall r, Booking.booking_reference self = Some r ->
                    Booking.booking_reference self' = Some r).
Proof.
  induction ops as [|op ops IH]; intros self w Hl; simpl.
  - exists self, w. split; [reflexivity|]. split; [exact Hl|].
    split; [left; reflexivity|]. repeat split; auto.
  - destruct (run_op_frame op self w Hl)
      as (s1 & w1 & Hrun & Hl1 & Hpk1 & Hu1 & Hf1 & Hn1 & Href1 & Hlc1).
    destruct (IH s1 w1 Hl1)
      as (s2 & w2 & Hrun2 & Hl2 & Hlc2 & Hpk2 & Hu2 & Hf2 & Hn2 & Href2).
    exists s2, w2. rewrite (bind_Ok _ _ _ _ _ Hrun).
    split; [exact Hrun2|]. split; [exact Hl2|].
    split; [exact (lifecycle_reaches_trans _ _ _ Hlc1 Hlc2)|].
    repeat split; try congruence.
    intros r Hr. apply Href2, Href1, Hr.
Qed.

Lemma confirmed_booking_loaded (h : Z) :
  loaded_booking confirmed_booking (world_before_departure h).
Proof.
  exists 5%N, 9%N, 1%N, (sold_out_flight h), 100000.
  repeat split; reflexivity.
Qed.

Lemma booking_lifecycle_only_moves_forward_witness :
  exists self' w',
    run_ops [op_confirm; op_cancel "plans changed"; op_confirm; op_save]
      confirmed_booking (world_before_departure 30) = Ok self' w'
    /\ lifecycle_reaches CONFIRMED (Booking.status self')
    /\ Booking.number_of_seats self' = 2.
Proof.
  destruct (booking_lifecycle_only_moves_forward
              [op_confirm; op_cancel "plans changed"; op_confirm; op_save]
              confirmed_booking (world_before_departure 30)
              (confirmed_booking_loaded 30))
    as (s & w' & Hrun & _ & Hlc & _ & _ & _ & Hn & _).
  exists s, w'. split; [exact Hrun|]. split; [exact Hlc | exact Hn].
Defined.

(** X2. [confirm] succeeds exactly from PENDING.  On a loaded PENDING booking
    it returns [True], stores the booking as CONFIRMED under its key and
    leaves seats, price, cancellation fields and the travel table as they
    were; on any other status it returns [False] and changes nothing. *)
Theorem confirm_only_from_pending
  (self : Booking.t) (t : TravelOption.t) (w : World) (pk k u : N) (p : Z)
  (Hpk : Booking.booking_id self = Some pk)
  (Huser : Booking.user self = Some u)
  (Hfk : Booking.travel_option self = Some k)
  (Hrow : travel_options w !! k = Some t)
  (Hprice : Booking.total_price self = Some p) :
  (Booking.status self = PENDING ->
   exists self' w',
     confirm self w = Ok (true, self') w'
     /\ Booking.status self' = CONFIRMED
     /\ bookings w' !! pk = Some self'
     /\ Booking.number_of_seats self' = Booking.number_of_seats self
     /\ Booking.total_price self' = Some p
     /\ Booking.cancelled_at self' = Booking.cancelled_at self
     /\ travel_options w' = travel_options w)
  /\ (Booking.status self <> PENDING -> confirm self w = Ok (false, self) w).
Proof.
  split.
  - intros E.
    destruct (confirm_pending_frame self t w pk k u p Hpk Huser Hfk Hrow
                Hprice E)
      as (self' & w' & Hrun & Hst & _ & _ & _ & Hn & Htp & Hca & _ & _ & Hbk
          & Hto & _).
    exists self', w'. split; [exact Hrun|]. split; [exact Hst|].
    split; [rewrite Hbk; apply lookup_insert_eq|]. tauto.
  - intros E. unfold confirm.
    destruct (decide (Booking.status self = PENDING)); [contradiction|].
    reflexivity.
Qed.

Lemma confirm_only_from_pending_witness :
  confirm confirmed_booking (world_before_departure 30)
  = Ok (false, confirmed_booking) (world_before_departure 30).
Proof.
  destruct (confirm_only_from_pending confirmed_booking (sold_out_flight 30)
              (world_before_departure 30) 5%N 1%N 9%N 100000
              eq_refl eq_refl eq_refl eq_refl eq_refl) as [_ H].
  apply H. discriminate.
Defined.

(** ** The cancellation view *)

(** The successful run of [cancel_booking_view], with the tables it leaves. *)
Lemma cancel_booking_view_run
  (self : Booking.t) (t : TravelOption.t) (w : World) (pk k u : N) (p : Z)
  (reason : string)
  (Hstored : bookings w !! pk = Some self)
  (Hpk : Booking.booking_id self = Some pk)
  (Huser : Booking.user self = Some u)
  (Hfk : Booking.travel_option self = Some k)
  (Hrow : travel_options w !! k = Some t)
  (Hid : TravelOption.travel_id t = k)
  (Hprice : Booking.total_price self = Some p)
  (Hconfirmed : Booking.status self = CONFIRMED)
  (Hwindow : 2 * hour < TravelOption.departure_time t - clock w) :
  exists self' t' w',
    cancel_booking_view (MkRequest (Some u) POST reason) pk w
    = Ok (redirect my_bookings (success_booking_cancelled 0)) w'
    /\ cancel self reason w = Ok (true, self') w'
    /\ Booking.status self' = CANCELLED
    /\ Booking.user self' = Some u
    /\ bookings w' = <[pk := self']> (bookings w)
    /\ travel_options w' = <[k := t']> (travel_options w)
    /\ clock w' = clock w
    /\ TravelOption.available_seats t'
       = TravelOption.available_seats t + Booking.number_of_seats self
    /\ TravelOption.status t'
       = if bool_decide (TravelOption.status t = FULL)
            && (0 <? TravelOption.available_seats t
                     + Booking.number_of_seats self)
         then ACTIVE else TravelOption.status t.
Proof.
  destruct (cancel_confirmed_frame self t w pk k u p reason
              Hpk Huser Hfk Hrow Hid Hprice Hconfirmed)
    as (self' & t' & w' & Hrun & Hst & _ & Hu' & _ & _ & _ & _ & Hbk & Hto
        & Hck & _ & _ & Hav & Hts).
  exists self', t', w'.
  split; [|tauto].
  unfold cancel_booking_view. simpl.
  rewrite (bind_Ok _ _ _ _ _ (get_Booking_or_404_run self w pk u Hstored Huser)).
  rewrite (bind_Ok _ _ _ _ _ (is_cancellable_run self t w k Hfk Hrow)).
  rewrite (bool_decide_eq_true_2 _ Hconfirmed).
  replace (2 * hour <? TravelOption.departure_time t - clock w) with true
    by (symmetry; apply Z.ltb_lt; exact Hwindow).
  simpl. rewrite (bind_Ok _ _ _ _ _ Hrun). simpl.
  rewrite (bind_Ok _ _ _ _ _ (get_refund_amount_not_confirmed self' w'
                                ltac:(rewrite Hst; discriminate))).
  reflexivity.
Qed.

(** The view refuses a booking of the requester that is not CONFIRMED,
    whatever the clock reads. *)
Lemma cancel_booking_view_not_confirmed
  (self : Booking.t) (w : World) (pk u : N) (reason : string) :
  bookings w !! pk = Some self ->
  Booking.user self = Some u ->
  Booking.status self <> CONFIRMED ->
  cancel_booking_view (MkRequest (Some u) POST reason) pk w
  = Ok (redirect (booking_detail (Some pk)) error_cannot_be_cancelled) w.
Proof.
  intros Hstored Hu Hst. unfold cancel_booking_view. simpl.
  rewrite (bind_Ok _ _ _ _ _ (get_Booking_or_404_run self w pk u Hstored Hu)).
  unfold is_cancellable, bind.
  destruct (decide (Booking.status self <> CONFIRMED)); [|contradiction].
  reflexivity.
Qed.

(** X3. A booking is cancelled once.  After a successful
    [cancel_booking_view], a second request for the same booking, at any
    later reading of the clock and with any reason, is refused with
    "cannot be cancelled" and changes nothing, so the seats are released
    once. *)
Theorem cancel_booking_view_twice
  (self : Booking.t) (t : TravelOption.t) (w : World) (pk k u : N) (p : Z)
  (reason reason2 : string) (later : Z)
  (Hstored : bookings w !! pk = Some self)
  (Hpk : Booking.booking_id self = Some pk)
  (Huser : Booking.user self = Some u)
  (Hfk : Booking.travel_option self = Some k)
  (Hrow : travel_options w !! k = Some t)
  (Hid : TravelOption.travel_id t = k)
  (Hprice : Booking.total_price self = Some p)
  (Hconfirmed : Booking.status self = CONFIRMED)
  (Hwindow : 2 * hour < TravelOption.departure_time t - clock w) :
  exists t' w',
    cancel_booking_view (MkRequest (Some u) POST reason) pk w
    = Ok (redirect my_bookings (success_booking_cancelled 0)) w'
    /\ travel_options w' !! k = Some t'
    /\ TravelOption.available_seats t'
       = TravelOption.available_seats t + Booking.number_of_seats self
    /\ cancel_booking_view (MkRequest (Some u) POST reason2) pk
         (set_clock later w')
       = Ok (redirect (booking_detail (Some pk)) error_cannot_be_cancelled)
            (set_clock later w').
Proof.
  destruct (cancel_booking_view_run self t w pk k u p reason Hstored Hpk Huser
              Hfk Hrow Hid Hprice Hconfirmed Hwindow)
    as (self' & t' & w' & Hview & _ & Hst & Hu' & Hbk & Hto & _ & Hav & _).
  exists t', w'. split; [exact Hview|].
  split; [rewrite Hto; apply lookup_insert_eq|]. split; [exact Hav|].
  apply (cancel_booking_view_not_confirmed self').
  - simpl. rewrite Hbk. apply lookup_insert_eq.
  - exact Hu'.
  - rewrite Hst. discriminate.
Qed.

Lemma cancel_booking_view_twice_witness :
  exists t' w',
    cancel_booking_view (MkRequest (Some 9%N) POST "plans changed") 5%N
      (world_before_departure 30)
    = Ok (redirect my_bookings (success_booking_cancelled 0)) w'
    /\ travel_options w' !! 1%N = Some t'
    /\ TravelOption.available_seats t' = 2
    /\ cancel_booking_view (MkRequest (Some 9%N) POST "again") 5%N
         (set_clock hour w')
       = Ok (redirect (booking_detail (Some 5%N)) error_cannot_be_cancelled)
            (set_clock hour w').
Proof.
  apply (cancel_booking_view_twice confirmed_booking (sold_out_flight 30)
           (world_before_departure 30) 5%N 1%N 9%N 100000
           "plans changed" "again" hour
           eq_refl eq_refl eq_refl eq_refl eq_refl eq_refl eq_refl eq_refl).
  vm_compute. reflexivity.
Defined.

(** X4. [cancel_booking_view] leaves the world exactly as it found it unless
    the request is a POST of an authenticated user for a CONFIRMED booking of
    that user whose travel option leaves more than 7200 seconds later:
    an anonymous request, another method, an unknown key, somebody else's
    booking (a 404), a booking that is not CONFIRMED or one inside the
    two-hour window change nothing. *)
Theorem cancel_booking_view_changes_only_when_allowed
  (request : Request string) (pk : N) (w : World)
  (Hchanged : world_of (cancel_booking_view request pk w) <> w) :
  exists u b k t,
    req_user request = Some u
    /\ req_method request = POST
    /\ bookings w !! pk = Some b
    /\ Booking.user b = Some u
    /\ Booking.status b = CONFIRMED
    /\ Booking.travel_option b = Some k
    /\ travel_options w !! k = Some t
    /\ 7200 * 1000000 < TravelOption.departure_time t - clock w.
Proof.
  unfold cancel_booking_view in Hchanged.
  destruct (req_user request) as [u|] eqn:Hu;
    [|exfalso; apply Hchanged; reflexivity].
  destruct (req_method request) eqn:Hm;
    try (exfalso; apply Hchanged; reflexivity).
  unfold bind at 1, get_Booking_or_404 in Hchanged.
  destruct (bookings w !! pk) as [b|] eqn:Hb;
    [|exfalso; apply Hchanged; reflexivity].
  destruct (decide (Booking.user b = Some u)) as [Hbu|Hbu];
    [|exfalso; apply Hchanged; reflexivity].
  unfold bind at 1, is_cancellable in Hchanged.
  destruct (decide (Booking.status b <> CONFIRMED)) as [Hs|Hs];
    [exfalso; apply Hchanged; reflexivity|].
  assert (Hconf : Booking.status b = CONFIRMED)
    by (destruct (decide (Booking.status b = CONFIRMED)); tauto).
  unfold bind at 1, related_travel_option in Hchanged.
  destruct (Booking.travel_option b) as [k|] eqn:Hk;
    [|exfalso; apply Hchanged; reflexivity].
  destruct (travel_options w !! k) as [t|] eqn:Ht;
    [|exfalso; apply Hchanged; reflexivity].
  unfold bind at 1, timezone_now, ret in Hchanged.
  rewrite (Qgtb_total_seconds _ 7200) in Hchanged.
  destruct (Z.ltb_spec (7200 * 1000000) (TravelOption.departure_time t - clock w))
    as [Hlt|Hge]; [|exfalso; apply Hchanged; reflexivity].
  exists u, b, k, t. repeat split; assumption.
Qed.

Lemma cancel_booking_view_changes_only_when_allowed_witness :
  exists u b k t,
    Some 9%N = Some u
    /\ bookings (world_before_departure 30) !! 5%N = Some b
    /\ Booking.status b = CONFIRMED
    /\ Booking.travel_option b = Some k
    /\ travel_options (world_before_departure 30) !! k = Some t
    /\ 7200 * 1000000
       < TravelOption.departure_time t - clock (world_before_departure 30).
Proof.
  destruct (cancel_booking_view_changes_only_when_allowed
              (MkRequest (Some 9%N) POST "plans changed") 5%N
              (world_before_departure 30))
    as (u & b & k & t & Hu & _ & Hb & _ & Hs & Hk & Ht & Hw).
  - vm_compute. discriminate.
  - exists u, b, k, t. tauto.
Defined.



(** ** Booking, confirming and cancelling in turn *)

(** The accepted run of [book_travel_view], with the tables it leaves. *)
Lemma book_travel_view_accepts_tables
  (request : Request BookingForm) (pk user : N) (t : TravelOption.t) (w : World)
  (Huser : req_user request = Some user)
  (Hpost : req_method request = POST)
  (Hvalid : is_valid (req_POST request) = true)
  (Hrow : travel_options w !! pk = Some t)
  (Hid : TravelOption.travel_id t = pk)
  (Hactive : TravelOption.status t = ACTIVE)
  (Hfits : number_of_seats (req_POST request) <= TravelOption.available_seats t)
  (Hinsert : insert_accepted t (number_of_seats (req_POST request)) w) :
  exists b t' w',
    book_travel_view request pk w
    = Ok (redirect (booking_detail (Some (entropy w (drawn w))))
            (success_booking_confirmed (Booking.booking_reference b))) w'
    /\ bookings w' = <[entropy w (drawn w) := b]> (bookings w)
    /\ travel_options w' = <[pk := t']> (travel_options w)
    /\ clock w' = clock w
    /\ Booking.booking_id b = Some (entropy w (drawn w))
    /\ Booking.user b = Some user
    /\ Booking.travel_option b = Some pk
    /\ Booking.status b = PENDING
    /\ Booking.number_of_seats b = number_of_seats (req_POST request)
    /\ Booking.total_price b
       = Some (TravelOption.price t * number_of_seats (req_POST request))
    /\ Booking.booking_date b = Some (clock w)
    /\ TravelOption.travel_id t' = pk
    /\ TravelOption.departure_time t' = TravelOption.departure_time t
    /\ TravelOption.total_seats t' = TravelOption.total_seats t
    /\ TravelOption.available_seats t'
       = TravelOption.available_seats t - number_of_seats (req_POST request)
    /\ TravelOption.status t'
       = if decide (TravelOption.available_seats t
                    - number_of_seats (req_POST request) = 0)
         then FULL else ACTIVE.
Proof.
  assert (Hsome : 0 < TravelOption.available_seats t)
    by (pose proof (is_valid_seats _ Hvalid); lia).
  unfold book_travel_view. rewrite Huser.
  set (form := req_POST request) in *.
  set (w1 := MkWorld (travel_options w) (bookings w) (clock w) (entropy w)
                     (S (drawn w))).
  set (instance := Booking.Build (Some (entropy w (drawn w))) None None None 0
                     None None PENDING nil "" "" "" "" None "").
  set (booking :=
         Booking.set_total_price
           (Some (TravelOption.price t
                  * Booking.number_of_seats
                      (Booking.set_travel_option (Some (TravelOption.travel_id t))
                         (Booking.set_user (Some user)
                            (BookingForm_save form instance)))))
           (Booking.set_travel_option (Some (TravelOption.travel_id t))
              (Booking.set_user (Some user) (BookingForm_save form instance)))).
  assert (Hrun :
    exists b w2,
      Booking_save true booking w1 = Ok b w2
      /\ bookings w2 = <[entropy w (drawn w) := b]> (bookings w)
      /\ travel_options w2 = travel_options w
      /\ clock w2 = clock w
      /\ Booking.booking_id b = Some (entropy w (drawn w))
      /\ Booking.user b = Some user
      /\ Booking.travel_option b = Some pk
      /\ Booking.status b = PENDING
      /\ Booking.number_of_seats b = number_of_seats form
      /\ Booking.total_price b
         = Some (TravelOption.price t * number_of_seats form)
      /\ Booking.booking_date b = Some (clock w)).
  { destruct Hinsert as (Hkey & Hfresh & Hdigits).
    assert (Hrow1 : travel_options w1 !! pk = Some t) by exact Hrow.
    assert (Hfk : Booking.travel_option booking = Some pk)
      by (simpl; rewrite Hid; reflexivity).
    assert (Hseats : fits_INTEGER (Booking.number_of_seats booking) = true).
    { pose proof (is_valid_seats _ Hvalid) as Hn. simpl.
      unfold fits_INTEGER. apply andb_true_iff.
      rewrite Z.leb_le, Z.ltb_lt. lia. }
    destruct (Booking_save_adding_run booking t w1 pk user
                (entropy w (drawn w)) _ Hfk Hrow1 eq_refl eq_refl eq_refl
                eq_refl Hdigits Hseats Hkey Hfresh)
      as (b & w2 & Hsave & Hpk & Hbk & Hto & Hck & Htp & Hst & Hn & Hu & Hf
          & _ & Hdate).
    exists b, w2. split; [exact Hsave|]. split; [exact Hbk|].
    split; [exact Hto|]. split; [exact Hck|]. split; [exact Hpk|].
    split; [rewrite Hu; reflexivity|]. split; [rewrite Hf; exact Hfk|].
    split; [rewrite Hst; reflexivity|]. split; [rewrite Hn; reflexivity|].
    split; [exact Htp|exact Hdate]. }
  destruct Hrun as (b & w2 & Hsave & Hbk & Hto & Hck & Hpk & Hu & Hf & Hst
                    & Hn & Htp & Hdate).
  destruct (update_availability_run t (Booking.number_of_seats b) w2)
    as (t' & Hupd & Hid' & Htot' & Hav' & Hst').
  assert (Hdep : TravelOption.departure_time t' = TravelOption.departure_time t).
  { revert Hupd. unfold update_availability, update_availability_to,
      TravelOption_save_to, bind, timezone_now, get_world. cbv zeta.
    destruct (decide _); intros H; inversion H; reflexivity. }
  exists b, t'. eexists. split.
  - apply atomic_Ok.
    rewrite (bind_Ok _ _ _ _ _ (get_TravelOption_or_404_run t w pk Hrow)).
    rewrite (is_available_true t Hactive Hsome), Hpost. simpl.
    unfold Booking_new. unfold bind at 1. unfold bind at 1. unfold uuid4 at 1.
    unfold ret at 1. fold form. rewrite Hvalid.
    replace (TravelOption.available_seats t <? number_of_seats form)
      with false by (symmetry; apply Z.ltb_ge; exact Hfits).
    fold w1. fold instance. fold booking.
    rewrite (bind_Ok _ _ _ _ _ Hsave).
    rewrite (bind_Ok _ _ _ _ _ Hupd).
    rewrite Hpk. reflexivity.
  - rewrite Hn in *. simpl. rewrite Hid, Hto, Hav', Hst', Hactive, Hid', Hid.
    repeat split; try assumption; try reflexivity.
Qed.

(** X6. A booking that [book_travel_view] has accepted (the table taking
    the new row) is stored as PENDING, and no view confirms it: a later [cancel_booking_view] by the same user for
    that booking, at any reading of the clock and however far the departure,
    is refused with "cannot be cancelled" and changes nothing. *)
Theorem booked_through_view_cannot_be_cancelled
  (request : Request BookingForm) (pk user : N) (t : TravelOption.t) (w : World)
  (reason : string) (later : Z)
  (Huser : req_user request = Some user)
  (Hpost : req_method request = POST)
  (Hvalid : is_valid (req_POST request) = true)
  (Hrow : travel_options w !! pk = Some t)
  (Hid : TravelOption.travel_id t = pk)
  (Hactive : TravelOption.status t = ACTIVE)
  (Hfits : number_of_seats (req_POST request) <= TravelOption.available_seats t)
  (Hinsert : insert_accepted t (number_of_seats (req_POST request)) w) :
  exists key reference w',
    book_travel_view request pk w
    = Ok (redirect (booking_detail (Some key))
            (success_booking_confirmed reference)) w'
    /\ cancel_booking_view (MkRequest (Some user) POST reason) key
         (set_clock later w')
       = Ok (redirect (booking_detail (Some key)) error_cannot_be_cancelled)
            (set_clock later w').
Proof.
  destruct (book_travel_view_accepts_tables request pk user t w Huser Hpost
              Hvalid Hrow Hid Hactive Hfits Hinsert)
    as (b & t' & w' & Hview & Hbk & _ & _ & _ & Hu & _ & Hst & _).
  exists (entropy w (drawn w)), (Booking.booking_reference b), w'.
  split; [exact Hview|].
  apply (cancel_booking_view_not_confirmed b).
  - simpl. rewrite Hbk. apply lookup_insert_eq.
  - exact Hu.
  - rewrite Hst. discriminate.
Qed.

Lemma booked_through_view_cannot_be_cancelled_witness :
  exists key reference w',
    book_travel_view request_two_seats 1%N (sample_world free_flight 0)
    = Ok (redirect (booking_detail (Some key))
            (success_booking_confirmed reference)) w'
    /\ cancel_booking_view (MkRequest (Some 9%N) POST "plans changed") key
         (set_clock hour w')
       = Ok (redirect (booking_detail (Some key)) error_cannot_be_cancelled)
            (set_clock hour w').
Proof.
  apply (booked_through_view_cannot_be_cancelled request_two_seats 1%N 9%N
           free_flight (sample_world free_flight 0) "plans changed" hour
           eq_refl eq_refl eq_refl eq_refl eq_refl eq_refl).
  - simpl. lia.
  - split; [reflexivity|]. split; vm_compute; reflexivity.
Defined.

(** X7. Booking, confirming and cancelling give the seats back.  From an
    ACTIVE option with enough seats and a table that takes the new row,
    [book_travel_view], then [confirm] on
    the stored booking, then [cancel_booking_view] more than two hours
    before departure leave the option with the [available_seats] and the
    status it started with, and the booking CANCELLED under its key. *)
Theorem book_confirm_cancel_restores_seats
  (request : Request BookingForm) (pk user : N) (t : TravelOption.t) (w : World)
  (reason : string)
  (Huser : req_user request = Some user)
  (Hpost : req_method request = POST)
  (Hvalid : is_valid (req_POST request) = true)
  (Hrow : travel_options w !! pk = Some t)
  (Hid : TravelOption.travel_id t = pk)
  (Hactive : TravelOption.status t = ACTIVE)
  (Hfits : number_of_seats (req_POST request) <= TravelOption.available_seats t)
  (Hwindow : 2 * hour < TravelOption.departure_time t - clock w)
  (Hinsert : insert_accepted t (number_of_seats (req_POST request)) w) :
  exists key response b1 w1 b2 w2 b3 t3 w3,
    book_travel_view request pk w = Ok response w1
    /\ bookings w1 !! key = Some b1
    /\ confirm b1 w1 = Ok (true, b2) w2
    /\ cancel_booking_view (MkRequest (Some user) POST reason) key w2
       = Ok (redirect my_bookings (success_booking_cancelled 0)) w3
    /\ bookings w3 !! key = Some b3
    /\ Booking.status b3 = CANCELLED
    /\ travel_options w3 !! pk = Some t3
    /\ TravelOption.available_seats t3 = TravelOption.available_seats t
    /\ TravelOption.status t3 = TravelOption.status t.
Proof.
  pose proof (is_valid_seats _ Hvalid) as Hn.
  destruct (book_travel_view_accepts_tables request pk user t w Huser Hpost
              Hvalid Hrow Hid Hactive Hfits Hinsert)
    as (b1 & t1 & w1 & Hview & Hbk1 & Hto1 & Hck1 & Hpk1 & Hu1 & Hf1 & Hst1
        & Hn1 & Htp1 & _ & Hid1 & Hdep1 & _ & Hav1 & Hts1).
  set (key := entropy w (drawn w)) in *.
  assert (Hrow1 : travel_options w1 !! pk = Some t1)
    by (rewrite Hto1; apply lookup_insert_eq).
  destruct (confirm_pending_frame b1 t1 w1 key pk user _ Hpk1 Hu1 Hf1 Hrow1
              Htp1 Hst1)
    as (b2 & w2 & Hconf & Hst2 & Hpk2 & Hu2 & Hf2 & Hn2 & Htp2 & _ & _ & _
        & Hbk2 & Hto2 & Hck2).
  assert (Hrow2 : travel_options w2 !! pk = Some t1) by (rewrite Hto2; exact Hrow1).
  assert (Hstored2 : bookings w2 !! key = Some b2)
    by (rewrite Hbk2; apply lookup_insert_eq).
  assert (Hwin2 : 2 * hour < TravelOption.departure_time t1 - clock w2)
    by (rewrite Hdep1, Hck2, Hck1; exact Hwindow).
  destruct (cancel_booking_view_run b2 t1 w2 key pk user _ reason Hstored2
              Hpk2 Hu2 Hf2 Hrow2 Hid1 Htp2 Hst2 Hwin2)
    as (b3 & t3 & w3 & Hcancel & _ & Hst3 & _ & Hbk3 & Hto3 & _ & Hav3 & Hts3).
  exists key. eexists. exists b1, w1, b2, w2, b3, t3, w3.
  split; [exact Hview|].
  split; [rewrite Hbk1; apply lookup_insert_eq|].
  split; [exact Hconf|]. split; [exact Hcancel|].
  split; [rewrite Hbk3; apply lookup_insert_eq|]. split; [exact Hst3|].
  split; [rewrite Hto3; apply lookup_insert_eq|].
  rewrite Hav3, Hts3, Hav1, Hts1, Hn2, Hn1, Hactive.
  split; [lia|].
  destruct (decide (TravelOption.available_seats t
                    - number_of_seats (req_POST request) = 0)) as [E|E].
  - rewrite bool_decide_eq_true_2 by reflexivity.
    replace (0 <? TravelOption.available_seats t
                  - number_of_seats (req_POST request)
                  + number_of_seats (req_POST request)) with true
      by (symmetry; apply Z.ltb_lt; lia).
    reflexivity.
  - rewrite bool_decide_eq_false_2 by discriminate. reflexivity.
Qed.

Lemma book_confirm_cancel_restores_seats_witness :
  exists key response b1 w1 b2 w2 b3 t3 w3,
    book_travel_view request_two_seats 1%N (sample_world free_flight 0)
    = Ok response w1
    /\ bookings w1 !! key = Some b1
    /\ confirm b1 w1 = Ok (true, b2) w2
    /\ cancel_booking_view (MkRequest (Some 9%N) POST "plans changed") key w2
       = Ok (redirect my_bookings (success_booking_cancelled 0)) w3
    /\ bookings w3 !! key = Some b3
    /\ Booking.status b3 = CANCELLED
    /\ travel_options w3 !! 1%N = Some t3
    /\ TravelOption.available_seats t3 = 2
    /\ TravelOption.status t3 = ACTIVE.
Proof.
  apply (book_confirm_cancel_restores_seats request_two_seats 1%N 9%N
           free_flight (sample_world free_flight 0) "plans changed"
           eq_refl eq_refl eq_refl eq_refl eq_refl eq_refl).
  - simpl. lia.
  - vm_compute. reflexivity.
  - split; [reflexivity|]. split; vm_compute; reflexivity.
Defined.

(** ** Seat accounts *)

Lemma held_seats_lookup (k pk : N) (rows : gmap N Booking.t) (b : Booking.t) :
  rows !! pk = Some b ->
  held_seats k rows = held_seats k (delete pk rows) + seats_held_by k b.
Proof.
  intros H. unfold held_seats.
  rewrite (map_fold_delete_L _ _ pk b rows); [reflexivity | | exact H].
  intros. lia.
Qed.

Lemma held_seats_insert_fresh (k pk : N) (rows : gmap N Booking.t)
  (b : Booking.t) :
  rows !! pk = None ->
  held_seats k (<[pk := b]> rows) = held_seats k rows + seats_held_by k b.
Proof.
  intros H. unfold held_seats.
  rewrite map_fold_insert_L; [reflexivity | | exact H].
  intros. lia.
Qed.

Lemma held_seats_insert (k pk : N) (rows : gmap N Booking.t) (b : Booking.t) :
  held_seats k (<[pk := b]> rows)
  = held_seats k (delete pk rows) + seats_held_by k b.
Proof.
  rewrite <- insert_delete_eq.
  apply held_seats_insert_fresh. apply lookup_delete_eq.
Qed.

(** Replacing a row by one that holds the same seats changes no account. *)
Lemma held_seats_replace (k pk : N) (rows : gmap N Booking.t)
  (b b' : Booking.t) :
  rows !! pk = Some b ->
  held_seats k (<[pk := b']> rows)
  = held_seats k rows - seats_held_by k b + seats_held_by k b'.
Proof.
  intros H. rewrite held_seats_insert, (held_seats_lookup k pk rows b H). lia.
Qed.

Lemma seats_held_by_eq (k : N) (b b' : Booking.t) :
  Booking.travel_option b' = Booking.travel_option b ->
  Booking.number_of_seats b' = Booking.number_of_seats b ->
  (Booking.status b' = CANCELLED <-> Booking.status b = CANCELLED) ->
  seats_held_by k b' = seats_held_by k b.
Proof.
  intros Hf Hn Hs. unfold seats_held_by. rewrite Hf, Hn.
  destruct (decide (Booking.travel_option b = Some k)); [|reflexivity].
  destruct (decide (Booking.status b' = CANCELLED));
    destruct (decide (Booking.status b = CANCELLED)); tauto.
Qed.

(** X8. [book_travel_view] moves seats from the option to the new booking
    and loses none: when it accepts a request, the table taking the new row
    (no row has the key drawn or the reference generated), the option's
    seats still available plus the seats held by its bookings that are not
    cancelled are what they were. *)
Theorem book_travel_view_conserves_seats
  (request : Request BookingForm) (pk user : N) (t : TravelOption.t) (w : World)
  (Huser : req_user request = Some user)
  (Hpost : req_method request = POST)
  (Hvalid : is_valid (req_POST request) = true)
  (Hrow : travel_options w !! pk = Some t)
  (Hid : TravelOption.travel_id t = pk)
  (Hactive : TravelOption.status t = ACTIVE)
  (Hfits : number_of_seats (req_POST request) <= TravelOption.available_seats t)
  (Hinsert : insert_accepted t (number_of_seats (req_POST request)) w) :
  exists response w',
    book_travel_view request pk w = Ok response w'
    /\ held_seats pk (bookings w')
       = held_seats pk (bookings w) + number_of_seats (req_POST request)
    /\ seat_account pk w' = seat_account pk w
    /\ seat_account pk w
       = Some (TravelOption.available_seats t + held_seats pk (bookings w)).
Proof.
  destruct (book_travel_view_accepts_tables request pk user t w Huser Hpost
              Hvalid Hrow Hid Hactive Hfits Hinsert)
    as (b & t' & w' & Hview & Hbk & Hto & _ & _ & _ & Hf & Hst & Hn & _ & _
        & _ & _ & _ & Hav & _).
  destruct Hinsert as (Hfresh & _ & _). unfold next_booking_id in Hfresh.
  assert (Hheld : seats_held_by pk b = number_of_seats (req_POST request)).
  { unfold seats_held_by. rewrite Hf, Hst, Hn.
    destruct (decide (Some pk = Some pk)); [|contradiction].
    destruct (decide (PENDING = CANCELLED)); [discriminate | reflexivity]. }
  eexists. exists w'. split; [exact Hview|].
  assert (H1 : held_seats pk (bookings w')
               = held_seats pk (bookings w) + number_of_seats (req_POST request))
    by (rewrite Hbk, (held_seats_insert_fresh _ _ _ _ Hfresh), Hheld;
        reflexivity).
  split; [exact H1|].
  unfold seat_account. rewrite Hto, lookup_insert_eq, Hrow, H1, Hav.
  split; [f_equal; lia | reflexivity].
Qed.

Lemma book_travel_view_conserves_seats_witness :
  exists response w',
    book_travel_view request_two_seats 1%N (sample_world free_flight 0)
    = Ok response w'
    /\ held_seats 1%N (bookings w') = 2
    /\ seat_account 1%N w' = Some 2.
Proof.
  destruct (book_travel_view_conserves_seats request_two_seats 1%N 9%N
              free_flight (sample_world free_flight 0)
              eq_refl eq_refl eq_refl eq_refl eq_refl eq_refl
              ltac:(simpl; lia) ltac:(split; [reflexivity|split; vm_compute; reflexivity]))
    as (response & w' & Hrun & Hheld & Hacc & Hval).
  exists response, w'. split; [exact Hrun|].
  split; [rewrite Hheld; reflexivity|].
  rewrite Hacc, Hval. reflexivity.
Defined.

(** One operation on a stored booking conserves every option's account. *)
Lemma run_op_conserves_seats
  (op : BookingOp) (self : Booking.t) (w : World) (pk : N) :
  loaded_booking self w ->
  Booking.booking_id self = Some pk ->
  bookings w !! pk = Some self ->
  exists self' w',
    run_op op self w = Ok self' w'
    /\ loaded_booking self' w'
    /\ Booking.booking_id self' = Some pk
    /\ bookings w' !! pk = Some self'
    /\ forall k', seat_account k' w' = seat_account k' w.
Proof.
  intros Hl Hpk Hstored.
  destruct Hl as (pk0 & u & k & t & p & Hpk0 & Hu & Hfk & Hrow & Hid & Hp).
  assert (pk0 = pk) by congruence. subst pk0.
  assert (Hl : loaded_booking self w) by (exists pk, u, k, t, p; tauto).
  destruct op as [|reason|]; simpl.
  - destruct (Booking_save_run self t w k u Hfk Hrow Hu
                (or_intror (ex_intro _ p Hp)))
      as (self' & w' & pk' & Hsave & Hpk' & Hsame & Hbk & Hto & _ & Htp & Hst
          & Hn & Hu' & Hf' & _).
    assert (pk' = pk) by (apply Hsame; exact Hpk). subst pk'.
    rewrite Hpk in Htp.
    exists self', w'. split; [exact Hsave|].
    split; [exists pk, u, k, t, p; rewrite Hto; repeat split; congruence|].
    split; [exact Hpk'|]. split; [rewrite Hbk; apply lookup_insert_eq|].
    intros k'. unfold seat_account. rewrite Hto, Hbk.
    rewrite (held_seats_replace k' pk _ self self' Hstored).
    rewrite (seats_held_by_eq k' self self' Hf' Hn ltac:(rewrite Hst; tauto)).
    destruct (travel_options w !! k'); [f_equal; lia | reflexivity].
  - destruct (decide (Booking.status self = CONFIRMED)) as [E|E].
    + destruct (cancel_confirmed_frame self t w pk k u p reason
                  Hpk Hu Hfk Hrow Hid Hp E)
        as (self' & t' & w' & Hrun & Hst & Hpk' & Hu' & Hf' & Hn & Htp & _
            & Hbk & Hto & _ & Hid' & _ & Hav & _).
      rewrite (bind_Ok _ _ _ _ _ Hrun). simpl.
      exists self', w'. split; [reflexivity|].
      split; [exists pk, u, k, t', p; rewrite Hto, lookup_insert_eq; tauto|].
      split; [exact Hpk'|]. split; [rewrite Hbk; apply lookup_insert_eq|].
      intros k'. unfold seat_account. rewrite Hto, Hbk.
      rewrite (held_seats_replace k' pk _ self self' Hstored).
      unfold seats_held_by. rewrite Hf', Hfk, Hst, E.
      destruct (decide (CANCELLED = CANCELLED)); [|contradiction].
      destruct (decide (CONFIRMED = CANCELLED)); [discriminate|].
      destruct (decide (k = k')) as [->|Hne].
      * rewrite lookup_insert_eq, Hrow.
        destruct (decide (Some k' = Some k')); [|contradiction].
        f_equal. lia.
      * rewrite lookup_insert_ne by exact Hne.
        destruct (decide (Some k = Some k')); [congruence|].
        destruct (travel_options w !! k'); [f_equal; lia | reflexivity].
    + rewrite (bind_Ok _ _ _ _ _ (cancel_not_confirmed_unchanged self reason w E)).
      simpl. exists self, w. split; [reflexivity|]. tauto.
  - destruct (decide (Booking.status self = PENDING)) as [E|E].
    + destruct (confirm_pending_frame self t w pk k u p Hpk Hu Hfk Hrow Hp E)
        as (self' & w' & Hrun & Hst & Hpk' & Hu' & Hf' & Hn & Htp & _ & _
            & _ & Hbk & Hto & _).
      rewrite (bind_Ok _ _ _ _ _ Hrun). simpl.
      exists self', w'. split; [reflexivity|].
      split; [exists pk, u, k, t, p; rewrite Hto; tauto|].
      split; [exact Hpk'|]. split; [rewrite Hbk; apply lookup_insert_eq|].
      intros k'. unfold seat_account. rewrite Hto, Hbk.
      rewrite (held_seats_replace k' pk _ self self' Hstored).
      rewrite (seats_held_by_eq k' self self');
        [| congruence | exact Hn | rewrite Hst, E; split; discriminate].
      destruct (travel_options w !! k'); [f_equal; lia | reflexivity].
    + unfold confirm.
      destruct (decide (Booking.status self = PENDING)); [contradiction|].
      simpl. exists self, w. split; [reflexivity|]. tauto.
Qed.

(** X9. No sequence of [save], [cancel] and [confirm] on a stored booking
    creates or loses seats: for every travel option, the seats still
    available plus the seats held by its bookings that are not cancelled are
    the same at the end ([cancel] gives to the option what it takes from the
    booking). *)
Theorem booking_operations_conserve_seats (ops : list BookingOp) :
  forall (self : Booking.t) (w : World) (pk : N),
    loaded_booking self w ->
    Booking.booking_id self = Some pk ->
    bookings w !! pk = Some self ->
    exists self' w',
      run_ops ops self w = Ok self' w'
      /\ bookings w' !! pk = Some self'
      /\ forall k', seat_account k' w' = seat_account k' w.
Proof.
  induction ops as [|op ops IH]; intros self w pk Hl Hpk Hstored; simpl.
  - exists self, w. split; [reflexivity|]. split; [exact Hstored | reflexivity].
  - destruct (run_op_conserves_seats op self w pk Hl Hpk Hstored)
      as (s1 & w1 & Hrun & Hl1 & Hpk1 & Hst1 & Hacc1).
    destruct (IH s1 w1 pk Hl1 Hpk1 Hst1) as (s2 & w2 & Hrun2 & Hst2 & Hacc2).
    exists s2, w2. rewrite (bind_Ok _ _ _ _ _ Hrun).
    split; [exact Hrun2|]. split; [exact Hst2|].
    intros k'. rewrite Hacc2. apply Hacc1.
Qed.

Lemma booking_operations_conserve_seats_witness :
  exists self' w',
    run_ops [op_cancel "plans changed"; op_save; op_cancel "again"]
      confirmed_booking (world_before_departure 30) = Ok self' w'
    /\ seat_account 1%N w' = Some 2.
Proof.
  destruct (booking_operations_conserve_seats
              [op_cancel "plans changed"; op_save; op_cancel "again"]
              confirmed_booking (world_before_departure 30) 5%N
              (confirmed_booking_loaded 30) eq_refl eq_refl)
    as (s & w' & Hrun & _ & Hacc).
  exists s, w'. split; [exact Hrun|]. rewrite Hacc. vm_compute. reflexivity.
Defined.

(** ** Passenger details *)

Lemma imap_seat_numbers (names : list string) :
  forall n : nat,
    (imap (fun i name => (name, Z.of_nat (n + i) + 1)) names).*1 = names
    /\ (imap (fun i name => (name, Z.of_nat (n + i) + 1)) names).*2
       = seqZ (Z.of_nat n + 1) (Z.of_nat (length names)).
Proof.
  induction names as [|name names IH]; intros n.
  - split; reflexivity.
  - assert (Hext :
      imap ((fun i name0 => (name0, Z.of_nat (n + i) + 1)) ∘ S) names
      = imap (fun i name0 => (name0, Z.of_nat (S n + i) + 1)) names).
    { apply imap_ext. intros i x _. simpl. f_equal. lia. }
    rewrite imap_cons, Hext, !fmap_cons.
    destruct (IH (S n)) as [H1 H2]. rewrite H1, H2.
    split; [reflexivity|].
    rewrite (seqZ_cons (Z.of_nat n + 1) (Z.of_nat (length (name :: names))))
      by (simpl; lia).
    simpl snd. rewrite Nat.add_0_r. f_equal. f_equal; simpl; lia.
Qed.

(** X10. [BookingForm.save] numbers the passengers in the order they were
    entered: the names of [passenger_details] are the submitted names, the
    seat numbers are 1, 2, ..., one per name without gap or repeat, and for a
    valid form there are exactly [number_of_seats] of them.  The seat count
    and contact fields come from the form; key, status and price are those of
    the instance. *)
Theorem BookingForm_save_numbers_passengers
  (form : BookingForm) (instance : Booking.t) :
  let booking := BookingForm_save form instance in
  (Booking.passenger_details booking).*1 = passenger_names form
  /\ (Booking.passenger_details booking).*2
     = seqZ 1 (Z.of_nat (length (passenger_names form)))
  /\ (is_valid form = true ->
      (Booking.passenger_details booking).*2 = seqZ 1 (number_of_seats form)
      /\ Z.of_nat (length (Booking.passenger_details booking))
         = Booking.number_of_seats booking)
  /\ Booking.number_of_seats booking = number_of_seats form
  /\ Booking.booking_id booking = Booking.booking_id instance
  /\ Booking.status booking = Booking.status instance
  /\ Booking.total_price booking = Booking.total_price instance.
Proof.
  intros booking. subst booking. unfold BookingForm_save. simpl.
  destruct (imap_seat_numbers (passenger_names form) 0) as [H1 H2].
  simpl in H1, H2.
  split; [exact H1|]. split; [exact H2|].
  split; [|repeat split].
  intros Hv. unfold is_valid in Hv.
  rewrite !andb_true_iff in Hv. destruct Hv as [[[_ Hlen] _] _].
  apply bool_decide_eq_true in Hlen.
  split; [rewrite H2, Hlen; reflexivity|].
  rewrite length_imap. exact Hlen.
Qed.

Lemma BookingForm_save_numbers_passengers_witness :
  Booking.passenger_details
    (BookingForm_save (sample_form ["Asha"; "Ravi"]) confirmed_booking)
  = [("Asha", 1); ("Ravi", 2)].
Proof.
  destruct (BookingForm_save_numbers_passengers (sample_form ["Asha"; "Ravi"])
              confirmed_booking) as (H1 & H2 & _).
  reflexivity.
Defined.

(** ** The read-only booking views *)

(** X11. [booking_detail_view] shows a stored booking to its owner without
    changing anything: [can_cancel] is what [is_cancellable] answers and the
    refund shown is what [get_refund_amount] answers, which is 0 whenever the
    booking cannot be cancelled.  For another user's booking, or an unknown
    key, it raises a 404. *)
Theorem booking_detail_view_shows_quote
  (self : Booking.t) (t : TravelOption.t) (w : World) (pk k u other : N) (p : Z)
  (method : Method)
  (Hstored : bookings w !! pk = Some self)
  (Huser : Booking.user self = Some u)
  (Hfk : Booking.travel_option self = Some k)
  (Hrow : travel_options w !! k = Some t)
  (Hprice : Booking.total_price self = Some p) :
  exists c r,
    is_cancellable self w = Ok c w
    /\ get_refund_amount self w = Ok r w
    /\ booking_detail_view (MkRequest (Some u) method tt) pk w
       = Ok (detail_render self c r) w
    /\ (c = false -> r = 0%number)
    /\ (other <> u ->
        booking_detail_view (MkRequest (Some other) method tt) pk w
        = Raise Http404 w).
Proof.
  pose proof (is_cancellable_run self t w k Hfk Hrow) as Hc.
  pose proof (get_refund_amount_run self t w k Hfk Hrow p Hprice) as Hr.
  do 2 eexists. split; [exact Hc|]. split; [exact Hr|].
  split; [|split].
  - unfold booking_detail_view. simpl.
    rewrite (bind_Ok _ _ _ _ _ (get_Booking_or_404_run self w pk u Hstored Huser)).
    rewrite (bind_Ok _ _ _ _ _ Hc). rewrite (bind_Ok _ _ _ _ _ Hc).
    destruct (bool_decide (Booking.status self = CONFIRMED)
              && (2 * hour <? TravelOption.departure_time t - clock w)) eqn:E.
    + rewrite (bind_Ok _ _ _ _ _ Hr). reflexivity.
    + reflexivity.
  - intros E. rewrite E. reflexivity.
  - intros Hne. unfold booking_detail_view. simpl.
    unfold bind, get_Booking_or_404. rewrite Hstored.
    destruct (decide (Booking.user self = Some other)) as [E|E];
      [congruence | reflexivity].
Qed.

Lemma booking_detail_view_shows_quote_witness :
  exists r,
    booking_detail_view (MkRequest (Some 9%N) GET tt) 5%N
      (world_before_departure 30)
    = Ok (detail_render confirmed_booking true r) (world_before_departure 30)
    /\ r = nearest_float 900 1.
Proof.
  destruct (booking_detail_view_shows_quote confirmed_booking
              (sold_out_flight 30) (world_before_departure 30)
              5%N 1%N 9%N 8%N 100000 GET
              eq_refl eq_refl eq_refl eq_refl eq_refl)
    as (c & r & Hc & Hr & Hview & _).
  assert (Ec : Ok c (world_before_departure 30)
               = Ok true (world_before_departure 30))
    by (rewrite <- Hc; vm_compute; reflexivity).
  assert (Er : Ok r (world_before_departure 30)
               = Ok (nearest_float 900 1) (world_before_departure 30))
    by (rewrite <- Hr; vm_compute; reflexivity).
  exists r. split.
  - rewrite Hview. congruence.
  - congruence.
Defined.

(** X12. The refund reported is not the refund quoted.  For a CONFIRMED
    booking with a positive price, more than two hours before departure,
    [booking_detail_view] quotes a positive refund (the tier amount, a
    float that is greater than 0 and not less than the 25% product), while
    [cancel_booking_view], run in the same world, reports a refund of 0 in
    its success message: it asks for the amount after the status has become
    CANCELLED. *)
Theorem refund_quoted_but_zero_reported
  (self : Booking.t) (t : TravelOption.t) (w : World) (pk k u : N) (p : Z)
  (reason : string)
  (Hstored : bookings w !! pk = Some self)
  (Hpk : Booking.booking_id self = Some pk)
  (Huser : Booking.user self = Some u)
  (Hfk : Booking.travel_option self = Some k)
  (Hrow : travel_options w !! k = Some t)
  (Hid : TravelOption.travel_id t = k)
  (Hprice : Booking.total_price self = Some p)
  (Hpositive : 0 < p)
  (Hconfirmed : Booking.status self = CONFIRMED)
  (Hwindow : 2 * hour < TravelOption.departure_time t - clock w) :
  exists quoted w',
    booking_detail_view (MkRequest (Some u) GET tt) pk w
    = Ok (detail_render self true quoted) w
    /\ SFltb 0%number quoted = true
    /\ SFleb (float_mul (nearest_float p 100) (nearest_float 1 4)) quoted = true
    /\ cancel_booking_view (MkRequest (Some u) POST reason) pk w
       = Ok (redirect my_bookings (success_booking_cancelled 0)) w'.
Proof.
  destruct (cancel_booking_view_run self t w pk k u p reason Hstored Hpk Huser
              Hfk Hrow Hid Hprice Hconfirmed Hwindow)
    as (self' & t' & w' & Hview & _).
  pose proof (is_cancellable_run self t w k Hfk Hrow) as Hc.
  pose proof (get_refund_amount_run self t w k Hfk Hrow p Hprice) as Hr.
  rewrite (bool_decide_eq_true_2 _ Hconfirmed) in Hc, Hr.
  replace (2 * hour <? TravelOption.departure_time t - clock w) with true
    in Hc, Hr by (symmetry; apply Z.ltb_lt; exact Hwindow).
  simpl in Hc, Hr.
  eexists. exists w'. split; [|split; [|split; [|exact Hview]]].
  - unfold booking_detail_view. simpl.
    rewrite (bind_Ok _ _ _ _ _ (get_Booking_or_404_run self w pk u Hstored Huser)).
    rewrite (bind_Ok _ _ _ _ _ Hc). rewrite (bind_Ok _ _ _ _ _ Hc).
    rewrite (bind_Ok _ _ _ _ _ Hr). reflexivity.
  - destruct (refund_amounts_positive p Hpositive) as (H1 & H2 & H3).
    destruct (24 * hour <? TravelOption.departure_time t - clock w);
      [|destruct (6 * hour <? TravelOption.departure_time t - clock w)];
      assumption.
  - destruct (refund_amounts_ordered p ltac:(lia))
      as (_ & (H1 & H2 & H3) & _).
    destruct (24 * hour <? TravelOption.departure_time t - clock w);
      [|destruct (6 * hour <? TravelOption.departure_time t - clock w)];
      assumption.
Qed.

Lemma refund_quoted_but_zero_reported_witness :
  exists quoted w',
    booking_detail_view (MkRequest (Some 9%N) GET tt) 5%N
      (world_before_departure 30)
    = Ok (detail_render confirmed_booking true quoted)
         (world_before_departure 30)
    /\ SFltb 0%number quoted = true
    /\ cancel_booking_view (MkRequest (Some 9%N) POST "plans changed") 5%N
         (world_before_departure 30)
       = Ok (redirect my_bookings (success_booking_cancelled 0)) w'.
Proof.
  destruct (refund_quoted_but_zero_reported confirmed_booking
              (sold_out_flight 30) (world_before_departure 30)
              5%N 1%N 9%N 100000 "plans changed"
              eq_refl eq_refl eq_refl eq_refl eq_refl eq_refl eq_refl
              ltac:(lia) eq_refl ltac:(vm_compute; reflexivity))
    as (q & w' & Hd & Hq & _ & Hc).
  exists q, w'. split; [exact Hd|]. split; [exact Hq | exact Hc].
Defined.

(** X13. The confirmation page is open for one hour.  After
    [book_travel_view] has accepted a request (the table taking the new
    row: no row has the key drawn or the reference generated), the same
    user asking [booking_confirmation_view] for the new booking when the
    clock reads [later] gets the confirmation page if at most 3600 seconds
    have passed since the booking was made, and is redirected to the booking
    detail otherwise; nothing is changed. *)
Theorem booking_confirmation_view_open_one_hour
  (request : Request BookingForm) (pk user : N) (t : TravelOption.t) (w : World)
  (later : Z) (method : Method)
  (Huser : req_user request = Some user)
  (Hpost : req_method request = POST)
  (Hvalid : is_valid (req_POST request) = true)
  (Hrow : travel_options w !! pk = Some t)
  (Hid : TravelOption.travel_id t = pk)
  (Hactive : TravelOption.status t = ACTIVE)
  (Hfits : number_of_seats (req_POST request) <= TravelOption.available_seats t)
  (Hinsert : insert_accepted t (number_of_seats (req_POST request)) w) :
  exists key b response w',
    book_travel_view request pk w = Ok response w'
    /\ bookings w' !! key = Some b
    /\ (later - clock w <= 3600 * 1000000 ->
        booking_confirmation_view (MkRequest (Some user) method tt) key
          (set_clock later w')
        = Ok (confirmation_render b) (set_clock later w'))
    /\ (3600 * 1000000 < later - clock w ->
        booking_confirmation_view (MkRequest (Some user) method tt) key
          (set_clock later w')
        = Ok (confirmation_redirect_detail key) (set_clock later w')).
Proof.
  destruct (book_travel_view_accepts_tables request pk user t w Huser Hpost
              Hvalid Hrow Hid Hactive Hfits Hinsert)
    as (b & t' & w' & Hview & Hbk & _ & _ & _ & Hu & _ & _ & _ & _ & Hdate & _).
  exists (entropy w (drawn w)), b. eexists. exists w'.
  split; [exact Hview|].
  assert (Hstored : bookings (set_clock later w') !! entropy w (drawn w) = Some b)
    by (simpl; rewrite Hbk; apply lookup_insert_eq).
  split; [exact (eq_trans (f_equal (fun m => m !! entropy w (drawn w)) Hbk)
                   (lookup_insert_eq _ _ _))|].
  split; intros Hlate; unfold booking_confirmation_view; simpl;
    rewrite (bind_Ok _ _ _ _ _ (get_Booking_or_404_run b (set_clock later w')
                                  (entropy w (drawn w)) user Hstored Hu));
    unfold bind, timezone_now; simpl; rewrite Hdate;
    rewrite (Qgtb_total_seconds _ 3600).
  - replace (3600 * 1000000 <? later - clock w) with false
      by (symmetry; apply Z.ltb_ge; exact Hlate).
    reflexivity.
  - replace (3600 * 1000000 <? later - clock w) with true
      by (symmetry; apply Z.ltb_lt; exact Hlate).
    reflexivity.
Qed.

Lemma booking_confirmation_view_open_one_hour_witness :
  exists key b response w',
    book_travel_view request_two_seats 1%N (sample_world free_flight 0)
    = Ok response w'
    /\ bookings w' !! key = Some b
    /\ booking_confirmation_view (MkRequest (Some 9%N) GET tt) key
         (set_clock (2 * hour) w')
       = Ok (confirmation_redirect_detail key) (set_clock (2 * hour) w').
Proof.
  destruct (booking_confirmation_view_open_one_hour request_two_seats 1%N 9%N
              free_flight (sample_world free_flight 0) (2 * hour) GET
              eq_refl eq_refl eq_refl eq_refl eq_refl eq_refl
              ltac:(simpl; lia) ltac:(split; [reflexivity|split; vm_compute; reflexivity]))
    as (key & b & response & w' & Hrun & Hb & _ & Hlate).
  exists key, b, response, w'. split; [exact Hrun|]. split; [exact Hb|].
  apply Hlate. vm_compute. reflexivity.
Defined.

(** X14. A ticket cannot be downloaded for a booking that
    [book_travel_view] has accepted (the table taking the new row): the
    booking is stored as PENDING, and
    [download_ticket_view] refuses every booking whose status is not
    CONFIRMED, at any time, without changing anything.  Once the booking has
    been confirmed the very same request is served the ticket. *)
Theorem booked_through_view_has_no_ticket
  (request : Request BookingForm) (pk user : N) (t : TravelOption.t) (w : World)
  (later : Z) (method : Method)
  (Huser : req_user request = Some user)
  (Hpost : req_method request = POST)
  (Hvalid : is_valid (req_POST request) = true)
  (Hrow : travel_options w !! pk = Some t)
  (Hid : TravelOption.travel_id t = pk)
  (Hactive : TravelOption.status t = ACTIVE)
  (Hfits : number_of_seats (req_POST request) <= TravelOption.available_seats t)
  (Hinsert : insert_accepted t (number_of_seats (req_POST request)) w) :
  exists key b response w' b2 w2,
    book_travel_view request pk w = Ok response w'
    /\ bookings w' !! key = Some b
    /\ download_ticket_view (MkRequest (Some user) method tt) key
         (set_clock later w')
       = Ok (download_refused key) (set_clock later w')
    /\ confirm b w' = Ok (true, b2) w2
    /\ download_ticket_view (MkRequest (Some user) method tt) key
         (set_clock later w2)
       = Ok (download_pdf b2) (set_clock later w2).
Proof.
  destruct (book_travel_view_accepts_tables request pk user t w Huser Hpost
              Hvalid Hrow Hid Hactive Hfits Hinsert)
    as (b & t' & w' & Hview & Hbk & Hto & _ & Hpk & Hu & Hf & Hst & _ & Htp
        & _).
  set (key := entropy w (drawn w)) in *.
  assert (Hrow' : travel_options w' !! pk = Some t')
    by (rewrite Hto; apply lookup_insert_eq).
  destruct (confirm_pending_frame b t' w' key pk user _ Hpk Hu Hf Hrow' Htp Hst)
    as (b2 & w2 & Hconf & Hst2 & _ & Hu2 & _ & _ & _ & _ & _ & _ & Hbk2 & _).
  exists key, b. eexists. exists w', b2, w2.
  split; [exact Hview|].
  split; [rewrite Hbk; apply lookup_insert_eq|].
  split; [|split; [exact Hconf|]].
  - unfold download_ticket_view. simpl.
    rewrite (bind_Ok _ _ _ _ _
               (get_Booking_or_404_run b (set_clock later w') key user
                  ltac:(simpl; rewrite Hbk; apply lookup_insert_eq) Hu)).
    destruct (decide (Booking.status b <> CONFIRMED)) as [_|E];
      [reflexivity|].
    exfalso. apply E. rewrite Hst. discriminate.
  - unfold download_ticket_view. simpl.
    rewrite (bind_Ok _ _ _ _ _
               (get_Booking_or_404_run b2 (set_clock later w2) key user
                  ltac:(simpl; rewrite Hbk2; apply lookup_insert_eq) Hu2)).
    destruct (decide (Booking.status b2 <> CONFIRMED)) as [E|_];
      [contradiction | reflexivity].
Qed.

Lemma booked_through_view_has_no_ticket_witness :
  exists key b response w',
    book_travel_view request_two_seats 1%N (sample_world free_flight 0)
    = Ok response w'
    /\ bookings w' !! key = Some b
    /\ download_ticket_view (MkRequest (Some 9%N) GET tt) key
         (set_clock hour w')
       = Ok (download_refused key) (set_clock hour w').
Proof.
  destruct (booked_through_view_has_no_ticket request_two_seats 1%N 9%N
              free_flight (sample_world free_flight 0) hour GET
              eq_refl eq_refl eq_refl eq_refl eq_refl eq_refl
              ltac:(simpl; lia)
              ltac:(split; [reflexivity|split; vm_compute; reflexivity]))
    as (key & b & response & w' & b2 & w2 & Hrun & Hb & Href & _).
  exists key, b, response, w'. tauto.
Defined.

(** ** Phone numbers *)

Lemma remove_char_idem (c : ascii) (s : string) :
  remove_char c (remove_char c s) = remove_char c s.
Proof.
  induction s as [|a s IH]; simpl; [reflexivity|].
  destruct (Ascii.eqb a c) eqn:E; simpl; [exact IH|].
  rewrite E, IH. reflexivity.
Qed.

Lemma remove_char_comm (c d : ascii) (s : string) :
  remove_char c (remove_char d s) = remove_char d (remove_char c s).
Proof.
  induction s as [|a s IH]; simpl; [reflexivity|].
  destruct (Ascii.eqb a d) eqn:Ed; destruct (Ascii.eqb a c) eqn:Ec; simpl;
    rewrite ?Ed, ?Ec, IH; reflexivity.
Qed.

Lemma span_digits_spec (s : string) :
  s = (fst (span_digits s) ++ snd (span_digits s))%string
  /\ all_digits (fst (span_digits s)) = true.
Proof.
  induction s as [|a s [IH1 IH2]]; simpl; [split; reflexivity|].
  destruct (is_digit a) eqn:E.
  - destruct (span_digits s) as [digits rest]. simpl in *.
    split; [rewrite IH1 at 1; reflexivity | cbn; rewrite E; exact IH2].
  - split; reflexivity.
Qed.

Lemma at_end_cases (rest : string) :
  at_end rest = true -> rest = EmptyString \/ rest = String newline EmptyString.
Proof.
  destruct rest as [|a [|b r]]; simpl; intros H; try discriminate.
  - left. reflexivity.
  - right. apply Ascii.eqb_eq in H. rewrite H. reflexivity.
Qed.

(** What a string that matches the phone pattern looks like. *)
Lemma match_phone_shape (s : string) :
  match_phone s = true ->
  exists plus digits nl,
    s = (plus ++ digits ++ nl)%string
    /\ (plus = EmptyString \/ plus = "+"%string)
    /\ (nl = EmptyString \/ nl = String newline EmptyString)
    /\ all_digits digits = true
    /\ (10 <= String.length digits <= 15)%nat.
Proof.
  unfold match_phone.
  set (s1 := match s with String "+" r => r | _ => s end).
  assert (Hs : exists plus, s = (plus ++ s1)%string
                            /\ (plus = EmptyString \/ plus = "+"%string)).
  { subst s1. destruct s as [|a r]; [exists EmptyString; auto|].
    destruct (Ascii.eqb a "+") eqn:E.
    - apply Ascii.eqb_eq in E. subst a. exists "+"%string. auto.
    - exists EmptyString. split; [|auto].
      destruct a as [[] [] [] [] [] [] [] []]; try reflexivity; discriminate. }
  destruct Hs as (plus & Hs & Hplus).
  destruct (span_digits_spec s1) as [Happ Hdig].
  destruct (span_digits s1) as [digits rest]. cbn [fst snd] in *.
  rewrite !andb_true_iff, !Nat.leb_le.
  intros [[H10 H15] Hend].
  exists plus, digits, rest.
  split; [etransitivity; [exact Hs|]; f_equal; exact Happ|].
  split; [exact Hplus|]. split; [apply at_end_cases; exact Hend|].
  split; [exact Hdig|]. split; assumption.
Qed.

Lemma clean_contact_phone_fixed (q : string) :
  match_phone q = true ->
  remove_char "-" (remove_char " " q) = q ->
  clean_contact_phone (Some q) = Valid (Some q).
Proof.
  intros Hm Hfix. destruct q as [|b q']; [discriminate Hm|].
  unfold clean_contact_phone. cbv zeta. rewrite Hfix, Hm. reflexivity.
Qed.

(** X16. A phone number is accepted only if, once spaces and hyphens are
    removed, it is an optional [+], then 10 to 15 digits, then nothing or one
    final newline; the cleaned value is that string, without space or
    hyphen, and cleaning it again returns it unchanged.  The booking form
    and the profile form clean a phone number in the same way. *)
Theorem clean_contact_phone_shape_and_idempotence (phone q : string)
  (Hgiven : phone <> EmptyString)
  (Hvalid : clean_contact_phone (Some phone) = Valid (Some q)) :
  q = remove_char "-" (remove_char " " phone)
  /\ (exists plus digits nl,
        q = (plus ++ digits ++ nl)%string
        /\ (plus = EmptyString \/ plus = "+"%string)
        /\ (nl = EmptyString \/ nl = String newline EmptyString)
        /\ all_digits digits = true
        /\ (10 <= String.length digits <= 15)%nat)
  /\ clean_contact_phone (Some q) = Valid (Some q)
  /\ clean_phone_number (Some phone) = Valid (Some q).
Proof.
  destruct phone as [|a r]; [contradiction|].
  unfold clean_contact_phone in Hvalid. cbv zeta in Hvalid.
  destruct (match_phone (remove_char "-" (remove_char " " (String a r))))
    eqn:Hm; simpl in Hvalid; [|discriminate].
  inversion Hvalid as [Hq]. clear Hvalid. subst q.
  set (q := remove_char "-" (remove_char " " (String a r))) in *.
  split; [reflexivity|]. split; [exact (match_phone_shape q Hm)|].
  assert (Hfix : remove_char "-" (remove_char " " q) = q).
  { subst q.
    rewrite (remove_char_comm " " "-" (remove_char " " (String a r))).
    rewrite !remove_char_idem. reflexivity. }
  split.
  - exact (clean_contact_phone_fixed q Hm Hfix).
  - unfold clean_phone_number. cbv zeta. fold q. rewrite Hm. reflexivity.
Qed.

Lemma clean_contact_phone_shape_and_idempotence_witness :
  clean_contact_phone (Some "+91 98765-43210"%string)
  = Valid (Some "+919876543210"%string)
  /\ clean_contact_phone (Some "+919876543210"%string)
     = Valid (Some "+919876543210"%string).
Proof.
  assert (H : clean_contact_phone (Some "+91 98765-43210"%string)
              = Valid (Some "+919876543210"%string)) by reflexivity.
  destruct (clean_contact_phone_shape_and_idempotence
              "+91 98765-43210" "+919876543210" ltac:(discriminate) H)
    as (_ & _ & Hidem & _).
  split; [exact H | exact Hidem].
Defined.

(** A number with a letter, with nine digits or with sixteen is refused; one
    that ends in a newline is accepted with the newline kept. *)
Example clean_contact_phone_examples :
  clean_contact_phone (Some "98765x43210"%string)
  = Invalid "Enter a valid phone number"
  /\ clean_contact_phone (Some "987654321"%string)
     = Invalid "Enter a valid phone number"
  /\ clean_contact_phone (Some "1234567890123456"%string)
     = Invalid "Enter a valid phone number"
  /\ clean_contact_phone (Some (String.append "9876543210" (String newline "")))
     = Valid (Some (String.append "9876543210" (String newline ""))).
Proof. repeat split; reflexivity. Qed.

(** ** Passenger names *)

Lemma lstrip_starts_clean (s : string) :
  lstrip s = EmptyString
  \/ exists a s', lstrip s = String a s' /\ is_space a = false.
Proof.
  induction s as [|a s IH]; simpl; [left; reflexivity|].
  destruct (is_space a) eqn:E; [exact IH|].
  right. exists a, s. split; [reflexivity | exact E].
Qed.

Lemma lstrip_clean (a : ascii) (s : string) :
  is_space a = false -> lstrip (String a s) = String a s.
Proof. intros E. simpl. rewrite E. reflexivity. Qed.

Lemma rstrip_ends_clean (s : string) :
  rstrip s = EmptyString
  \/ exists z, last_char (rstrip s) = Some z /\ is_space z = false.
Proof.
  induction s as [|a s IH]; simpl; [left; reflexivity|].
  destruct (rstrip s) as [|b r] eqn:Er.
  - destruct (is_space a) eqn:E; [left; reflexivity|].
    right. exists a. split; [reflexivity | exact E].
  - right. destruct IH as [IH|(z & Hz & Ez)]; [discriminate|].
    exists z. split; [|exact Ez]. simpl in *. exact Hz.
Qed.

Lemma rstrip_clean (s : string) (z : ascii) :
  last_char s = Some z -> is_space z = false -> rstrip s = s.
Proof.
  induction s as [|a s IH]; intros Hl Hz; [discriminate|].
  destruct s as [|b s'].
  - simpl in *. inversion Hl; subst. rewrite Hz. reflexivity.
  - assert (H : rstrip (String b s') = String b s') by (apply IH; assumption).
    change (rstrip (String a (String b s')))
      with (match rstrip (String b s') with
            | EmptyString =>
                if is_space a then EmptyString else String a EmptyString
            | r => String a r
            end).
    rewrite H. reflexivity.
Qed.

Lemma last_char_lstrip (s : string) (a : ascii) (s' : string) :
  lstrip s = String a s' -> last_char (lstrip s) = last_char s.
Proof.
  induction s as [|b s IH]; simpl; [discriminate|].
  destruct (is_space b) eqn:E.
  - intros H. rewrite (IH H). destruct s; [discriminate H | reflexivity].
  - intros _. reflexivity.
Qed.

Lemma has_char_lstrip (c : ascii) (s : string) :
  has_char c s = false -> has_char c (lstrip s) = false.
Proof.
  induction s as [|a s IH]; simpl; [reflexivity|].
  intros H. apply orb_false_iff in H. destruct H as [H1 H2].
  destruct (is_space a); [apply IH; exact H2|].
  simpl. rewrite H1, H2. reflexivity.
Qed.

Lemma has_char_rstrip (c : ascii) (s : string) :
  has_char c s = false -> has_char c (rstrip s) = false.
Proof.
  induction s as [|a s IH]; simpl; [reflexivity|].
  intros H. apply orb_false_iff in H. destruct H as [H1 H2].
  specialize (IH H2).
  destruct (rstrip s) as [|b r].
  - destruct (is_space a); simpl; [reflexivity | rewrite H1; reflexivity].
  - simpl in *. rewrite H1. exact IH.
Qed.

(** A stripped string is empty or trimmed, if it had no newline. *)
Lemma strip_trimmed (s : string) :
  has_char newline s = false ->
  nonempty (strip s) = true -> trimmed_name (strip s).
Proof.
  intros Hnl Hne. unfold strip in *.
  destruct (lstrip_starts_clean (rstrip s)) as [E|(a & s' & E & Ea)];
    [rewrite E in Hne; discriminate|].
  split; [exists a, s'; split; assumption|].
  split.
  - rewrite (last_char_lstrip _ a s' E).
    destruct (rstrip_ends_clean s) as [E0|H]; [|exact H].
    rewrite E0 in E. discriminate.
  - apply has_char_lstrip, has_char_rstrip. exact Hnl.
Qed.

Lemma strip_of_trimmed (s : string) : trimmed_name s -> strip s = s.
Proof.
  intros ((a & s' & Hs & Ea) & (z & Hz & Ez) & _). unfold strip.
  rewrite (rstrip_clean s z Hz Ez). subst s. apply lstrip_clean. exact Ea.
Qed.

Lemma split_on_pieces (c : ascii) (s : string) :
  Forall (fun piece => has_char c piece = false) (split_on c s)
  /\ split_on c s <> [].
Proof.
  induction s as [|a s [IH1 IH2]]; simpl.
  - split; [repeat constructor | discriminate].
  - destruct (Ascii.eqb a c) eqn:E.
    + split; [constructor; [reflexivity | exact IH1] | discriminate].
    + destruct (split_on c s) as [|piece pieces]; [contradiction|].
      inversion IH1; subst.
      split; [|discriminate]. constructor; [|assumption].
      simpl. rewrite E. assumption.
Qed.

Lemma split_on_join (c : ascii) (pieces : list string) :
  pieces <> [] ->
  Forall (fun piece => has_char c piece = false) pieces ->
  split_on c (join_with c pieces) = pieces.
Proof.
  assert (Hone : forall s, has_char c s = false -> split_on c s = [s]).
  { induction s as [|a s IH]; simpl; [reflexivity|].
    intros H. apply orb_false_iff in H. destruct H as [H1 H2].
    rewrite H1, (IH H2). reflexivity. }
  assert (Happ : forall s rest, has_char c s = false ->
            split_on c (s ++ String c rest) = s :: split_on c rest).
  { induction s as [|a s IH]; intros rest H.
    - change (split_on c (String c rest) = EmptyString :: split_on c rest).
      simpl. rewrite Ascii.eqb_refl. reflexivity.
    - simpl in H. apply orb_false_iff in H. destruct H as [H1 H2].
      change (split_on c (String a (s ++ String c rest))
              = String a s :: split_on c rest).
      simpl. rewrite H1, (IH rest H2). reflexivity. }
  induction pieces as [|p ps IH]; intros Hne Hall; [contradiction|].
  inversion Hall; subst.
  destruct ps as [|p2 ps'].
  - simpl. apply Hone. assumption.
  - change (split_on c (p ++ String c (join_with c (p2 :: ps')))
            = p :: p2 :: ps').
    rewrite Happ by assumption. f_equal. apply IH; [discriminate | assumption].
Qed.

Lemma cleaned_names_trimmed (pieces : list string) :
  Forall (fun piece => has_char newline piece = false) pieces ->
  Forall trimmed_name
    (List.map strip
       (List.filter (fun name => nonempty (strip name)) pieces)).
Proof.
  induction 1 as [|piece pieces Hp _ IH]; simpl; [constructor|].
  destruct (nonempty (strip piece)) eqn:Hne; [|exact IH].
  simpl. constructor; [apply strip_trimmed; assumption | exact IH].
Qed.

Lemma cleaned_names_fixed (names : list string) :
  Forall trimmed_name names ->
  List.map strip (List.filter (fun name => nonempty (strip name)) names)
  = names.
Proof.
  induction 1 as [|x xs Hx _ IH]; simpl; [reflexivity|].
  pose proof (strip_of_trimmed x Hx) as Hsx. rewrite Hsx.
  destruct Hx as ((a & s' & Hs & _) & _).
  replace (nonempty x) with true by (rewrite Hs; reflexivity).
  simpl. rewrite IH, Hsx. reflexivity.
Qed.

(** X17. The passenger names that [clean_passenger_names] accepts are the
    non-blank lines of the text, each without white space at either end and
    without a newline inside, and there are exactly [number_of_seats] of them
    (0 when that field did not validate); blank lines are skipped.
    Conversely, a list of such names written one per line, with as many
    seats, is accepted and comes back unchanged. *)
Theorem clean_passenger_names_trims_and_counts :
  (forall (text : string) (seats : option Z) (names : list string),
      clean_passenger_names text seats = Valid names ->
      Z.of_nat (length names) = default 0 seats
      /\ Forall trimmed_name names)
  /\ (forall names : list string,
        Forall trimmed_name names ->
        clean_passenger_names (join_with newline names)
          (Some (Z.of_nat (length names)))
        = Valid names).
Proof.
  split.
  - intros text seats names. unfold clean_passenger_names. cbv zeta.
    destruct (Z.eqb_spec
                (Z.of_nat (length (List.map strip
                   (List.filter (fun name => nonempty (strip name))
                      (split_on newline text)))))
                (default 0 seats)) as [E|E]; simpl; [|discriminate].
    intros H. inversion H; subst. split; [exact E|].
    apply cleaned_names_trimmed. apply split_on_pieces.
  - intros names Hall. unfold clean_passenger_names. cbv zeta.
    assert (Hnames :
      List.map strip
        (List.filter (fun name => nonempty (strip name))
           (split_on newline (join_with newline names))) = names).
    { destruct names as [|n0 ns]; [reflexivity|].
      rewrite split_on_join;
        [apply cleaned_names_fixed; exact Hall
        | discriminate
        | eapply Forall_impl; [exact Hall|]; intros x (_ & _ & Hx); exact Hx]. }
    rewrite Hnames. simpl. rewrite Z.eqb_refl. reflexivity.
Qed.

Lemma clean_passenger_names_trims_and_counts_witness :
  clean_passenger_names (join_with newline ["Asha"; "Ravi"]%string) (Some 2)
  = Valid ["Asha"; "Ravi"]%string.
Proof.
  destruct clean_passenger_names_trims_and_counts as [_ H].
  apply (H ["Asha"; "Ravi"]%string).
  repeat constructor; try (do 2 eexists; split; reflexivity);
    eexists; split; reflexivity.
Defined.

(** Blank lines and surrounding blanks are dropped; a wrong count is
    refused with the count asked for. *)
Example clean_passenger_names_examples :
  clean_passenger_names
    (String.append "  Asha " (String newline (String newline " Ravi")))
    (Some 2)
  = Valid ["Asha"; "Ravi"]%string
  /\ clean_passenger_names "Asha" (Some 2)
     = Invalid "Please enter exactly 2 passenger name(s)"
  /\ clean_passenger_names "Asha" None
     = Invalid "Please enter exactly 0 passenger name(s)".
Proof. repeat split; reflexivity. Qed.

(** ** Listings *)

#[global] Instance by_departure_total : Total by_departure.
Proof. intros a b. unfold by_departure. lia. Qed.

#[global] Instance by_departure_transitive : Transitive by_departure.
Proof. intros a b c. unfold by_departure. lia. Qed.

(** The rows of a query are the stored rows that pass the filter, in order
    of departure. *)
Lemma elem_of_query_by_departure
  (rows : gmap N TravelOption.t) (keep : TravelOption.t -> bool)
  (t : TravelOption.t) :
  t ∈ query_by_departure rows keep
  <-> keep t = true /\ exists k, rows !! k = Some t.
Proof.
  unfold query_by_departure.
  rewrite merge_sort_Permutation, list_elem_of_In, List.filter_In,
    <- list_elem_of_In, list_elem_of_fmap.
  split.
  - intros [([k t'] & -> & Hin) Hk]. split; [exact Hk|].
    exists k. apply elem_of_map_to_list. exact Hin.
  - intros [Hk (k & Hrow)]. split; [|exact Hk].
    exists (k, t). split; [reflexivity|]. apply elem_of_map_to_list. exact Hrow.
Qed.

Lemma query_by_departure_sorted
  (rows : gmap N TravelOption.t) (keep : TravelOption.t -> bool) :
  StronglySorted by_departure (query_by_departure rows keep).
Proof. apply StronglySorted_merge_sort; apply _. Qed.

Lemma query_by_departure_ext
  (rows : gmap N TravelOption.t) (keep keep' : TravelOption.t -> bool) :
  (forall t, keep t = keep' t) ->
  query_by_departure rows keep = query_by_departure rows keep'.
Proof.
  intros H. unfold query_by_departure. f_equal. apply List.filter_ext. exact H.
Qed.

Lemma get_page_within {A} (l : list A) (per_page : nat) (number : option Z) :
  (length (get_page l per_page number) <= per_page)%nat
  /\ forall x, x ∈ get_page l per_page number -> x ∈ l.
Proof.
  unfold get_page. cbv zeta. split.
  - rewrite length_take. lia.
  - intros x Hx. apply elem_of_take in Hx. destruct Hx as (i & Hi & _).
    rewrite lookup_drop in Hi. eapply list_elem_of_lookup_2. exact Hi.
Qed.

Section ListingProperties.

Variable icontains : string -> string -> bool.
Variable date_of : Z -> Z.

(** X18. [travel_list_view] never lists an option that is not ACTIVE or that
    has already left, whatever the search says.  It reads the tables without
    changing them; the options found are exactly the stored rows that pass
    the filters, in order of departure; [total_results] is their number and
    the page shown holds at most 9 of them. *)
Theorem travel_list_view_lists_active_upcoming
  (form : TravelSearchForm) (page : option Z) (w : World) :
  let travels := travel_list_travels icontains date_of form w in
  exists context,
    travel_list_view icontains date_of form page w = Ok context w
    /\ total_results context = length travels
    /\ (length (page_obj context) <= 9)%nat
    /\ (forall t, t ∈ page_obj context -> t ∈ travels)
    /\ (forall t, t ∈ travels <->
                  travel_list_keep icontains date_of form (clock w) t = true
                  /\ exists k, travel_options w !! k = Some t)
    /\ (forall t, t ∈ travels ->
                  TravelOption.status t = ACTIVE
                  /\ clock w <= TravelOption.departure_time t)
    /\ StronglySorted by_departure travels.
Proof.
  intros travels. eexists. split; [reflexivity|]. simpl.
  split; [reflexivity|].
  destruct (get_page_within travels 9 page) as [Hlen Hin].
  split; [exact Hlen|]. split; [exact Hin|].
  split; [intros t; apply elem_of_query_by_departure|].
  split; [|apply query_by_departure_sorted].
  intros t Ht. apply elem_of_query_by_departure in Ht. destruct Ht as [Hk _].
  unfold travel_list_keep in Hk. rewrite !andb_true_iff in Hk.
  destruct Hk as [[Hdep _] Hact].
  apply Z.leb_le in Hdep. apply bool_decide_eq_true in Hact. tauto.
Qed.

(** X19. A search that does not validate is ignored, not refused: when the
    form is invalid (unparsable fields, "from" date after "to" date, or a
    minimum price above the maximum) [travel_list_view] shows what it shows
    for a blank search, that is every ACTIVE option that has not left. *)
Theorem travel_list_view_ignores_invalid_search
  (form : TravelSearchForm) (page : option Z) (w : World)
  (Hinvalid : TravelSearchForm_is_valid form = false) :
  exists context blank,
    travel_list_view icontains date_of form page w = Ok context w
    /\ travel_list_view icontains date_of blank_search page w = Ok blank w
    /\ page_obj context = page_obj blank
    /\ total_results context = total_results blank
    /\ forall t, t ∈ travel_list_travels icontains date_of form w <->
                 (exists k, travel_options w !! k = Some t)
                 /\ TravelOption.status t = ACTIVE
                 /\ clock w <= TravelOption.departure_time t.
Proof.
  assert (Hsame : travel_list_travels icontains date_of form w
                  = travel_list_travels icontains date_of blank_search w).
  { apply query_by_departure_ext. intros t. unfold travel_list_keep.
    rewrite Hinvalid. reflexivity. }
  do 2 eexists. split; [reflexivity|]. split; [reflexivity|]. simpl.
  rewrite Hsame. split; [reflexivity|]. split; [reflexivity|].
  intros t. unfold travel_list_travels.
  rewrite elem_of_query_by_departure. unfold travel_list_keep. simpl.
  rewrite !andb_true_iff, Z.leb_le, bool_decide_eq_true. tauto.
Qed.

End ListingProperties.

Lemma travel_list_view_lists_active_upcoming_witness :
  exists context,
    travel_list_view sample_icontains sample_date_of blank_search None
      (sample_world free_flight 0)
    = Ok context (sample_world free_flight 0)
    /\ total_results context = 1%nat
    /\ page_obj context = [free_flight].
Proof.
  destruct (travel_list_view_lists_active_upcoming sample_icontains
              sample_date_of blank_search None (sample_world free_flight 0))
    as (context & Hrun & Htotal & _).
  exists context. split; [exact Hrun|].
  split; [rewrite Htotal; vm_compute; reflexivity|].
  assert (E : Ok context (sample_world free_flight 0)
              = Ok (MkTravelListContext [free_flight] blank_search 1)
                   (sample_world free_flight 0))
    by (rewrite <- Hrun; vm_compute; reflexivity).
  inversion E. reflexivity.
Defined.

Lemma travel_list_view_ignores_invalid_search_witness :
  exists context,
    travel_list_view sample_icontains sample_date_of inverted_dates_search
      None (sample_world free_flight 0)
    = Ok context (sample_world free_flight 0)
    /\ free_flight ∈ travel_list_travels sample_icontains sample_date_of
                       inverted_dates_search (sample_world free_flight 0).
Proof.
  destruct (travel_list_view_ignores_invalid_search sample_icontains
              sample_date_of inverted_dates_search None
              (sample_world free_flight 0) eq_refl)
    as (context & blank & Hrun & _ & _ & _ & Hin).
  exists context. split; [exact Hrun|].
  apply Hin. split; [exists 1%N; reflexivity|].
  split; [reflexivity | vm_compute; discriminate].
Defined.

(** X20. A price bound of zero counts as no bound.  Whatever the rest of
    the form, an upper price bound of 0 validates exactly when no upper bound
    does, even under a positive lower bound, and [travel_list_view] then
    lists the same options as with no upper bound (not the free ones only):
    [clean] and the view test the bounds for truth, and a zero Decimal is
    false. *)
Theorem zero_price_bound_is_no_bound
  (icontains : string -> string -> bool) (date_of : Z -> Z)
  (form : TravelSearchForm) (page : option Z) (w : World) :
  TravelSearchForm_is_valid (with_max_price (Some 0) form)
  = TravelSearchForm_is_valid (with_max_price None form)
  /\ (date_from form = None -> search_fields_ok form = true ->
      TravelSearchForm_clean (with_max_price (Some 0) form)
      = Valid (with_max_price (Some 0) form))
  /\ travel_list_travels icontains date_of (with_max_price (Some 0) form) w
     = travel_list_travels icontains date_of (with_max_price None form) w
  /\ exists context context',
       travel_list_view icontains date_of (with_max_price (Some 0) form) page w
       = Ok context w
       /\ travel_list_view icontains date_of (with_max_price None form) page w
          = Ok context' w
       /\ page_obj context = page_obj context'
       /\ total_results context = total_results context'.
Proof.
  assert (Hvalid : TravelSearchForm_is_valid (with_max_price (Some 0) form)
                   = TravelSearchForm_is_valid (with_max_price None form)).
  { unfold TravelSearchForm_is_valid, TravelSearchForm_clean. simpl.
    rewrite !andb_false_r. simpl.
    destruct (date_from form), (date_to form); try reflexivity;
      destruct (_ <? _); reflexivity. }
  assert (Hsame :
    travel_list_travels icontains date_of (with_max_price (Some 0) form) w
    = travel_list_travels icontains date_of (with_max_price None form) w).
  { apply query_by_departure_ext. intros t. unfold travel_list_keep.
    rewrite Hvalid. reflexivity. }
  split; [exact Hvalid|]. split; [|split; [exact Hsame|]].
  - intros Hd _. unfold TravelSearchForm_clean. simpl. rewrite Hd.
    rewrite !andb_false_r. reflexivity.
  - do 2 eexists. split; [reflexivity|]. split; [reflexivity|]. simpl.
    rewrite Hsame. split; reflexivity.
Qed.

Lemma zero_price_bound_is_no_bound_witness :
  TravelSearchForm_clean
    (MkTravelSearchForm None "" "" None None (Some 50000) (Some 0) true)
  = Valid (MkTravelSearchForm None "" "" None None (Some 50000) (Some 0) true)
  /\ free_flight
     ∈ travel_list_travels sample_icontains sample_date_of
         (MkTravelSearchForm None "" "" None None (Some 50000) (Some 0) true)
         (sample_world free_flight 0).
Proof.
  destruct (zero_price_bound_is_no_bound sample_icontains sample_date_of
              (MkTravelSearchForm None "" "" None None (Some 50000) None true)
              None (sample_world free_flight 0))
    as (_ & Hclean & Hsame & _).
  split; [apply Hclean; reflexivity|].
  change (free_flight
          ∈ travel_list_travels sample_icontains sample_date_of
              (with_max_price (Some 0)
                 (MkTravelSearchForm None "" "" None None (Some 50000) None
                    true))
              (sample_world free_flight 0)).
  rewrite Hsame. apply elem_of_query_by_departure.
  split; [reflexivity | exists 1%N; reflexivity].
Defined.

(** X21. The home page features at most six options, each ACTIVE and not yet
    left, in order of departure, and they are the earliest ones: any stored
    ACTIVE option that has not left and is not featured departs no earlier
    than every featured one. *)
Theorem home_view_features_earliest_six (w : World) :
  (length (home_view_featured_travels w) <= 6)%nat
  /\ StronglySorted by_departure (home_view_featured_travels w)
  /\ (forall t, t ∈ home_view_featured_travels w ->
        (exists k, travel_options w !! k = Some t)
        /\ TravelOption.status t = ACTIVE
        /\ clock w <= TravelOption.departure_time t)
  /\ (forall t other k,
        t ∈ home_view_featured_travels w ->
        travel_options w !! k = Some other ->
        TravelOption.status other = ACTIVE ->
        clock w <= TravelOption.departure_time other ->
        other ∉ home_view_featured_travels w ->
        TravelOption.departure_time t <= TravelOption.departure_time other).
Proof.
  unfold home_view_featured_travels.
  set (keep := fun t => bool_decide (TravelOption.status t = ACTIVE)
                        && (clock w <=? TravelOption.departure_time t)).
  set (l := query_by_departure (travel_options w) keep).
  pose proof (query_by_departure_sorted (travel_options w) keep) as Hsorted.
  fold l in Hsorted. rewrite <- (take_drop 6 l) in Hsorted.
  assert (Hin : forall t, t ∈ l <->
            (exists k, travel_options w !! k = Some t)
            /\ TravelOption.status t = ACTIVE
            /\ clock w <= TravelOption.departure_time t).
  { intros t. subst l. rewrite elem_of_query_by_departure. subst keep. simpl.
    rewrite andb_true_iff, Z.leb_le, bool_decide_eq_true. tauto. }
  split; [rewrite length_take; lia|].
  split; [exact (StronglySorted_app_1_l _ _ _ Hsorted)|].
  split.
  - intros t Ht. apply Hin. apply elem_of_take in Ht.
    destruct Ht as (i & Hi & _). eapply list_elem_of_lookup_2. exact Hi.
  - intros t other k Ht Hrow Hact Hdep Hnot.
    assert (Hl : other ∈ l) by (apply Hin; eauto).
    rewrite <- (take_drop 6 l) in Hl. apply elem_of_app in Hl.
    destruct Hl as [Hl|Hl]; [contradiction|].
    exact (StronglySorted_app_1_elem_of _ _ _ _ _ Hsorted Ht Hl).
Qed.

Lemma home_view_features_earliest_six_witness :
  home_view_featured_travels (sample_world free_flight 0) = [free_flight]
  /\ TravelOption.status free_flight = ACTIVE.
Proof.
  destruct (home_view_features_earliest_six (sample_world free_flight 0))
    as (_ & _ & Hin & _).
  assert (E : home_view_featured_travels (sample_world free_flight 0)
              = [free_flight]) by (vm_compute; reflexivity).
  split; [exact E|].
  apply (Hin free_flight). rewrite E. apply list_elem_of_here.
Defined.

(** ** The travel detail page *)

Lemma has_confirmed_booking_true
  (user pk kb : N) (rows : gmap N Booking.t) (b : Booking.t) :
  rows !! kb = Some b ->
  Booking.user b = Some user ->
  Booking.travel_option b = Some pk ->
  Booking.status b = CONFIRMED ->
  has_confirmed_booking user pk rows = true.
Proof.
  intros Hrow Hu Hf Hs. unfold has_confirmed_booking.
  apply existsb_exists. exists b. split.
  - apply list_elem_of_In, list_elem_of_fmap. exists (kb, b).
    split; [reflexivity|]. apply elem_of_map_to_list. exact Hrow.
  - rewrite !andb_true_iff, !bool_decide_eq_true. tauto.
Qed.

(** X22. The booking view does not look at what the detail page says.  For a
    user who already holds a CONFIRMED booking on an option,
    [travel_detail_view] reports [user_has_booking] and [can_book = False],
    yet [book_travel_view] accepts a further booking of that user on the
    same option (the option being ACTIVE with enough seats, and the table
    taking the new row). *)
Theorem book_travel_view_ignores_can_book
  (request : Request BookingForm) (pk user kb : N) (t : TravelOption.t)
  (b0 : Booking.t) (w : World) (method : Method)
  (Huser : req_user request = Some user)
  (Hpost : req_method request = POST)
  (Hvalid : is_valid (req_POST request) = true)
  (Hrow : travel_options w !! pk = Some t)
  (Hid : TravelOption.travel_id t = pk)
  (Hactive : TravelOption.status t = ACTIVE)
  (Hfits : number_of_seats (req_POST request) <= TravelOption.available_seats t)
  (Hbooked : bookings w !! kb = Some b0)
  (Hb0user : Booking.user b0 = Some user)
  (Hb0travel : Booking.travel_option b0 = Some pk)
  (Hb0status : Booking.status b0 = CONFIRMED)
  (Hinsert : insert_accepted t (number_of_seats (req_POST request)) w) :
  exists context key reference w',
    travel_detail_view (MkRequest (Some user) method tt) pk w = Ok context w
    /\ user_has_booking context = true
    /\ can_book context = false
    /\ book_travel_view request pk w
       = Ok (redirect (booking_detail (Some key))
               (success_booking_confirmed reference)) w'.
Proof.
  destruct (book_travel_view_accepts_tables request pk user t w Huser Hpost
              Hvalid Hrow Hid Hactive Hfits Hinsert)
    as (b & t' & w' & Hview & _).
  pose proof (has_confirmed_booking_true user pk kb (bookings w) b0 Hbooked
                Hb0user Hb0travel Hb0status) as Hhas.
  eexists. exists (entropy w (drawn w)), (Booking.booking_reference b), w'.
  split; [|split; [|split; [|exact Hview]]].
  - unfold travel_detail_view.
    rewrite (bind_Ok _ _ _ _ _ (get_TravelOption_or_404_run t w pk Hrow)).
    reflexivity.
  - simpl. rewrite Hid. exact Hhas.
  - simpl. rewrite Hid, Hhas. apply andb_false_r.
Qed.

Lemma book_travel_view_ignores_can_book_witness :
  exists context key reference w',
    travel_detail_view (MkRequest (Some 9%N) GET tt) 1%N
      world_with_confirmed_booking
    = Ok context world_with_confirmed_booking
    /\ can_book context = false
    /\ book_travel_view request_two_seats 1%N world_with_confirmed_booking
       = Ok (redirect (booking_detail (Some key))
               (success_booking_confirmed reference)) w'.
Proof.
  destruct (book_travel_view_ignores_can_book request_two_seats 1%N 9%N 5%N
              free_flight confirmed_booking world_with_confirmed_booking GET
              eq_refl eq_refl eq_refl eq_refl eq_refl eq_refl
              ltac:(simpl; lia) eq_refl eq_refl eq_refl eq_refl
              ltac:(split; [reflexivity|split; vm_compute; reflexivity]))
    as (context & key & reference & w' & Hd & _ & Hc & Hb).
  exists context, key, reference, w'. tauto.
Defined.

(** X23. The similar options of [travel_detail_view] are at most four stored
    options, never the option shown itself, each ACTIVE, not yet left and
    sharing the source or the destination of the option shown, in order of
    departure; the view changes nothing and raises a 404 for an unknown
    key. *)
Theorem travel_detail_view_similar_travels
  (request : Request unit) (pk : N) (w : World) :
  (travel_options w !! pk = None ->
   travel_detail_view request pk w = Raise Http404 w)
  /\ (forall t, travel_options w !! pk = Some t ->
      exists context,
        travel_detail_view request pk w = Ok context w
        /\ travel context = t
        /\ (length (similar_travels context) <= 4)%nat
        /\ StronglySorted by_departure (similar_travels context)
        /\ forall s, s ∈ similar_travels context ->
             (exists k, travel_options w !! k = Some s)
             /\ TravelOption.travel_id s <> pk
             /\ TravelOption.status s = ACTIVE
             /\ clock w <= TravelOption.departure_time s
             /\ (TravelOption.source s = TravelOption.source t
                 \/ TravelOption.destination s = TravelOption.destination t)).
Proof.
  split.
  - intros Hnone. unfold travel_detail_view, bind, get_TravelOption_or_404.
    rewrite Hnone. reflexivity.
  - intros t Hrow. eexists. split.
    + unfold travel_detail_view.
      rewrite (bind_Ok _ _ _ _ _ (get_TravelOption_or_404_run t w pk Hrow)).
      reflexivity.
    + simpl. split; [reflexivity|].
      split; [rewrite length_take; lia|].
      match goal with
      | |- context [query_by_departure ?rows ?keep] =>
          pose proof (query_by_departure_sorted rows keep) as Hsorted;
          pose proof (elem_of_query_by_departure rows keep) as Hin;
          set (l := query_by_departure rows keep) in *
      end.
      split.
      * rewrite <- (take_drop 4 l) in Hsorted.
        exact (StronglySorted_app_1_l _ _ _ Hsorted).
      * intros s Hs. apply elem_of_take in Hs. destruct Hs as (i & Hi & _).
        apply list_elem_of_lookup_2, Hin in Hi. destruct Hi as [Hk Hex].
        rewrite !andb_true_iff, orb_true_iff, negb_true_iff,
          !bool_decide_eq_true, bool_decide_eq_false, Z.leb_le in Hk.
        tauto.
Qed.

Lemma travel_detail_view_similar_travels_witness :
  exists context,
    travel_detail_view (MkRequest None GET tt) 1%N (sample_world free_flight 0)
    = Ok context (sample_world free_flight 0)
    /\ travel context = free_flight
    /\ similar_travels context = [].
Proof.
  destruct (travel_detail_view_similar_travels (MkRequest None GET tt) 1%N
              (sample_world free_flight 0)) as [_ H].
  destruct (H free_flight eq_refl) as (context & Hrun & Ht & _).
  exists context. split; [exact Hrun|]. split; [exact Ht|].
  assert (E : Ok context (sample_world free_flight 0)
              = Ok (MkTravelDetailContext free_flight false [] true)
                   (sample_world free_flight 0))
    by (rewrite <- Hrun; vm_compute; reflexivity).
  inversion E. reflexivity.
Defined.

(** ** Password rules *)

(** X24. Registration and password change enforce the same strength rule.
    [clean_password] accepts a password exactly when it has an uppercase
    letter, a lowercase letter and a digit; for two non-empty entries,
    [PasswordChangeForm.clean] accepts exactly when they are equal and
    [clean_password] accepts them, and it reports a mismatch before any
    weakness.  When either entry is missing or empty it checks nothing. *)
Theorem password_rules_agree (n c : string) :
  (clean_password n = Valid n
   <-> re_search is_upper n = true /\ re_search is_lower n = true
       /\ re_search is_digit n = true)
  /\ (n <> EmptyString -> c <> EmptyString ->
      (PasswordChangeForm_clean (Some n) (Some c) = Valid (Some n, Some c)
       <-> n = c /\ clean_password n = Valid n)
      /\ (n <> c ->
          PasswordChangeForm_clean (Some n) (Some c)
          = Invalid "New passwords do not match"))
  /\ PasswordChangeForm_clean (Some n) None = Valid (Some n, None)
  /\ PasswordChangeForm_clean (Some n) (Some EmptyString)
     = Valid (Some n, Some EmptyString).
Proof.
  assert (Hrule : clean_password n = Valid n
            <-> re_search is_upper n = true /\ re_search is_lower n = true
                /\ re_search is_digit n = true).
  { unfold clean_password.
    destruct (re_search is_upper n), (re_search is_lower n),
      (re_search is_digit n); simpl; split; intros H;
      try discriminate H; try reflexivity; tauto || (destruct H as (? & ? & ?);
      discriminate). }
  split; [exact Hrule|]. split; [|split].
  - intros Hn Hc.
    assert (Hne : nonempty n && nonempty c = true)
      by (destruct n, c; try contradiction; reflexivity).
    unfold PasswordChangeForm_clean. rewrite Hne.
    destruct (String.eqb_spec n c) as [E|E]; simpl.
    + subst c. split; [|intros; contradiction].
      rewrite Hrule. unfold clean_password in *.
      destruct (re_search is_upper n), (re_search is_lower n),
        (re_search is_digit n); simpl; split; intros H;
        try discriminate H; try reflexivity; try tauto;
        destruct H as [_ (? & ? & ?)]; discriminate.
    + split; [|reflexivity].
      split; [discriminate | intros [? _]; contradiction].
  - reflexivity.
  - unfold PasswordChangeForm_clean. rewrite andb_false_r. reflexivity.
Qed.

Lemma password_rules_agree_witness :
  PasswordChangeForm_clean (Some "Secret12"%string) (Some "Secret12"%string)
  = Valid (Some "Secret12"%string, Some "Secret12"%string)
  /\ PasswordChangeForm_clean (Some "Secret12"%string) (Some "secret12"%string)
     = Invalid "New passwords do not match".
Proof.
  destruct (password_rules_agree "Secret12" "Secret12") as (_ & H & _).
  destruct (H ltac:(discriminate) ltac:(discriminate)) as [Hiff _].
  destruct (password_rules_agree "Secret12" "secret12") as (_ & H' & _).
  destruct (H' ltac:(discriminate) ltac:(discriminate)) as [_ Hmis].
  split.
  - apply Hiff. split; reflexivity.
  - apply Hmis. discriminate.
Defined.

(** ** The list of a user's bookings *)

Lemma separate_upcoming_and_past_run
  (now : Z) (w : World) (l : list Booking.t) :
  clock w = now ->
  Forall (fun b => exists k t, Booking.travel_option b = Some k
                               /\ travel_options w !! k = Some t) l ->
  exists upcoming past,
    separate_upcoming_and_past now l w = Ok (upcoming, past) w
    /\ (forall b, b ∈ upcoming ->
          b ∈ l /\ exists k t, Booking.travel_option b = Some k
                               /\ travel_options w !! k = Some t
                               /\ now <= TravelOption.departure_time t)
    /\ (forall b, b ∈ past ->
          b ∈ l /\ exists k t, Booking.travel_option b = Some k
                               /\ travel_options w !! k = Some t
                               /\ TravelOption.departure_time t < now)
    /\ (forall b, b ∈ l -> b ∈ upcoming \/ b ∈ past).
Proof.
  intros Hnow. induction 1 as [|b l (k & t & Hfk & Hrow) _ IH]; simpl.
  - exists [], []. split; [reflexivity|].
    split; [|split]; intros x Hx; inversion Hx.
  - destruct IH as (up & past & Hrun & Hup & Hpast & Hall).
    rewrite (bind_Ok _ _ _ _ _ (related_travel_option_run b t w k Hfk Hrow)).
    rewrite (bind_Ok _ _ _ _ _ Hrun). simpl. unfold ret.
    destruct (Z.leb_spec now (TravelOption.departure_time t)) as [Hle|Hlt].
    + exists (b :: up), past. split; [reflexivity|].
      split; [|split].
      * intros x Hx. apply elem_of_cons in Hx. destruct Hx as [->|Hx].
        -- split; [apply list_elem_of_here|]. exists k, t. tauto.
        -- destruct (Hup x Hx) as [H1 H2]. split; [|exact H2].
           apply list_elem_of_further. exact H1.
      * intros x Hx. destruct (Hpast x Hx) as [H1 H2]. split; [|exact H2].
        apply list_elem_of_further. exact H1.
      * intros x Hx. apply elem_of_cons in Hx. destruct Hx as [->|Hx].
        -- left. apply list_elem_of_here.
        -- destruct (Hall x Hx); [left; apply list_elem_of_further | right];
             assumption.
    + exists up, (b :: past). split; [reflexivity|].
      split; [|split].
      * intros x Hx. destruct (Hup x Hx) as [H1 H2]. split; [|exact H2].
        apply list_elem_of_further. exact H1.
      * intros x Hx. apply elem_of_cons in Hx. destruct Hx as [->|Hx].
        -- split; [apply list_elem_of_here|]. exists k, t. tauto.
        -- destruct (Hpast x Hx) as [H1 H2]. split; [|exact H2].
           apply list_elem_of_further. exact H1.
      * intros x Hx. apply elem_of_cons in Hx. destruct Hx as [->|Hx].
        -- right. apply list_elem_of_here.
        -- destruct (Hall x Hx); [left | right; apply list_elem_of_further];
             assumption.
Qed.

Lemma elem_of_my_bookings_queryset
  (user : N) (filter : option string) (w : World) (b : Booking.t) :
  b ∈ my_bookings_queryset user filter w ->
  (exists key, bookings w !! key = Some b) /\ Booking.user b = Some user.
Proof.
  unfold my_bookings_queryset.
  rewrite merge_sort_Permutation, list_elem_of_In, List.filter_In,
    <- list_elem_of_In, list_elem_of_fmap.
  intros [([key b'] & -> & Hin) Hk].
  apply andb_true_iff in Hk. destruct Hk as [Hu _].
  apply bool_decide_eq_true in Hu.
  split; [|exact Hu]. exists key. apply elem_of_map_to_list. exact Hin.
Qed.

(** X25. [my_bookings_view] shows a user only that user's own bookings and
    sorts each shown booking on the right side of now.  When every booking
    points to a stored travel option, the view reads without changing
    anything; the upcoming list and the past list hold at most five bookings
    each and the page at most ten, all of them stored bookings of the
    requester; every upcoming booking departs at or after the current time
    and every past one before it, so no booking is in both lists. *)
Theorem my_bookings_view_separates_own_bookings
  (user : N) (method : Method) (filter : option string) (page : option Z)
  (w : World)
  (Hintegrity :
     forall key b, bookings w !! key = Some b ->
       exists k t, Booking.travel_option b = Some k
                   /\ travel_options w !! k = Some t) :
  exists context,
    my_bookings_view (MkRequest (Some user) method tt) filter page w
    = Ok (my_bookings_render context) w
    /\ (length (upcoming_bookings context) <= 5)%nat
    /\ (length (past_bookings context) <= 5)%nat
    /\ (length (bookings_page_obj context) <= 10)%nat
    /\ (forall b,
          b ∈ upcoming_bookings context \/ b ∈ past_bookings context
          \/ b ∈ bookings_page_obj context ->
          (exists key, bookings w !! key = Some b)
          /\ Booking.user b = Some user)
    /\ (forall b, b ∈ upcoming_bookings context ->
          exists k t, Booking.travel_option b = Some k
                      /\ travel_options w !! k = Some t
                      /\ clock w <= TravelOption.departure_time t)
    /\ (forall b, b ∈ past_bookings context ->
          exists k t, Booking.travel_option b = Some k
                      /\ travel_options w !! k = Some t
                      /\ TravelOption.departure_time t < clock w)
    /\ (forall b, b ∈ upcoming_bookings context ->
                  b ∈ past_bookings context -> False).
Proof.
  set (l := my_bookings_queryset user filter w).
  assert (Hl : Forall (fun b => exists k t, Booking.travel_option b = Some k
                                 /\ travel_options w !! k = Some t) l).
  { apply Forall_forall. intros b Hb.
    destruct (elem_of_my_bookings_queryset user filter w b Hb)
      as [(key & Hkey) _].
    exact (Hintegrity key b Hkey). }
  destruct (separate_upcoming_and_past_run (clock w) w l eq_refl Hl)
    as (up & past & Hrun & Hup & Hpast & _).
  destruct (get_page_within l 10 page) as [Hplen Hpin].
  eexists. split.
  - unfold my_bookings_view. simpl. unfold bind at 1, get_world.
    unfold bind at 1, timezone_now. fold l.
    rewrite (bind_Ok _ _ _ _ _ Hrun). reflexivity.
  - simpl.
    assert (Htake : forall (n : nat) (xs : list Booking.t) b,
              b ∈ take n xs -> b ∈ xs).
    { intros n xs b Hb. apply elem_of_take in Hb. destruct Hb as (i & Hi & _).
      eapply list_elem_of_lookup_2. exact Hi. }
    split; [rewrite length_take; lia|].
    split; [rewrite length_take; lia|].
    split; [exact Hplen|].
    split; [|split; [|split]].
    + intros b [Hb|[Hb|Hb]];
        apply (elem_of_my_bookings_queryset user filter w).
      * apply Htake in Hb. apply (Hup b Hb).
      * apply Htake in Hb. apply (Hpast b Hb).
      * apply Hpin. exact Hb.
    + intros b Hb. apply Htake in Hb. apply (Hup b Hb).
    + intros b Hb. apply Htake in Hb. apply (Hpast b Hb).
    + intros b Hb1 Hb2. apply Htake in Hb1. apply Htake in Hb2.
      destruct (Hup b Hb1) as [_ (k & t & Hk & Ht & Hle)].
      destruct (Hpast b Hb2) as [_ (k' & t' & Hk' & Ht' & Hlt)].
      assert (k' = k) by congruence. subst k'.
      assert (t' = t) by congruence. subst t'. lia.
Qed.

Lemma my_bookings_view_separates_own_bookings_witness :
  exists context,
    my_bookings_view (MkRequest (Some 9%N) GET tt) None None
      (world_before_departure 30)
    = Ok (my_bookings_render context) (world_before_departure 30)
    /\ upcoming_bookings context = [confirmed_booking]
    /\ past_bookings context = [].
Proof.
  destruct (my_bookings_view_separates_own_bookings 9%N GET None None
              (world_before_departure 30))
    as (context & Hrun & _).
  - intros key b Hb. exists 1%N, (sold_out_flight 30).
    destruct (decide (key = 5%N)) as [->|Hne].
    + vm_compute in Hb. inversion Hb. split; reflexivity.
    + unfold world_before_departure, sample_world_with in Hb. simpl in Hb.
      rewrite lookup_singleton_ne in Hb by congruence. discriminate.
  - exists context. split; [exact Hrun|].
    assert (E : Ok (my_bookings_render context) (world_before_departure 30)
                = Ok (my_bookings_render
                        (MkMyBookingsContext [confirmed_booking]
                           [confirmed_booking] [] None))
                     (world_before_departure 30))
      by (rewrite <- Hrun; vm_compute; reflexivity).
    inversion E. split; reflexivity.
Defined.
